(** * AirTrafficSim: autopilot flight plans and the aircraft facade

    A shallow embedding of [airtrafficsim/core/autopilot.py] and
    [airtrafficsim/core/aircraft.py].

    Conventions of the embedding.
    - Python floats (altitudes, speeds, coordinates, distances, angles) are
      rationals [Q]; every finite float is one.  Sums, products and
      comparisons are those of [Q], without rounding, infinities or NaN.
      The values of the cross-track correction, which needs the exponential
      function, are studied over the reals [R].
    - Python [int]s (aircraft indices, subscripts) are [Z]; list and array
      subscripts follow Python: a negative subscript counts from the end and
      a subscript out of range raises [IndexError].  The leg pointers live in
      a numpy vector of 64-bit integers: what is stored there wraps around or
      is refused as numpy has it, see [pyint].
    - A call either returns or raises: [result A].  The methods of
      [Autopilot] are functions [Autopilot.t -> result Autopilot.t] (the
      state a raising call leaves behind is not described); the methods of
      [Aircraft] run in a state-and-exception monad that keeps the state
      reached when an exception escapes.
    - [Nav], [Cal], [Unit], the performance and the weather model and the
      [Traffic] store live in modules that are not part of the sources at
      hand; they appear as records of functions and of vectors, and are
      passed as arguments.  So do the elementary functions of numpy whose
      values are not rational. *)

From Stdlib Require Import ZArith QArith Qabs Qround String Ascii List Reals Lra Lia.
From stdpp Require Import base option list strings.
From coqutil Require Import Datatypes.RecordSetters.
Import RecordSetters.TriangleBracketNotations.

#[local] Open Scope string_scope.
#[local] Open Scope list_scope.
#[local] Open Scope Z_scope.

(** ** Exceptions *)

Inductive exn := IndexError | ValueError | NotFound | OverflowError | TypeError.

Inductive result (A : Type) :=
| Ok (a : A)
| Raise (e : exn).
Arguments Ok {A} a.
Arguments Raise {A} e.

#[global] Instance result_ret : MRet result := fun A a => Ok a.
#[global] Instance result_bind : MBind result := fun A B f m =>
  match m with
  | Ok a => f a
  | Raise e => Raise e
  end.

(** ** Integers

    A Python [int] is unbounded.  [self.flight_plan_index] is a numpy vector
    of 64-bit integers ([np.zeros([0], dtype=int)], line 60): an entry read
    from it is an [int64] scalar, whose arithmetic wraps around, and a Python
    [int] that is assigned to an entry has to fit in 64 bits, or the
    assignment raises [OverflowError]. *)

Definition int64_min : Z := - 2 ^ 63.
Definition int64_max : Z := 2 ^ 63 - 1.

(** The 64-bit two's complement integer that is congruent to [z]. *)
Definition wrap64 (z : Z) : Z := (z + 2 ^ 63) mod 2 ^ 64 - 2 ^ 63.

(** An integer as a caller passes it. *)
Inductive pyint :=
| Int (z : Z)       (* a Python [int] *)
| Int64 (z : Z).    (* a numpy [int64] scalar *)

Coercion Int : Z >-> pyint.

(** [x + k] for a Python [int] [k] *)
Definition add_int (x : pyint) (k : Z) : pyint :=
  match x with
  | Int z => Int (z + k)
  | Int64 z => Int64 (wrap64 (z + k))
  end.

(** The entry that [v[i] = x] stores in a vector [v] of 64-bit integers. *)
Definition to_int64 (x : pyint) : result Z :=
  match x with
  | Int z => if (int64_min <=? z) && (z <=? int64_max) then Ok z else Raise OverflowError
  | Int64 z => Ok z
  end.

(** ** Python lists, numpy vectors and strings *)

Module Py.

Section Lists.
Context {A : Type}.

(** Position denoted by subscript [i] in a sequence of [len] items. *)
Definition norm (len : nat) (i : Z) : option nat :=
  if (0 <=? i) && (i <? Z.of_nat len) then Some (Z.to_nat i)
  else if (- Z.of_nat len <=? i) && (i <? 0) then Some (Z.to_nat (Z.of_nat len + i))
  else None.

(** [l[i]] *)
Definition getitem (l : list A) (i : Z) : result A :=
  match norm (length l) i with
  | Some n => match l !! n with Some x => Ok x | None => Raise IndexError end
  | None => Raise IndexError
  end.

(** [l[i] = v] *)
Definition setitem (l : list A) (i : Z) (v : A) : result (list A) :=
  match norm (length l) i with
  | Some n => Ok (<[n := v]> l)
  | None => Raise IndexError
  end.

(** [del l[i]], and [np.delete(l, i)] for an integer [i] *)
Definition delitem (l : list A) (i : Z) : result (list A) :=
  match norm (length l) i with
  | Some n => Ok (delete n l)
  | None => Raise IndexError
  end.

(** Position at which [l.insert(i, v)] puts [v]: subscripts beyond either
    end are clamped. *)
Definition insert_pos (len : nat) (i : Z) : nat :=
  if i <? 0 then Z.to_nat (Z.max 0 (Z.of_nat len + i))
  else Z.to_nat (Z.min i (Z.of_nat len)).

(** [l.insert(i, v)] *)
Definition insert (l : list A) (i : Z) (v : A) : list A :=
  let n := insert_pos (length l) i in
  take n l ++ v :: drop n l.

(** [l.append(v)], and [np.append(l, v)] *)
Definition append (l : list A) (v : A) : list A := l ++ [v].

(** [l.pop()]: the list without its last item *)
Definition pop (l : list A) : result (list A) :=
  match l with
  | [] => Raise IndexError
  | _ => Ok (removelast l)
  end.

(** [l[-1]] *)
Definition last (l : list A) : result A := getitem l (-1).
End Lists.

(** [len(set(l)) == 1] *)
Definition all_same (l : list string) : bool :=
  match l with
  | [] => false
  | x :: l' => forallb (String.eqb x) l'
  end.

(** *** Strings *)

(** [s[n:]] *)
Fixpoint str_from (n : nat) (s : string) : string :=
  match n, s with
  | O, _ => s
  | S n', String _ s' => str_from n' s'
  | S _, EmptyString => EmptyString
  end.

(** [s[:n]] *)
Fixpoint str_upto (n : nat) (s : string) : string :=
  match n, s with
  | O, _ => EmptyString
  | S n', String c s' => String c (str_upto n' s')
  | S _, EmptyString => EmptyString
  end.

(** [s[a:b]] for [0 <= a <= b] *)
Definition slice (a b : nat) (s : string) : string :=
  str_upto (b - a) (str_from a s).

(** [s[-1]] *)
Fixpoint str_last (s : string) : result ascii :=
  match s with
  | EmptyString => Raise IndexError
  | String c EmptyString => Ok c
  | String _ s' => str_last s'
  end.

(** [s[0]] *)
Definition str_first (s : string) : result string :=
  match s with
  | EmptyString => Raise IndexError
  | String c _ => Ok (String c EmptyString)
  end.

Definition is_space (c : ascii) : bool :=
  let n := nat_of_ascii c in
  ((9 <=? n) && (n <=? 13) || (28 <=? n) && (n <=? 32))%nat.

Definition digit_of (c : ascii) : option Z :=
  let n := Z.of_nat (nat_of_ascii c) in
  if (48 <=? n) && (n <=? 57) then Some (n - 48) else None.

Fixpoint lstrip (s : string) : string :=
  match s with
  | String c s' => if is_space c then lstrip s' else s
  | EmptyString => EmptyString
  end.

Definition strip (s : string) : string :=
  String.rev (lstrip (String.rev (lstrip s))).

(** Decimal digits, where single underscores may separate digits. *)
Fixpoint digits (acc : Z) (after_digit : bool) (s : string) : option Z :=
  match s with
  | EmptyString => if after_digit then Some acc else None
  | String c s' =>
      match digit_of c with
      | Some d => digits (10 * acc + d) true s'
      | None =>
          if Ascii.eqb c "_" && after_digit then digits acc false s' else None
      end
  end.

(** [int(s)] for a string [s] *)
Definition int (s : string) : result Z :=
  let body :=
    match strip s with
    | String "+" s' => digits 0 false s'
    | String "-" s' => Z.opp <$> digits 0 false s'
    | s' => digits 0 false s'
    end in
  match body with
  | Some z => Ok z
  | None => Raise ValueError
  end.

Definition digit_char (d : Z) : ascii := ascii_of_nat (Z.to_nat (48 + d)).

Fixpoint str_pos (fuel : nat) (z : Z) (acc : string) : string :=
  match fuel with
  | O => acc
  | S fuel' =>
      let acc' := String (digit_char (z mod 10)) acc in
      if z <? 10 then acc' else str_pos fuel' (z / 10) acc'
  end.

(** [str(z)] for an integer [z] *)
Definition str (z : Z) : string :=
  if z <? 0 then String "-" (str_pos (Z.to_nat (Z.log2 (- z)) + 1) (- z) "")
  else str_pos (Z.to_nat (Z.log2 z) + 1) z "".

Fixpoint zeros (n : nat) : string :=
  match n with
  | O => EmptyString
  | S n' => String "0" (zeros n')
  end.

(** [s.zfill(width)] *)
Definition zfill (width : nat) (s : string) : string :=
  let pad := zeros (width - String.length s) in
  match s with
  | String "+" s' => String "+" (pad +:+ s')
  | String "-" s' => String "-" (pad +:+ s')
  | _ => pad +:+ s
  end.

End Py.

(** ** Enumerations ([airtrafficsim/utils/enums.py]) *)

Inductive APLateralMode := HEADING | LNAV.
Inductive APThrottleMode := AUTO | SPEED.
Inductive APSpeedMode := CONSTANT_MACH | CONSTANT_CAS | ACCELERATE | DECELERATE.
Inductive SpeedMode := CAS | MACH.
Inductive VerticalMode := LEVEL | CLIMB | DESCENT.

#[global] Instance APLateralMode_eq_dec : EqDecision APLateralMode.
Proof. solve_decision. Defined.
#[global] Instance APThrottleMode_eq_dec : EqDecision APThrottleMode.
Proof. solve_decision. Defined.
#[global] Instance SpeedMode_eq_dec : EqDecision SpeedMode.
Proof. solve_decision. Defined.

(** ** The navigation database *)

(** An item of a holding definition: the fix name is a string, the inbound
    course (item 4) and the leg length (item 6) are numbers. *)
Inductive hitem :=
| HStr (s : string)
| HNum (q : Q).

(** What [Nav.get_procedure] returns: five lists, one entry per leg. *)
Record Procedure := {
  waypoint : list string;
  alt_restriction_type : list string;
  alt_restriction : list Q;
  speed_restriction_type : list string;
  speed_restriction : list Q
}.

(** Modelled from the spec: the class [Nav] of [core/navigation.py], which is
    not among the sources.  A lookup returns its value or raises (the spec:
    "fails with NotFound").  [get_procedure airport runway procedure appch iaf]
    takes the two keyword arguments last; [None] stands for an argument that
    the call leaves to its default. *)
Record Nav := {
  get_runway_coord : string -> string -> result (Q * Q * Q);
  get_procedure :
    string -> string -> string -> option string -> option string -> result Procedure;
  get_wp_coord : string -> Q -> Q -> result (Q * Q);
  get_holding_procedure : string -> string -> result (list hitem)
}.

(** ** Reciprocal runway *)

(** [autopilot.py], lines 316-323: the identifier of the runway in the
    opposite direction, from an identifier such as ["RW07L"].  The quotient
    [/ 10] is a float division followed by [int]; the dividend is an integer
    in [0, 360), so this is the truncating quotient. *)
Definition opp_runway (arrival_runway : string) : result string :=
  n ← Py.int (Py.slice 2 4 arrival_runway);
  let opp_runway := Py.zfill 2 (Py.str (Z.quot ((n * 10 + 180) mod 360) 10)) in
  rwy_letter ← Py.str_last arrival_runway;
  if Ascii.eqb rwy_letter "L" then Ok (opp_runway +:+ "R")
  else if Ascii.eqb rwy_letter "R" then Ok (opp_runway +:+ "L")
  else if Ascii.eqb rwy_letter "C" then Ok (opp_runway +:+ "C")
  else Ok opp_runway.

(** ** The autopilot state ([Autopilot.__init__])

    One entry per aircraft in every field: numpy vectors and Python lists
    alike are lists here. *)

Module Autopilot.

Record t := mk {
  alt : list Q;  (* Autopilot target altitude [feet] *)
  heading : list Q;  (* Autopilot target heading [deg] *)
  track_angle : list Q;  (* Autopilot target track angle [deg] *)
  ap_rate_of_turn : list Q;  (* Rate of turn [deg/s] *)
  cas : list Q;  (* Autopilot target calibrated air speed [knots] *)
  mach : list Q;  (* Autopilot target Mach number *)
  vs : list Q;  (* Autopilot target vertical speed [feet/min] *)
  fpa : list Q;  (* Flight path angle [deg] *)
  lat : list Q;  (* Autopilot target latitude [deg] *)
  long : list Q;  (* Autopilot target longitude [deg] *)
  lat_next : list Q;  (* Target latitude of the next waypoint [deg] *)
  long_next : list Q;  (* Target longitude of the next waypoint [deg] *)
  lat_prev : list Q;  (* Target latitude of the previous waypoint [deg] *)
  long_prev : list Q;  (* Target longitude of the previous waypoint [deg] *)
  hv_next_wp : list bool;  (* Whether there is a next waypoint *)
  dist : list Q;  (* Distance to next waypoint *)
  flight_plan_index : list Z;  (* Index of the next waypoint in the flight plan *)
  flight_plan_enroute : list (list string);  (* Flight plan for enroute navigation *)
  flight_plan_name : list (list string);  (* Names of the waypoints, per aircraft *)
  flight_plan_lat : list (list Q);  (* Latitudes of the waypoints, per aircraft *)
  flight_plan_long : list (list Q);  (* Longitudes of the waypoints, per aircraft *)
  flight_plan_target_alt : list (list Q);  (* Target altitude at each waypoint, per aircraft *)
  flight_plan_target_speed : list (list Q);  (* Target speed at each waypoint, per aircraft *)
  procedure_speed : list Q;  (* Procedural target speed *)
  speed_mode : list (option APSpeedMode);  (* Autopilot speed mode; [None] is the number 0 *)
  auto_throttle_mode : list APThrottleMode;  (* Autothrottle mode *)
  vertical_mode : list Z;  (* Autopilot vertical mode (numeric code) *)
  lateral_mode : list APLateralMode;  (* Autopilot lateral mode *)
  expedite_descent : list bool;  (* Autopilot expedite setting *)
  departure_airport : list string;  (* Departure airport *)
  departure_runway : list string;  (* Departure runway *)
  sid : list string;  (* Standard instrument departure procedure *)
  arrival_airport : list string;  (* Arrival airport *)
  arrival_runway : list string;  (* Arrival runway *)
  star : list string;  (* Standard terminal arrival procedure *)
  approach : list string;  (* Approach procedure *)
  cruise_alt : list Q;  (* Cruise altitude *)
  flight_plan_updated : list bool;  (* Flight plan changed since the last update *)
  holding : list bool;  (* Holding in progress *)
  holding_round : list Q;  (* Remaining holding rounds *)
  holding_info : list (list hitem)  (* Holding definition, empty when there is none *)
}.

(** The state built by [__init__]: no aircraft. *)
Definition init : t :=
  {| alt := [];
     heading := [];
     track_angle := [];
     ap_rate_of_turn := [];
     cas := [];
     mach := [];
     vs := [];
     fpa := [];
     lat := [];
     long := [];
     lat_next := [];
     long_next := [];
     lat_prev := [];
     long_prev := [];
     hv_next_wp := [];
     dist := [];
     flight_plan_index := [];
     flight_plan_enroute := [];
     flight_plan_name := [];
     flight_plan_lat := [];
     flight_plan_long := [];
     flight_plan_target_alt := [];
     flight_plan_target_speed := [];
     procedure_speed := [];
     speed_mode := [];
     auto_throttle_mode := [];
     vertical_mode := [];
     lateral_mode := [];
     expedite_descent := [];
     departure_airport := [];
     departure_runway := [];
     sid := [];
     arrival_airport := [];
     arrival_runway := [];
     star := [];
     approach := [];
     cruise_alt := [];
     flight_plan_updated := [];
     holding := [];
     holding_round := [];
     holding_info := [] |}.

End Autopilot.

(** ** Statements on the entries of one aircraft *)

Section Entry.
Context {A : Type} (field : Autopilot.t -> list A) {field_set : Setter field}.

(** [self.field[index] = v] *)
Definition assign (index : Z) (v : A) (self : Autopilot.t) : result Autopilot.t :=
  l ← Py.setitem (field self) index v;
  Ok (self <| field := l |>).

(** [self.field = np.delete(self.field, index)], [del self.field[index]] *)
Definition remove (index : Z) (self : Autopilot.t) : result Autopilot.t :=
  l ← Py.delitem (field self) index;
  Ok (self <| field := l |>).

(** [self.field = np.append(self.field, v)], [self.field.append(v)] *)
Definition push (v : A) (self : Autopilot.t) : Autopilot.t :=
  self <| field := Py.append (field self) v |>.
End Entry.

Section Legs.
Context {A : Type} (field : Autopilot.t -> list (list A)) {field_set : Setter field}.

(** A statement that changes the list [self.field[index]] in place.  No
    two entries share a list: each is created by [= []] or [append([])]. *)
Definition mutate (index : Z) (f : list A -> result (list A))
    (self : Autopilot.t) : result Autopilot.t :=
  l ← Py.getitem (field self) index;
  l' ← f l;
  assign field index l' self.

(** [self.field[index].extend(items)] *)
Definition extend (index : Z) (items : list A) : Autopilot.t -> result Autopilot.t :=
  mutate index (fun l => Ok (l ++ items)).

(** [self.field[index].append(v)] *)
Definition append (index : Z) (v : A) : Autopilot.t -> result Autopilot.t :=
  mutate index (fun l => Ok (Py.append l v)).

(** [self.field[index].pop()] *)
Definition pop (index : Z) : Autopilot.t -> result Autopilot.t :=
  mutate index Py.pop.

(** [self.field[index].insert(i, v)] *)
Definition insert (index : Z) (i : Z) (v : A) : Autopilot.t -> result Autopilot.t :=
  mutate index (fun l => Ok (Py.insert l i v)).

(** [self.field[index][i] = v] *)
Definition assign_item (index : Z) (i : Z) (v : A) : Autopilot.t -> result Autopilot.t :=
  mutate index (fun l => Py.setitem l i v).
End Legs.

(** ** Flight-plan assembly ([Autopilot.set_flight_plan]) *)

(** The altitude and speed value that stands for "not specified". *)
Definition unspecified : Q := -1.

Section Assembly.
Variable nav : Nav.
Variable index : Z.

(** The three statements that follow every appended procedure. *)
Definition engage_lnav (self : Autopilot.t) : result Autopilot.t :=
  self ← assign Autopilot.hv_next_wp index true self;
  self ← assign Autopilot.lateral_mode index LNAV self;
  assign Autopilot.auto_throttle_mode index AUTO self.

Definition extend_legs (waypoint : list string) (alt_restriction speed_restriction : list Q)
    (self : Autopilot.t) : result Autopilot.t :=
  self ← extend Autopilot.flight_plan_name index waypoint self;
  self ← extend Autopilot.flight_plan_target_alt index alt_restriction self;
  extend Autopilot.flight_plan_target_speed index speed_restriction self.

Definition pop_leg (self : Autopilot.t) : result Autopilot.t :=
  self ← pop Autopilot.flight_plan_name index self;
  self ← pop Autopilot.flight_plan_target_alt index self;
  pop Autopilot.flight_plan_target_speed index self.

(** Lines 187-205. *)
Definition store_route (departure_airport departure_runway sid arrival_airport
    arrival_runway star approach : string) (flight_plan : list string)
    (flight_plan_index : pyint) (cruise_alt : Q) (self : Autopilot.t) : result Autopilot.t :=
  self ← assign Autopilot.departure_airport index departure_airport self;
  self ← assign Autopilot.departure_runway index departure_runway self;
  self ← assign Autopilot.sid index sid self;
  self ← assign Autopilot.arrival_airport index arrival_airport self;
  self ← assign Autopilot.arrival_runway index arrival_runway self;
  self ← assign Autopilot.star index star self;
  self ← assign Autopilot.approach index approach self;
  self ← assign Autopilot.cruise_alt index cruise_alt self;
  self ← assign Autopilot.flight_plan_enroute index flight_plan self;
  self ← assign Autopilot.flight_plan_name index [] self;
  self ← assign Autopilot.flight_plan_lat index [] self;
  self ← assign Autopilot.flight_plan_long index [] self;
  self ← assign Autopilot.flight_plan_target_alt index [] self;
  self ← assign Autopilot.flight_plan_target_speed index [] self;
  pointer ← to_int64 (add_int flight_plan_index 1);
  self ← assign Autopilot.flight_plan_index index pointer self;
  assign Autopilot.flight_plan_updated index true self.

(** Lines 209-219: the SID. *)
Definition add_sid (departure_airport departure_runway sid : string)
    (self : Autopilot.t) : result Autopilot.t :=
  if String.eqb sid "" then Ok self
  else
    p ← get_procedure nav departure_airport departure_runway sid None None;
    if (0 <? length (waypoint p))%nat then
      self ← extend_legs (waypoint p) (alt_restriction p) (speed_restriction p) self;
      engage_lnav self
    else Ok self.

(** Lines 222-230: the enroute waypoints. *)
Definition add_enroute (flight_plan : list string) (cruise_alt : Q)
    (self : Autopilot.t) : result Autopilot.t :=
  match flight_plan with
  | [] => Ok self
  | _ =>
      self ← extend Autopilot.flight_plan_name index flight_plan self;
      self ← (if Qlt_le_dec unspecified cruise_alt
              then extend Autopilot.flight_plan_target_alt index
                     (map (fun _ => cruise_alt) flight_plan) self
              else Ok self);
      self ← extend Autopilot.flight_plan_target_speed index
               (map (fun _ => unspecified) flight_plan) self;
      engage_lnav self
  end.

(** Lines 233-242: the STAR. *)
Definition add_star (arrival_airport arrival_runway star : string)
    (self : Autopilot.t) : result Autopilot.t :=
  if String.eqb star "" then Ok self
  else
    p ← get_procedure nav arrival_airport (Py.str_from 2 arrival_runway) star None None;
    if (0 <? length (waypoint p))%nat then
      self ← extend_legs (waypoint p) (alt_restriction p) (speed_restriction p) self;
      engage_lnav self
    else Ok self.

(** Lines 244-286: the initial and the final approach. *)
Definition add_approach (arrival_airport arrival_runway approach : string)
    (self : Autopilot.t) : result Autopilot.t :=
  if String.eqb approach "" then Ok self
  else
    names ← Py.getitem (Autopilot.flight_plan_name self) index;
    iaf ← Py.last names;
    p ← get_procedure nav arrival_airport (Py.str_from 2 arrival_runway) approach
          (Some "A") (Some iaf);
    self ← (if (0 <? length (waypoint p))%nat then
              if Py.all_same (waypoint p) then
                self ← pop_leg self;
                extend_legs (take 1 (waypoint p)) (take 1 (alt_restriction p))
                  (take 1 (speed_restriction p)) self
              else
                self ← pop_leg self;
                extend_legs (waypoint p) (alt_restriction p) (speed_restriction p) self
            else Ok self);
    appch ← Py.str_first approach;
    p ← get_procedure nav arrival_airport (Py.str_from 2 arrival_runway) approach
          (Some appch) None;
    if (0 <? length (waypoint p))%nat then
      self ← pop_leg self;
      self ← extend_legs (waypoint p) (alt_restriction p) (speed_restriction p) self;
      engage_lnav self
    else Ok self.

(** Lines 289-297: the loop over [enumerate(self.flight_plan_name[index])];
    [i] is the position of the head of [names]. *)
Fixpoint resolve_coords (i : Z) (names : list string)
    (self : Autopilot.t) : result Autopilot.t :=
  match names with
  | [] => Ok self
  | val :: names' =>
      '(lat_ref, long_ref) ←
        (if i =? 0 then
           a ← Py.getitem (Autopilot.lat self) index;
           b ← Py.getitem (Autopilot.long self) index;
           Ok (a, b)
         else
           lats ← Py.getitem (Autopilot.flight_plan_lat self) index;
           a ← Py.getitem lats (i - 1);
           longs ← Py.getitem (Autopilot.flight_plan_long self) index;
           b ← Py.getitem longs (i - 1);
           Ok (a, b));
      '(lat_tmp, long_tmp) ← get_wp_coord nav val lat_ref long_ref;
      self ← append Autopilot.flight_plan_lat index lat_tmp self;
      self ← append Autopilot.flight_plan_long index long_tmp self;
      resolve_coords (i + 1) names' self
  end.

Definition add_coords (self : Autopilot.t) : result Autopilot.t :=
  names ← Py.getitem (Autopilot.flight_plan_name self) index;
  resolve_coords 0 names self.

(** Lines 300-331: the arrival runway and the far end of it. *)
Definition add_arrival_runway (arrival_airport arrival_runway : string)
    (self : Autopilot.t) : result Autopilot.t :=
  if String.eqb arrival_runway "" then Ok self
  else
    '(lat_tmp, long_tmp, alt_tmp) ←
      get_runway_coord nav arrival_airport (Py.str_from 2 arrival_runway);
    names ← Py.getitem (Autopilot.flight_plan_name self) index;
    last_name ← Py.last names;
    if String.eqb last_name arrival_runway then
      self ← assign_item Autopilot.flight_plan_lat index (-1) lat_tmp self;
      self ← assign_item Autopilot.flight_plan_long index (-1) long_tmp self;
      assign_item Autopilot.flight_plan_target_alt index (-1) alt_tmp self
    else
      self ← append Autopilot.flight_plan_name index
               (arrival_airport +:+ "_" +:+ arrival_runway) self;
      self ← append Autopilot.flight_plan_lat index lat_tmp self;
      self ← append Autopilot.flight_plan_long index long_tmp self;
      self ← append Autopilot.flight_plan_target_alt index alt_tmp self;
      self ← append Autopilot.flight_plan_target_speed index 0%Q self;
      opp ← opp_runway arrival_runway;
      '(lat_tmp, long_tmp, alt_tmp) ← get_runway_coord nav arrival_airport opp;
      self ← append Autopilot.flight_plan_name index
               (arrival_airport +:+ "_" +:+ arrival_runway +:+ "_END") self;
      self ← append Autopilot.flight_plan_lat index lat_tmp self;
      self ← append Autopilot.flight_plan_long index long_tmp self;
      self ← append Autopilot.flight_plan_target_alt index alt_tmp self;
      append Autopilot.flight_plan_target_speed index 0%Q self.
End Assembly.

(** Lines 334-338.  [snapshot] is [reversed(list(enumerate(l)))], taken once
    before the loop; the loop body reads the list as it is by then. *)
Definition enumerate {A : Type} (l : list A) : list (Z * A) :=
  imap (fun i v => (Z.of_nat i, v)) l.

Fixpoint backfill (snapshot : list (Z * Q)) (l : list Q) : result (list Q) :=
  match snapshot with
  | [] => Ok l
  | (i, val) :: snapshot' =>
      l ← (if Qeq_bool val unspecified then
             later ← Py.getitem l (i + 1);
             Py.setitem l i later
           else Ok l);
      backfill snapshot' l
  end.

Definition populate_alt (l : list Q) : result (list Q) :=
  if (1 <? length l)%nat then
    l ← Py.setitem l (-1) 0%Q;
    backfill (reverse (enumerate l)) l
  else Ok l.

(** Lines 345-349: the departure runway becomes leg 0. *)
Definition add_departure (index : Z) (departure_airport departure_runway : string)
    (lat_dep long_dep alt_dep : Q) (self : Autopilot.t) : result Autopilot.t :=
  self ← insert Autopilot.flight_plan_name index 0
           (departure_airport +:+ " " +:+ departure_runway) self;
  self ← insert Autopilot.flight_plan_lat index 0 lat_dep self;
  self ← insert Autopilot.flight_plan_long index 0 long_dep self;
  self ← insert Autopilot.flight_plan_target_alt index 0 alt_dep self;
  insert Autopilot.flight_plan_target_speed index 0 0%Q self.

(** Lines 187-331: the legs of the procedures, of the route and of the
    arrival runway. *)
Definition assemble_legs (nav : Nav) (index : Z)
    (departure_airport departure_runway sid arrival_airport arrival_runway
     star approach : string) (flight_plan : list string) (flight_plan_index : pyint)
    (cruise_alt : Q) (self : Autopilot.t) : result Autopilot.t :=
  self ← store_route index departure_airport departure_runway sid arrival_airport
           arrival_runway star approach flight_plan flight_plan_index cruise_alt self;
  self ← add_sid nav index departure_airport departure_runway sid self;
  self ← add_enroute index flight_plan cruise_alt self;
  self ← add_star nav index arrival_airport arrival_runway star self;
  self ← add_approach nav index arrival_airport arrival_runway approach self;
  self ← add_coords nav index self;
  add_arrival_runway nav index arrival_airport arrival_runway self.

(** [Autopilot.set_flight_plan], lines 182-351.  The first statement stands
    for the [print] of line 183, which reads [self.flight_plan_name[index]]. *)
Definition set_flight_plan (nav : Nav) (index : Z)
    (departure_airport departure_runway sid arrival_airport arrival_runway
     star approach : string) (flight_plan : list string) (flight_plan_index : pyint)
    (cruise_alt : Q) (self : Autopilot.t) : result Autopilot.t :=
  _ ← Py.getitem (Autopilot.flight_plan_name self) index;
  '(lat_dep, long_dep, alt_dep) ←
    get_runway_coord nav departure_airport (Py.str_from 2 departure_runway);
  self ← assemble_legs nav index departure_airport departure_runway sid arrival_airport
           arrival_runway star approach flight_plan flight_plan_index cruise_alt self;
  self ← mutate Autopilot.flight_plan_target_alt index populate_alt self;
  add_departure index departure_airport departure_runway lat_dep long_dep alt_dep self.

(** ** Adding and deleting aircraft *)

(** [Autopilot.add_aircraft], lines 136-179: one new entry at the end of
    every vector, then the flight plan of the last slot. *)
Definition add_aircraft (nav : Nav) (lat long alt heading cas : Q)
    (departure_airport departure_runway sid arrival_airport arrival_runway
     star approach : string) (flight_plan : list string) (flight_plan_index : pyint)
    (cruise_alt : Q) (self : Autopilot.t) : result Autopilot.t :=
  let self := push Autopilot.alt alt self in
  let self := push Autopilot.heading heading self in
  let self := push Autopilot.track_angle heading self in
  let self := push Autopilot.ap_rate_of_turn 0%Q self in
  let self := push Autopilot.cas cas self in
  let self := push Autopilot.mach 0%Q self in
  let self := push Autopilot.vs 0%Q self in
  let self := push Autopilot.fpa 0%Q self in
  let self := push Autopilot.lat lat self in
  let self := push Autopilot.long long self in
  let self := push Autopilot.lat_next 0%Q self in
  let self := push Autopilot.long_next 0%Q self in
  let self := push Autopilot.lat_prev 0%Q self in
  let self := push Autopilot.long_prev 0%Q self in
  let self := push Autopilot.hv_next_wp false self in
  let self := push Autopilot.dist 0%Q self in
  let self := push Autopilot.flight_plan_index 0 self in
  let self := push Autopilot.flight_plan_enroute [] self in
  let self := push Autopilot.flight_plan_name [] self in
  let self := push Autopilot.flight_plan_lat [] self in
  let self := push Autopilot.flight_plan_long [] self in
  let self := push Autopilot.flight_plan_target_alt [] self in
  let self := push Autopilot.flight_plan_target_speed [] self in
  let self := push Autopilot.procedure_speed 0%Q self in
  let self := push Autopilot.speed_mode None self in
  let self := push Autopilot.auto_throttle_mode SPEED self in
  let self := push Autopilot.vertical_mode 0 self in
  let self := push Autopilot.lateral_mode HEADING self in
  let self := push Autopilot.expedite_descent false self in
  let self := push Autopilot.holding false self in
  let self := push Autopilot.holding_round 0%Q self in
  let self := push Autopilot.holding_info [] self in
  let self := push Autopilot.departure_airport departure_airport self in
  let self := push Autopilot.departure_runway departure_runway self in
  let self := push Autopilot.sid sid self in
  let self := push Autopilot.arrival_airport arrival_airport self in
  let self := push Autopilot.arrival_runway arrival_runway self in
  let self := push Autopilot.star star self in
  let self := push Autopilot.approach approach self in
  let self := push Autopilot.cruise_alt cruise_alt self in
  let self := push Autopilot.flight_plan_updated true self in
  set_flight_plan nav (-1) departure_airport departure_runway sid arrival_airport
    arrival_runway star approach flight_plan flight_plan_index cruise_alt self.

(** [Autopilot.del_aircraft], lines 364-404, statement by statement. *)
Definition del_aircraft (index : Z) (self : Autopilot.t) : result Autopilot.t :=
  self ← remove Autopilot.alt index self;
  self ← remove Autopilot.heading index self;
  self ← remove Autopilot.track_angle index self;
  self ← remove Autopilot.ap_rate_of_turn index self;
  self ← remove Autopilot.cas index self;
  self ← remove Autopilot.mach index self;
  self ← remove Autopilot.vs index self;
  self ← remove Autopilot.fpa index self;
  self ← remove Autopilot.lat index self;
  self ← remove Autopilot.long index self;
  self ← remove Autopilot.lat_next index self;
  self ← remove Autopilot.long_next index self;
  self ← remove Autopilot.lat_prev index self;
  self ← remove Autopilot.long_prev index self;
  self ← remove Autopilot.hv_next_wp index self;
  self ← remove Autopilot.dist index self;
  self ← remove Autopilot.flight_plan_index index self;
  self ← remove Autopilot.flight_plan_enroute index self;
  self ← remove Autopilot.flight_plan_name index self;
  self ← remove Autopilot.flight_plan_lat index self;
  self ← remove Autopilot.flight_plan_long index self;
  self ← remove Autopilot.flight_plan_target_alt index self;
  self ← remove Autopilot.flight_plan_target_speed index self;
  self ← remove Autopilot.procedure_speed index self;
  self ← remove Autopilot.speed_mode index self;
  self ← remove Autopilot.auto_throttle_mode index self;
  self ← remove Autopilot.vertical_mode index self;
  self ← remove Autopilot.lateral_mode index self;
  self ← remove Autopilot.expedite_descent index self;
  self ← remove Autopilot.holding index self;
  self ← remove Autopilot.holding_round index self;
  self ← remove Autopilot.holding_info index self;
  self ← remove Autopilot.departure_airport index self;
  self ← remove Autopilot.departure_runway index self;
  self ← remove Autopilot.sid index self;
  self ← remove Autopilot.arrival_airport index self;
  self ← remove Autopilot.arrival_runway index self;
  self ← remove Autopilot.star index self;
  self ← remove Autopilot.approach index self;
  remove Autopilot.flight_plan_updated index self.

(** ** The traffic store and the models it refers to *)

(** Modelled from the spec: the performance model ([traffic.perf]), which is
    not among the sources.  Its operations take vectors and return a
    vector, one entry per aircraft; the configurations are integer codes. *)
Record Perf := {
  get_procedure_speed : list Q -> list Q -> list Z -> list Q;
  get_bank_angles : list Z -> list Q;
  cal_turn_radius : list Q -> list Q -> list Q;
  cas_to_tas : list Q -> list Q -> list Q -> list Q;
  tas_to_cas : list Q -> list Q -> list Q -> list Q;
  tas_to_mach : list Q -> list Q -> list Q;
  mach_to_tas : list Q -> list Q -> list Q
}.

(** Modelled from the spec: the weather ([traffic.weather]) at the position
    of each aircraft. *)
Module Weather.
Record t := mk {
  p : list Q;               (* pressure *)
  rho : list Q;             (* density *)
  T : list Q;               (* temperature *)
  wind_speed : list Q;
  wind_direction : list Q
}.
End Weather.

(** Modelled from the spec: the [Traffic] store of [core/traffic.py], which is
    not among the sources; only the fields that the methods below read or
    write. *)
Module Traffic.
Record t := mk {
  index : list Z;        (* identity of the aircraft in each slot *)
  ap : Autopilot.t;      (* the autopilot *)
  perf : Perf;           (* the performance model *)
  weather : Weather.t;   (* the weather *)
  lat : list Q;          (* latitude [deg] *)
  long : list Q;         (* longitude [deg] *)
  alt : list Q;          (* altitude [feet] *)
  heading : list Q;      (* heading [deg] *)
  cas : list Q;          (* calibrated air speed [knots] *)
  mach : list Q;         (* Mach number *)
  tas : list Q;          (* true air speed [knots] *)
  trans_alt : list Q;    (* transition altitude [feet] *)
  max_cas : list Q;      (* maximum calibrated air speed [knots] *)
  max_mach : list Q;     (* maximum Mach number *)
  configuration : list Z;                  (* configuration (integer code) *)
  speed_mode : list SpeedMode;             (* speed reference *)
  vertical_mode : list (option VerticalMode)  (* vertical mode; [None] is the number 0 *)
}.
End Traffic.

(** Modelled from the spec: the functions of [Cal] ([utils/calculation.py],
    not among the sources) that [Autopilot.update] applies to the vectors,
    entry by entry. *)
Record Cal := {
  cal_great_circle_dist : Q -> Q -> Q -> Q -> Q;
  cal_great_circle_bearing : Q -> Q -> Q -> Q -> Q;
  cal_angle_diff : Q -> Q -> Q;
  cal_dist_off_path : Q -> Q -> Q -> Q -> Q -> Q -> Q
}.

(** Modelled from the spec: the conversions of [Unit]
    ([utils/unit_conversion.py], not among the sources). *)
Record Unit := {
  kts2mps : Q -> Q;
  mps2kts : Q -> Q;
  nm2m : Q -> Q
}.

(** The elementary functions of numpy whose values are not rational, on one
    entry: [np.tan], [np.sin], [np.arcsin], [np.exp] and [np.deg2rad]. *)
Record Ufuncs := {
  np_tan : Q -> Q;
  np_sin : Q -> Q;
  np_arcsin : Q -> Q;
  np_exp : Q -> Q;
  np_deg2rad : Q -> Q
}.

Definition Qlt_bool (a b : Q) : bool := negb (Qle_bool b a).

(** numpy's entry-wise operations.  The vectors of one state hold one entry
    per aircraft, in the same order. *)
Module Np.
Definition map2 {A B C : Type} (f : A -> B -> C) (a : list A) (b : list B) : list C :=
  zip_with f a b.

Definition map3 {A B C D : Type} (f : A -> B -> C -> D)
    (a : list A) (b : list B) (c : list C) : list D :=
  zip_with (fun x yz => f x yz.1 yz.2) a (zip b c).

Definition map4 {A B C D E : Type} (f : A -> B -> C -> D -> E)
    (a : list A) (b : list B) (c : list C) (d : list D) : list E :=
  zip_with (fun xy zw => f xy.1 xy.2 zw.1 zw.2) (zip a b) (zip c d).

Definition map6 {A B C D E F G : Type} (f : A -> B -> C -> D -> E -> F -> G)
    (a : list A) (b : list B) (c : list C) (d : list D) (e : list E) (g : list F) : list G :=
  zip_with (fun x y => f x.1.1 x.1.2 x.2 y.1.1 y.1.2 y.2) (zip (zip a b) c) (zip (zip d e) g).

(** [np.where(c, a, b)] *)
Definition where_ {A : Type} (c : list bool) (a b : list A) : list A :=
  map3 (fun (c : bool) x y => if c then x else y) c a b.

(** [np.where(c, a, b)] for a number or truth value [a] *)
Definition where_l {A : Type} (c : list bool) (a : A) (b : list A) : list A :=
  map2 (fun (c : bool) y => if c then a else y) c b.

(** [np.minimum(a, b)], [np.sign(a)] and [np.mod(a, b)] on one entry *)
Definition minimum (a b : Q) : Q := if Qle_bool a b then a else b.

Definition sign (a : Q) : Q :=
  (if Qlt_bool a 0 then -1 else if Qlt_bool 0 a then 1 else 0)%Q.

Definition mod_ (a b : Q) : Q := (a - b * inject_Z (Qfloor (a / b)))%Q.

(** [np.select([c1, c2, c3], [v1, v2, v3])] on one entry: the first choice
    whose condition holds, and the number 0 when none does. *)
Definition select {A : Type} (c1 c2 c3 : bool) (v1 v2 v3 : A) : option A :=
  if c1 then Some v1 else if c2 then Some v2 else if c3 then Some v3 else None.
End Np.

(** ** The tick ([Autopilot.update]) *)

Fixpoint for_each {A S : Type} (body : A -> S -> result S) (l : list A) (s : S) : result S :=
  match l with
  | [] => Ok s
  | x :: l' => s ← body x s; for_each body l' s
  end.

(** Lines 418-450: the body of the loop over [enumerate(self.flight_plan_index)].
    [val] is a 64-bit integer, and so are [val - 1] and [val + 1]: [val + 1]
    is computed for [val] below the length of a list only, and where
    [val - 1] leaves the 64 bits neither it nor what it wraps to is a
    subscript of a list, so that both raise [IndexError]. *)
Definition track_leg (i_val : Z * Z) (self : Autopilot.t) : result Autopilot.t :=
  let '(i, val) := i_val in
  names ← Py.getitem (Autopilot.flight_plan_name self) i;
  if val <? Z.of_nat (length names) then
    lats ← Py.getitem (Autopilot.flight_plan_lat self) i;
    v ← Py.getitem lats (val - 1);
    self ← assign Autopilot.lat_prev i v self;
    longs ← Py.getitem (Autopilot.flight_plan_long self) i;
    v ← Py.getitem longs (val - 1);
    self ← assign Autopilot.long_prev i v self;
    v ← Py.getitem lats val;
    self ← assign Autopilot.lat i v self;
    v ← Py.getitem longs val;
    self ← assign Autopilot.long i v self;
    self ← (if val =? Z.of_nat (length names) - 1 then
              assign Autopilot.hv_next_wp i false self
            else
              v ← Py.getitem lats (val + 1);
              self ← assign Autopilot.lat_next i v self;
              v ← Py.getitem longs (val + 1);
              self ← assign Autopilot.long_next i v self;
              assign Autopilot.hv_next_wp i true self);
    alts ← Py.getitem (Autopilot.flight_plan_target_alt self) i;
    if (1 <? length alts)%nat then
      v ← Py.getitem alts val;
      assign Autopilot.alt i v self
    else Ok self
  else
    assign Autopilot.lateral_mode i HEADING self.

(** A number among the items of a holding definition; arithmetic on a
    string raises [TypeError]. *)
Definition number (x : hitem) : result Q :=
  match x with
  | HNum q => Ok q
  | HStr _ => Raise TypeError
  end.

(** [names.index(x)]: the first position of [x], from position [i] on. *)
Fixpoint index_from (i : Z) (names : list string) (x : string) : result Z :=
  match names with
  | [] => Raise ValueError
  | name :: names' => if String.eqb name x then Ok i else index_from (i + 1) names' x
  end.

Definition index_of (names : list string) (x : hitem) : result Z :=
  match x with
  | HStr s => index_from 0 names s
  | HNum _ => Raise ValueError
  end.

Section Tick.
Variable np : Ufuncs.
Variable units : Unit.
Variable cal : Cal.

(** [np.abs(Cal.cal_angle_diff(a, b)) < 90.0] *)
Definition within_90 (a b : Q) : bool := Qlt_bool (Qabs (cal_angle_diff cal a b)) 90.

(** Lines 534-551: the body of the loop over [enumerate(self.holding)].
    [dist] is the vector of line 489. *)
Definition hold_step (dist : list Q) (i_val : Z * bool) (self : Autopilot.t)
    : result Autopilot.t :=
  let '(i, _) := i_val in
  holding ← Py.getitem (Autopilot.holding self) i;
  if negb holding then
    info ← Py.getitem (Autopilot.holding_info self) i;
    outbound ←
      match info with
      | [] => Ok false
      | _ =>
          heading ← Py.getitem (Autopilot.heading self) i;
          item ← Py.getitem info 4;
          course ← number item;
          if within_90 heading course then
            pointer ← Py.getitem (Autopilot.flight_plan_index self) i;
            names ← Py.getitem (Autopilot.flight_plan_name self) i;
            fix_ ← Py.getitem info 0;
            position ← index_of names fix_;
            Ok (position <? pointer)
          else Ok false
      end;
    match outbound with
    | true =>
        item ← Py.getitem info 4;
        course ← number item;
        self ← assign Autopilot.heading i (Np.mod_ (course + 180) 360) self;
        rounds ← Py.getitem (Autopilot.holding_round self) i;
        self ← assign Autopilot.holding_round i (rounds - 1)%Q self;
        pointer ← Py.getitem (Autopilot.flight_plan_index self) i;
        self ← assign Autopilot.flight_plan_index i (wrap64 (pointer - 1)) self;
        self ← assign Autopilot.lateral_mode i HEADING self;
        assign Autopilot.holding i true self
    | false => Ok self
    end
  else
    heading ← Py.getitem (Autopilot.heading self) i;
    info ← Py.getitem (Autopilot.holding_info self) i;
    item ← Py.getitem info 4;
    course ← number item;
    self ← (if within_90 heading course then
              d ← Py.getitem dist i;
              if Qlt_bool d 1 then
                self ← assign Autopilot.heading i (Np.mod_ (course + 180) 360) self;
                rounds ← Py.getitem (Autopilot.holding_round self) i;
                assign Autopilot.holding_round i (rounds - 1)%Q self
              else Ok self
            else Ok self);
    heading ← Py.getitem (Autopilot.heading self) i;
    if within_90 heading (course + 180) then
      d ← Py.getitem dist i;
      item ← Py.getitem info 6;
      leg ← number item;
      if Qlt_bool (nm2m units leg / 1000) d then
        self ← assign Autopilot.heading i course self;
        rounds ← Py.getitem (Autopilot.holding_round self) i;
        if Qle_bool rounds 0 then
          self ← assign Autopilot.lateral_mode i LNAV self;
          self ← assign Autopilot.holding i false self;
          assign Autopilot.holding_info i [] self
        else Ok self
      else Ok self
    else Ok self.

(** Line 507 on one entry. *)
Definition cross_track_correction (cross_track : Q) : Q :=
  (if Qlt_bool 200 (Qabs cross_track) then Np.sign cross_track * 20
   else 20 * (1 - np_exp np (- cross_track / 40)))%Q.

(** Lines 456-524 of [update]: the statements on whole vectors, from the
    procedural speed to the waypoint advance.  They leave the autopilot,
    the traffic store, of which they write the vertical mode, and the
    vector [dist] of line 489, which the holding part reads. *)
Definition steer (traffic : Traffic.t) (self : Autopilot.t)
    : Autopilot.t * Traffic.t * list Q :=
  let perf := Traffic.perf traffic in
  let weather := Traffic.weather traffic in
  (* Procedural speed *)
  let self :=
    self <| Autopilot.procedure_speed :=
      get_procedure_speed perf (Traffic.alt traffic) (Traffic.trans_alt traffic)
        (Traffic.configuration traffic) |> in
  let self :=
    self <| Autopilot.cas :=
      Np.where_
        (Np.map2 (fun m s => bool_decide (m = AUTO) && Qle_bool 5 s)
           (Autopilot.auto_throttle_mode self) (Autopilot.procedure_speed self))
        (Autopilot.procedure_speed self) (Autopilot.cas self) |> in
  let self :=
    self <| Autopilot.cas := Np.map2 Np.minimum (Autopilot.cas self) (Traffic.max_cas traffic) |> in
  let self :=
    self <| Autopilot.mach :=
      Np.where_
        (Np.map2 (fun m s => bool_decide (m = AUTO) && Qlt_bool s 5)
           (Autopilot.auto_throttle_mode self) (Autopilot.procedure_speed self))
        (Autopilot.procedure_speed self) (Autopilot.mach self) |> in
  let self :=
    self <| Autopilot.mach :=
      Np.map2 Np.minimum (Autopilot.mach self) (Traffic.max_mach traffic) |> in
  (* Handle change in speed mode *)
  let self :=
    self <| Autopilot.mach :=
      Np.where_ (map (fun m => bool_decide (m = CAS)) (Traffic.speed_mode traffic))
        (tas_to_mach perf
           (cas_to_tas perf (map (kts2mps units) (Autopilot.cas self)) (Weather.p weather)
              (Weather.rho weather))
           (Weather.T weather))
        (Autopilot.mach self) |> in
  let self :=
    self <| Autopilot.cas :=
      Np.where_ (map (fun m => bool_decide (m = MACH)) (Traffic.speed_mode traffic))
        (map (mps2kts units)
           (tas_to_cas perf (mach_to_tas perf (Autopilot.mach self) (Weather.T weather))
              (Weather.p weather) (Weather.rho weather)))
        (Autopilot.cas self) |> in
  (* Speed mode *)
  let self :=
    self <| Autopilot.speed_mode :=
      Np.where_ (map (fun m => bool_decide (m = CAS)) (Traffic.speed_mode traffic))
        (Np.map2 (fun a b => Np.select (Qlt_bool a b) (Qeq_bool a b) (Qlt_bool b a)
                               DECELERATE CONSTANT_CAS ACCELERATE)
           (Autopilot.cas self) (Traffic.cas traffic))
        (Np.map2 (fun a b => Np.select (Qlt_bool a b) (Qeq_bool a b) (Qlt_bool b a)
                               DECELERATE CONSTANT_MACH ACCELERATE)
           (Autopilot.mach self) (Traffic.mach traffic)) |> in
  (* Vertical mode *)
  let traffic :=
    traffic <| Traffic.vertical_mode :=
      Np.map2 (fun a b => Np.select (Qlt_bool b a) (Qeq_bool a b) (Qlt_bool a b)
                            CLIMB LEVEL DESCENT)
        (Autopilot.alt self) (Traffic.alt traffic) |> in
  (* Waypoint, track angle, and heading *)
  let dist :=
    Np.map4 (cal_great_circle_dist cal) (Traffic.lat traffic) (Traffic.long traffic)
      (Autopilot.lat self) (Autopilot.long self) in
  let self :=
    self <| Autopilot.dist :=
      Np.where_ (Autopilot.flight_plan_updated self) dist (Autopilot.dist self) |> in
  let self :=
    self <| Autopilot.flight_plan_updated :=
      Np.where_l (Autopilot.flight_plan_updated self) false
        (Autopilot.flight_plan_updated self) |> in
  (* Fly by turn *)
  let turn_radius :=
    map (fun r => r / 1000)%Q
      (cal_turn_radius perf (get_bank_angles perf (Traffic.configuration traffic))
         (map (kts2mps units) (Traffic.tas traffic))) in
  let next_track_angle :=
    Np.where_ (Autopilot.hv_next_wp self)
      (Np.map4 (cal_great_circle_bearing cal) (Autopilot.lat self) (Autopilot.long self)
         (Autopilot.lat_next self) (Autopilot.long_next self))
      (Autopilot.track_angle self) in
  let curr_track_angle :=
    Np.map4 (cal_great_circle_bearing cal) (Traffic.lat traffic) (Traffic.long traffic)
      (Autopilot.lat self) (Autopilot.long self) in
  let turn_dist :=
    Np.map3
      (fun r n c =>
         r * np_tan np (np_deg2rad np (Qabs (cal_angle_diff cal n c) / 2)) * (8 # 10))%Q
      turn_radius next_track_angle curr_track_angle in
  (* Adjust track angle for cross track *)
  let cross_track :=
    Np.map6 (cal_dist_off_path cal) (Autopilot.lat_prev self) (Autopilot.long_prev self)
      (Autopilot.lat self) (Autopilot.long self) (Traffic.lat traffic)
      (Traffic.long traffic) in
  let correction := map cross_track_correction cross_track in
  let curr_track_angle := Np.map2 Qplus curr_track_angle correction in
  let lnav_track_angle :=
    Np.where_ (Np.map2 Qlt_bool dist turn_dist)
      (Np.where_ (Autopilot.hv_next_wp self) next_track_angle (Autopilot.track_angle self))
      (Np.where_ (map (fun d => Qlt_bool d 1) dist) (Autopilot.track_angle self)
         curr_track_angle) in
  let self :=
    self <| Autopilot.track_angle :=
      Np.where_l (map (fun m => bool_decide (m = HEADING)) (Autopilot.lateral_mode self))
        0%Q lnav_track_angle |> in
  let self :=
    self <| Autopilot.heading :=
      Np.where_ (map (fun m => bool_decide (m = HEADING)) (Autopilot.lateral_mode self))
        (Autopilot.heading self)
        (Np.map4 (fun a w v d => a + np_arcsin np (w / v * np_sin np (a - d)))%Q
           (Autopilot.track_angle self) (Weather.wind_speed weather) (Traffic.tas traffic)
           (Weather.wind_direction weather)) |> in
  let update_next_wp :=
    Np.map3 (fun a b c => a && b && c)
      (map (fun m => bool_decide (m = LNAV)) (Autopilot.lateral_mode self))
      (Np.map2 (fun d cached => Qlt_bool cached d) dist (Autopilot.dist self))
      (Np.map2 (fun h n => Qlt_bool (Qabs (cal_angle_diff cal h n)) 1)
         (Traffic.heading traffic) next_track_angle) in
  let self :=
    self <| Autopilot.flight_plan_index :=
      Np.where_ update_next_wp
        (map (fun v => wrap64 (v + 1)) (Autopilot.flight_plan_index self))
        (Autopilot.flight_plan_index self) |> in
  let self :=
    self <| Autopilot.dist :=
      Np.where_ update_next_wp
        (Np.map4 (cal_great_circle_dist cal) (Traffic.lat traffic) (Traffic.long traffic)
           (Autopilot.lat_next self) (Autopilot.long_next self))
        dist |> in
  (self, traffic, dist).

(** [Autopilot.update], lines 417-551: the leg tracking, the statements on
    whole vectors and the holding part.  It returns the autopilot and the
    traffic store. *)
Definition update (traffic : Traffic.t) (self : Autopilot.t)
    : result (Autopilot.t * Traffic.t) :=
  self ← for_each track_leg (enumerate (Autopilot.flight_plan_index self)) self;
  let '(self, traffic, dist) := steer traffic self in
  self ← for_each (hold_step dist) (enumerate (Autopilot.holding self)) self;
  Ok (self, traffic).
End Tick.

(** ** Cross-track correction (line 507), over the reals

    The formula of [cross_track_correction], with the exponential function
    of the reals in the place of the parameter [np_exp]. *)

Module Correction.
#[local] Open Scope R_scope.

(** [np.sign] *)
Definition sign (x : R) : R :=
  if Rlt_dec x 0 then -1 else if Rlt_dec 0 x then 1 else 0.

(** [np.where(np.abs(cross_track) > 200, np.sign(cross_track) * 20,
              20 * (1 - np.exp(-cross_track / 40)))] for one aircraft *)
Definition correction (cross_track : R) : R :=
  if Rgt_dec (Rabs cross_track) 200 then sign cross_track * 20
  else 20 * (1 - exp (- cross_track / 40)).
End Correction.

(** ** The aircraft facade ([aircraft.py]) *)

(** An [Aircraft] object: the traffic store it refers to, its identity in the
    store, and the fix it is being vectored to (the empty string at first).
    The store is kept inside the handle; no property below involves two
    handles on one store. *)
Module Aircraft.
Record t := mk {
  traffic : Traffic.t;
  index : Z;
  vectoring : string
}.
End Aircraft.

(** A method of the facade: it returns or raises, and leaves a state behind
    in both cases. *)
Definition M (A : Type) : Type := Aircraft.t -> result A * Aircraft.t.

#[global] Instance M_ret : MRet M := fun A a s => (Ok a, s).
#[global] Instance M_bind : MBind M := fun A B f m s =>
  match m s with
  | (Ok a, s') => f a s'
  | (Raise e, s') => (Raise e, s')
  end.

(** An expression that reads the state. *)
Definition eval {A : Type} (e : Aircraft.t -> result A) : M A :=
  fun s => (e s, s).

Definition ap_of (s : Aircraft.t) : Autopilot.t := Traffic.ap (Aircraft.traffic s).

(** The state in which [self.traffic.ap] has become [ap]. *)
Definition with_ap (s : Aircraft.t) (ap : Autopilot.t) : Aircraft.t :=
  s <| Aircraft.traffic := (Aircraft.traffic s) <| Traffic.ap := ap |> |>.

(** A statement on [self.traffic.ap]; nothing is written when it raises. *)
Definition on_ap (stmt : Autopilot.t -> result Autopilot.t) : M unit :=
  fun s =>
    match stmt (ap_of s) with
    | Ok ap' => (Ok tt, with_ap s ap')
    | Raise e => (Raise e, s)
    end.

(** [np.where(ids == id)[0][0]]: the first slot that holds [id]. *)
Fixpoint first_index (id : Z) (ids : list Z) (i : Z) : result Z :=
  match ids with
  | [] => Raise IndexError
  | x :: ids' => if x =? id then Ok i else first_index id ids' (i + 1)
  end.

(** [index = np.where(self.traffic.index == self.index)[0][0]] *)
Definition resolve : M Z :=
  eval (fun s => first_index (Aircraft.index s) (Traffic.index (Aircraft.traffic s)) 0).

Definition get_next_wp : M (option string) :=
  index ← resolve;
  i ← eval (fun s => Py.getitem (Autopilot.flight_plan_index (ap_of s)) index);
  names ← eval (fun s => Py.getitem (Autopilot.flight_plan_name (ap_of s)) index);
  if Z.of_nat (length names) <=? i then mret None
  else
    name ← eval (fun _ => Py.getitem names i);
    mret (Some name).

Definition set_direct (waypoint : string) : M unit :=
  index ← resolve;
  on_ap (assign Autopilot.lateral_mode index LNAV).

Definition set_holding (nav : Nav) (holding_time : Q) (holding_fix region : string) : M unit :=
  index ← resolve;
  _ ← on_ap (assign Autopilot.holding_round index holding_time);
  info ← eval (fun _ => get_holding_procedure nav holding_fix region);
  on_ap (assign Autopilot.holding_info index info).

(** Lines 175-180 place the interim waypoint with floating-point
    trigonometry ([Unit.kts2mps], [np.arccos], [Cal.cal_dest_given_dist_bearing]).
    [vectoring_point dist cas v_2 vectoring_time heading lat long] stands for
    the pair they compute from the seven numbers they read. *)
Record Geometry := {
  vectoring_point : Q -> Q -> Q -> Q -> Q -> Q -> Q -> Q * Q
}.

Definition set_vectoring (geo : Geometry) (vectoring_time v_2 : Q) (fix_ : string) : M unit :=
  current ← eval (fun s => Ok (Aircraft.vectoring s));
  if String.eqb current fix_ then mret tt
  else
    next_wp ← get_next_wp;
    if bool_decide (next_wp = Some fix_) then
      _ ← (fun s => (Ok tt, s <| Aircraft.vectoring := fix_ |>)) : M unit;
      index ← resolve;
      dist ← eval (fun s => Py.getitem (Autopilot.dist (ap_of s)) index);
      cas ← eval (fun s => Py.getitem (Traffic.cas (Aircraft.traffic s)) index);
      heading ← eval (fun s => Py.getitem (Autopilot.heading (ap_of s)) index);
      _ ← eval (fun s => Py.getitem (Autopilot.dist (ap_of s)) index);
      lat0 ← eval (fun s => Py.getitem (Traffic.lat (Aircraft.traffic s)) index);
      long0 ← eval (fun s => Py.getitem (Traffic.long (Aircraft.traffic s)) index);
      let '(lat, long) := vectoring_point geo dist cas v_2 vectoring_time heading lat0 long0 in
      i ← eval (fun s => Py.getitem (Autopilot.flight_plan_index (ap_of s)) index);
      _ ← on_ap (insert Autopilot.flight_plan_lat index i lat);
      _ ← on_ap (insert Autopilot.flight_plan_long index i long);
      _ ← on_ap (insert Autopilot.flight_plan_name index i "VECT");
      _ ← on_ap (mutate Autopilot.flight_plan_target_alt index
                   (fun l => v ← Py.getitem l i; Ok (Py.insert l i v)));
      _ ← on_ap (assign_item Autopilot.flight_plan_target_speed index i v_2);
      on_ap (mutate Autopilot.flight_plan_target_speed index
               (fun l => v ← Py.getitem l i; Ok (Py.insert l i v)))
    else mret tt.

(** ** A small world for examples *)

Module Demo.
Definition no_procedure : Procedure :=
  {| waypoint := []; alt_restriction_type := []; alt_restriction := [];
     speed_restriction_type := []; speed_restriction := [] |}.

(** A one-leg departure whose only leg carries a speed restriction and no
    altitude restriction. *)
Definition sid_procedure : Procedure :=
  {| waypoint := ["PORPA"]; alt_restriction_type := [""]; alt_restriction := [unspecified];
     speed_restriction_type := [""]; speed_restriction := [250%Q] |}.

(** Two airports, no holding definitions.  The runway of ["EHAM"] lies one
    foot below sea level. *)
Definition nav : Nav :=
  {| get_runway_coord := fun airport runway =>
       if String.eqb airport "VHHH" && String.eqb runway "07R" then Ok (22, 113, 28)%Q
       else if String.eqb airport "RCTP" && String.eqb runway "05L" then Ok (25, 121, 108)%Q
       else if String.eqb airport "RCTP" && String.eqb runway "23R" then Ok (26, 122, 100)%Q
       else if String.eqb airport "EHAM" && String.eqb runway "18C" then Ok (52, 4, -1)%Q
       else Raise NotFound;
     get_procedure := fun airport runway procedure appch iaf =>
       if String.eqb procedure "PORPA1" then Ok sid_procedure else Ok no_procedure;
     get_wp_coord := fun name lat long => Ok (lat + 1, long + 1)%Q;
     get_holding_procedure := fun fix_ region => Raise NotFound |}.

Definition cal : Cal :=
  {| cal_great_circle_dist := fun lat1 long1 lat2 long2 =>
       (Qabs (lat2 - lat1) + Qabs (long2 - long1))%Q;
     cal_great_circle_bearing := fun lat1 long1 lat2 long2 => 0%Q;
     cal_angle_diff := fun a b => (a - b)%Q;
     cal_dist_off_path := fun lat1 long1 lat2 long2 lat long => 0%Q |}.

Definition units : Unit :=
  {| kts2mps := fun v => (v * (1852 # 3600))%Q;
     mps2kts := fun v => (v * (3600 # 1852))%Q;
     nm2m := fun d => (d * 1852)%Q |}.

(** Stand-ins for the elementary functions: the examples below fly in
    still air, on their track. *)
Definition np : Ufuncs :=
  {| np_tan := fun x => x; np_sin := fun x => x; np_arcsin := fun x => x;
     np_exp := fun x => (1 + x)%Q; np_deg2rad := fun x => (x * (314159 # 18000000))%Q |}.

(** A performance model with no procedural speed, and still air. *)
Definition perf : Perf :=
  {| get_procedure_speed := fun alt trans_alt configuration => map (fun _ => 0%Q) alt;
     get_bank_angles := fun configuration => map (fun _ => 25%Q) configuration;
     cal_turn_radius := fun bank_angle tas => map (fun v => (v * 20)%Q) tas;
     cas_to_tas := fun cas p rho => cas;
     tas_to_cas := fun tas p rho => tas;
     tas_to_mach := fun tas T => map (fun v => (v / 340)%Q) tas;
     mach_to_tas := fun mach T => map (fun m => (m * 340)%Q) mach |}.

Definition weather : Weather.t :=
  {| Weather.p := [101325%Q]; Weather.rho := [1225 # 1000]; Weather.T := [288%Q];
     Weather.wind_speed := [0%Q]; Weather.wind_direction := [0%Q] |}.

(** The traffic store with one aircraft, under identity 7, at a given
    position. *)
Definition traffic_of (ap : Autopilot.t) (lat long : Q) : Traffic.t :=
  {| Traffic.index := [7]; Traffic.ap := ap; Traffic.perf := perf;
     Traffic.weather := weather; Traffic.lat := [lat]; Traffic.long := [long];
     Traffic.alt := [0%Q]; Traffic.heading := [254%Q]; Traffic.cas := [149%Q];
     Traffic.mach := [0%Q]; Traffic.tas := [149%Q]; Traffic.trans_alt := [18000%Q];
     Traffic.max_cas := [340%Q]; Traffic.max_mach := [82 # 100];
     Traffic.configuration := [1]; Traffic.speed_mode := [CAS];
     Traffic.vertical_mode := [Some LEVEL] |}.

Definition geo : Geometry :=
  {| vectoring_point := fun dist cas v_2 vectoring_time heading lat long =>
       (lat + 1, long - 1)%Q |}.

(** One aircraft from VHHH 07R to RCTP 05L over two waypoints. *)
Definition one_aircraft : result Autopilot.t :=
  add_aircraft nav 22 113 0 254 149 "VHHH" "RW07R" "" "RCTP" "RW05L" "" ""
    ["PRAWN"; "RUMSY"] 0 37000 Autopilot.init.

Definition run (r : result Autopilot.t) : Autopilot.t :=
  match r with
  | Ok self => self
  | Raise _ => Autopilot.init
  end.

(** The state that [one_aircraft] returns. *)
Definition ap1 : Autopilot.t := Eval vm_compute in run one_aircraft.

(** The aircraft of [ap1], planned anew with a single waypoint and no
    arrival runway. *)
Definition ap_single : Autopilot.t :=
  Eval vm_compute in
    run (set_flight_plan nav 0 "VHHH" "RW07R" "" "" "" "" "" ["PRAWN"] 0 37000 ap1).

(** The aircraft of [ap1], planned anew from a runway one foot below sea
    level. *)
Definition ap_low : Autopilot.t :=
  Eval vm_compute in
    run (set_flight_plan nav 0 "EHAM" "RW18C" "" "RCTP" "RW05L" "" "" ["PRAWN"] 0 37000 ap1).

(** The aircraft of [ap1], planned anew with a departure procedure and no
    cruise altitude. *)
Definition ap_sid : Autopilot.t :=
  Eval vm_compute in
    run (set_flight_plan nav 0 "VHHH" "RW07R" "PORPA1" "RCTP" "RW05L" "" ""
           ["PRAWN"; "RUMSY"] 0 unspecified ap1).

(** A second aircraft, with a lower cruise altitude, next to that of [ap1]. *)
Definition ap12 : Autopilot.t :=
  Eval vm_compute in
    run (add_aircraft nav 25 121 0 50 140 "RCTP" "RW05L" "" "" "" "" ""
           ["TONGA"; "ELBER"] 0 20000 ap1).

(** The second aircraft alone, after the first one was deleted. *)
Definition ap2 : Autopilot.t := Eval vm_compute in run (del_aircraft 0 ap12).

(** A handle on the aircraft stored under identity 7, in slot 0. *)
Definition handle (ap : Autopilot.t) : Aircraft.t :=
  {| Aircraft.traffic := traffic_of ap 22 113;
     Aircraft.index := 7;
     Aircraft.vectoring := "" |}.

(** The aircraft of [ap_sid] after a vectoring instruction of one minute at
    200 knots towards its next waypoint. *)
Definition vectored : Aircraft.t :=
  Eval vm_compute in (set_vectoring geo 60 200 "PORPA" (handle ap_sid)).2.

(** The traffic store with the one aircraft at a given position. *)
Definition traffic_at (lat long : Q) : Traffic.t := traffic_of Autopilot.init lat long.

(** The autopilot that a tick leaves. *)
Definition tick (traffic : Traffic.t) (self : Autopilot.t) : Autopilot.t :=
  match update np units cal traffic self with
  | Ok (self', _) => self'
  | Raise _ => Autopilot.init
  end.

(** The traffic store that a tick leaves. *)
Definition traffic_after (traffic : Traffic.t) (self : Autopilot.t) : Traffic.t :=
  match update np units cal traffic self with
  | Ok (_, traffic') => traffic'
  | Raise _ => traffic
  end.

(** The autopilot of [ap1] after a first tick, at the departure threshold,
    and after a second tick, one degree further east. *)
Definition ap_tick1 : Autopilot.t :=
  Eval vm_compute in tick (traffic_at 22 113) ap1.

Definition ap_tick2 : Autopilot.t :=
  Eval vm_compute in tick (traffic_at 22 114) ap_tick1.
End Demo.

(** ** Vocabulary of the properties *)

(** A runway identifier as [set_flight_plan] reads it: two leading
    characters, the runway number on two digits, and a suffix. *)
Definition runway_ident (c1 c2 : ascii) (number : Z) (suffix : string) : string :=
  String c1 (String c2 (Py.zfill 2 (Py.str number) +:+ suffix)).

(** The suffix of the parallel runway seen from the other end. *)
Definition other_side (suffix : string) : string :=
  if String.eqb suffix "L" then "R"
  else if String.eqb suffix "R" then "L"
  else suffix.

(** An altitude that is not the "not specified" value. *)
Definition resolved (a : Q) : Prop := Qeq_bool a unspecified = false.

(** The back-fill law in the words of the specification: every unspecified
    altitude takes the altitude of the next later leg, once that one is
    resolved; [later] is the altitude that follows the last leg of [l]. *)
Fixpoint fill (later : Q) (l : list Q) : list Q :=
  match l with
  | [] => []
  | v :: l' =>
      let rest := fill later l' in
      (if Qeq_bool v unspecified then hd later rest else v) :: rest
  end.

(** The fields that the leg tracking of [update] leaves alone. *)
Definition sequencing (self : Autopilot.t) :=
  (Autopilot.flight_plan_index self, Autopilot.flight_plan_updated self,
   Autopilot.dist self, Autopilot.track_angle self).

(** ** More methods of the facade ([aircraft.py]) *)

(** [Aircraft.set_heading], lines 72-83. *)
Definition set_heading (heading : Q) : M unit :=
  index ← resolve;
  _ ← on_ap (assign Autopilot.heading index heading);
  on_ap (assign Autopilot.lateral_mode index HEADING).

(** [Aircraft.set_speed], lines 85-96. *)
Definition set_speed (speed : Q) : M unit :=
  index ← resolve;
  _ ← on_ap (assign Autopilot.cas index speed);
  on_ap (assign Autopilot.auto_throttle_mode index SPEED).

(** [Aircraft.set_vs], lines 102-112. *)
Definition set_vs (vs : Q) : M unit :=
  index ← resolve;
  on_ap (assign Autopilot.vs index vs).

(** [Aircraft.set_alt], lines 114-126. *)
Definition set_alt (alt : Q) : M unit :=
  index ← resolve;
  flight_plan_index ←
    eval (fun s => Py.getitem (Autopilot.flight_plan_index (ap_of s)) index);
  _ ← on_ap (assign_item Autopilot.flight_plan_target_alt index flight_plan_index alt);
  on_ap (assign Autopilot.alt index alt).

(** [Aircraft.resume_own_navigation], lines 230-236. *)
Definition resume_own_navigation : M unit :=
  index ← resolve;
  _ ← on_ap (assign Autopilot.lateral_mode index LNAV);
  on_ap (assign Autopilot.auto_throttle_mode index AUTO).

(** [Aircraft.set_flight_plan], lines 197-221.  An argument left to its
    default [None] takes the value stored for the aircraft; the departure is
    always the stored one.  The stored leg pointer is an entry of a vector
    of 64-bit integers, and is passed on as such.  The keyword arguments are evaluated in the order
    in which the call writes them.  As for the methods of [Autopilot], only
    the normal return is described: the state a raising call leaves behind
    is not. *)
Module Facade.
Definition stored {A : Type} (field : Autopilot.t -> list A) (index : Z)
    (given : option A) (ap : Autopilot.t) : result A :=
  match given with
  | None => Py.getitem (field ap) index
  | Some v => Ok v
  end.

Definition set_flight_plan (nav : Nav)
    (arrival_airport arrival_runway star approach : option string)
    (flight_plan : option (list string)) (flight_plan_index : option pyint)
    (cruise_alt : option Q) (s : Aircraft.t) : result Aircraft.t :=
  index ← first_index (Aircraft.index s) (Traffic.index (Aircraft.traffic s)) 0;
  let ap := ap_of s in
  departure_airport ← Py.getitem (Autopilot.departure_airport ap) index;
  departure_runway ← Py.getitem (Autopilot.departure_runway ap) index;
  sid ← Py.getitem (Autopilot.sid ap) index;
  arrival_airport ← stored Autopilot.arrival_airport index arrival_airport ap;
  arrival_runway ← stored Autopilot.arrival_runway index arrival_runway ap;
  star ← stored Autopilot.star index star ap;
  approach ← stored Autopilot.approach index approach ap;
  flight_plan ← stored Autopilot.flight_plan_enroute index flight_plan ap;
  flight_plan_index ←
    stored (fun ap => Int64 <$> Autopilot.flight_plan_index ap) index flight_plan_index ap;
  cruise_alt ← stored Autopilot.cruise_alt index cruise_alt ap;
  ap' ← set_flight_plan nav index departure_airport departure_runway sid arrival_airport
          arrival_runway star approach flight_plan flight_plan_index cruise_alt ap;
  Ok (with_ap s ap').
End Facade.

(** ** Vocabulary of the properties on whole states *)

(** [P] relates every vector of [self] to the same vector of [self']. *)
Definition vectors_related (P : forall A : Type, list A -> list A -> Prop)
    (self self' : Autopilot.t) : Prop :=
  P _ (Autopilot.alt self) (Autopilot.alt self')
  /\ P _ (Autopilot.heading self) (Autopilot.heading self')
  /\ P _ (Autopilot.track_angle self) (Autopilot.track_angle self')
  /\ P _ (Autopilot.ap_rate_of_turn self) (Autopilot.ap_rate_of_turn self')
  /\ P _ (Autopilot.cas self) (Autopilot.cas self')
  /\ P _ (Autopilot.mach self) (Autopilot.mach self')
  /\ P _ (Autopilot.vs self) (Autopilot.vs self')
  /\ P _ (Autopilot.fpa self) (Autopilot.fpa self')
  /\ P _ (Autopilot.lat self) (Autopilot.lat self')
  /\ P _ (Autopilot.long self) (Autopilot.long self')
  /\ P _ (Autopilot.lat_next self) (Autopilot.lat_next self')
  /\ P _ (Autopilot.long_next self) (Autopilot.long_next self')
  /\ P _ (Autopilot.lat_prev self) (Autopilot.lat_prev self')
  /\ P _ (Autopilot.long_prev self) (Autopilot.long_prev self')
  /\ P _ (Autopilot.hv_next_wp self) (Autopilot.hv_next_wp self')
  /\ P _ (Autopilot.dist self) (Autopilot.dist self')
  /\ P _ (Autopilot.flight_plan_index self) (Autopilot.flight_plan_index self')
  /\ P _ (Autopilot.flight_plan_enroute self) (Autopilot.flight_plan_enroute self')
  /\ P _ (Autopilot.flight_plan_name self) (Autopilot.flight_plan_name self')
  /\ P _ (Autopilot.flight_plan_lat self) (Autopilot.flight_plan_lat self')
  /\ P _ (Autopilot.flight_plan_long self) (Autopilot.flight_plan_long self')
  /\ P _ (Autopilot.flight_plan_target_alt self) (Autopilot.flight_plan_target_alt self')
  /\ P _ (Autopilot.flight_plan_target_speed self) (Autopilot.flight_plan_target_speed self')
  /\ P _ (Autopilot.procedure_speed self) (Autopilot.procedure_speed self')
  /\ P _ (Autopilot.speed_mode self) (Autopilot.speed_mode self')
  /\ P _ (Autopilot.auto_throttle_mode self) (Autopilot.auto_throttle_mode self')
  /\ P _ (Autopilot.vertical_mode self) (Autopilot.vertical_mode self')
  /\ P _ (Autopilot.lateral_mode self) (Autopilot.lateral_mode self')
  /\ P _ (Autopilot.expedite_descent self) (Autopilot.expedite_descent self')
  /\ P _ (Autopilot.departure_airport self) (Autopilot.departure_airport self')
  /\ P _ (Autopilot.departure_runway self) (Autopilot.departure_runway self')
  /\ P _ (Autopilot.sid self) (Autopilot.sid self')
  /\ P _ (Autopilot.arrival_airport self) (Autopilot.arrival_airport self')
  /\ P _ (Autopilot.arrival_runway self) (Autopilot.arrival_runway self')
  /\ P _ (Autopilot.star self) (Autopilot.star self')
  /\ P _ (Autopilot.approach self) (Autopilot.approach self')
  /\ P _ (Autopilot.cruise_alt self) (Autopilot.cruise_alt self')
  /\ P _ (Autopilot.flight_plan_updated self) (Autopilot.flight_plan_updated self')
  /\ P _ (Autopilot.holding self) (Autopilot.holding self')
  /\ P _ (Autopilot.holding_round self) (Autopilot.holding_round self')
  /\ P _ (Autopilot.holding_info self) (Autopilot.holding_info self').

(** [l'] is [l] but, at most, for the entry that subscript [index] denotes. *)
Record kept {A : Type} (index : Z) (l l' : list A) : Prop := {
  kept_length : length l' = length l;
  kept_lookup : forall j : nat, Py.norm (length l) index <> Some j -> l' !! j = l !! j
}.

(** [l'] is [l] with one more entry at the end. *)
Definition grown {A : Type} (l l' : list A) : Prop := exists x, l' = l ++ [x].

(** The entries of the other aircraft are as before, in every vector. *)
Definition others_kept (index : Z) : Autopilot.t -> Autopilot.t -> Prop :=
  vectors_related (fun A => @kept A index).

(** A field of the autopilot, as far as relations on whole states go:
    replacing it by a related vector gives a related state. *)
Class Lens {A : Type} (field : Autopilot.t -> list A) {field_set : Setter field} :=
  lens_related :
    forall (P : forall A : Type, list A -> list A -> Prop),
      (forall (B : Type) (l : list B), P B l l) ->
      forall (self : Autopilot.t) (l : list A),
        P A (field self) l -> vectors_related P self (self <| field := l |>).

(** The lists of the legs of one aircraft. *)
Record legs_at (index : Z) (self : Autopilot.t)
    (names : list string) (lats longs alts speeds : list Q) : Prop := {
  legs_name : Py.getitem (Autopilot.flight_plan_name self) index = Ok names;
  legs_lat : Py.getitem (Autopilot.flight_plan_lat self) index = Ok lats;
  legs_long : Py.getitem (Autopilot.flight_plan_long self) index = Ok longs;
  legs_alt : Py.getitem (Autopilot.flight_plan_target_alt self) index = Ok alts;
  legs_speed : Py.getitem (Autopilot.flight_plan_target_speed self) index = Ok speeds
}.

(** The aircraft follows its plan: there is a waypoint to go to, the
    lateral mode is LNAV and the throttle is automatic. *)
Record engaged (index : Z) (self : Autopilot.t) : Prop := {
  engaged_next : Py.getitem (Autopilot.hv_next_wp self) index = Ok true;
  engaged_lateral : Py.getitem (Autopilot.lateral_mode self) index = Ok LNAV;
  engaged_throttle : Py.getitem (Autopilot.auto_throttle_mode self) index = Ok AUTO
}.

(** Every procedure of the database has one altitude and one speed
    restriction per waypoint. *)
Definition consistent (nav : Nav) : Prop :=
  forall airport runway procedure appch iaf p,
    get_procedure nav airport runway procedure appch iaf = Ok p ->
    length (alt_restriction p) = length (waypoint p)
    /\ length (speed_restriction p) = length (waypoint p).

(** The vectors for which [set_flight_plan] has no statement. *)
Definition unplanned (self : Autopilot.t) :=
  (Autopilot.alt self, Autopilot.heading self, Autopilot.track_angle self,
   Autopilot.ap_rate_of_turn self, Autopilot.cas self, Autopilot.mach self,
   Autopilot.vs self, Autopilot.fpa self, Autopilot.lat self, Autopilot.long self,
   Autopilot.lat_next self, Autopilot.long_next self, Autopilot.lat_prev self,
   Autopilot.long_prev self, Autopilot.dist self, Autopilot.procedure_speed self,
   Autopilot.speed_mode self, Autopilot.vertical_mode self,
   Autopilot.expedite_descent self, Autopilot.holding self,
   Autopilot.holding_round self, Autopilot.holding_info self).

(** What [set_flight_plan] stores of its arguments, aircraft by aircraft. *)
Definition route (self : Autopilot.t) :=
  (Autopilot.departure_airport self, Autopilot.departure_runway self, Autopilot.sid self,
   Autopilot.arrival_airport self, Autopilot.arrival_runway self, Autopilot.star self,
   Autopilot.approach self, Autopilot.cruise_alt self, Autopilot.flight_plan_enroute self,
   Autopilot.flight_plan_index self, Autopilot.flight_plan_updated self).

(** Every vector but the five lists of legs and the three vectors that
    [engage_lnav] assigns. *)
Definition beside_legs (self : Autopilot.t) := (route self, unplanned self).

(** ** More examples *)

Module Cases.
(** The second aircraft of [Demo.ap12], planned anew with one waypoint. *)
Definition replanned : Autopilot.t :=
  Eval vm_compute in
    Demo.run (set_flight_plan Demo.nav 1 "RCTP" "RW05L" "" "" "" "" "" ["ELBER"] 0 18000
                Demo.ap12).

(** The same, with the greatest 64-bit integer of numpy as the leg index. *)
Definition wrapped : Autopilot.t :=
  Eval vm_compute in
    Demo.run (set_flight_plan Demo.nav 1 "RCTP" "RW05L" "" "" "" "" "" ["ELBER"]
                (Int64 int64_max) 18000 Demo.ap12).
End Cases.

(** The three vectors that [engage_lnav] assigns. *)
Definition modes (self : Autopilot.t) :=
  (Autopilot.hv_next_wp self, Autopilot.lateral_mode self,
   Autopilot.auto_throttle_mode self).

(** Entry [n] is the same in every vector of the two states. *)
Definition same_slot (n : nat) : Autopilot.t -> Autopilot.t -> Prop :=
  vectors_related (fun A l l' => l' !! n = l !! n).

(** The lists of legs that the leg tracking of [update] reads. *)
Definition plan_lists (self : Autopilot.t) :=
  (Autopilot.flight_plan_name self, Autopilot.flight_plan_lat self,
   Autopilot.flight_plan_long self, Autopilot.flight_plan_target_alt self).

(** The vectors that [update] assigns in its leg tracking only, or not at
    all: the targets in position and altitude, the plans and the route. *)
Definition tracked_state (self : Autopilot.t) :=
  (Autopilot.alt self, Autopilot.ap_rate_of_turn self, Autopilot.vs self,
   Autopilot.fpa self, Autopilot.lat self, Autopilot.long self, Autopilot.lat_next self,
   Autopilot.long_next self, Autopilot.lat_prev self, Autopilot.long_prev self,
   Autopilot.hv_next_wp self, Autopilot.flight_plan_enroute self,
   Autopilot.flight_plan_name self, Autopilot.flight_plan_lat self,
   Autopilot.flight_plan_long self, Autopilot.flight_plan_target_alt self,
   Autopilot.flight_plan_target_speed self, Autopilot.auto_throttle_mode self,
   Autopilot.vertical_mode self, Autopilot.expedite_descent self,
   Autopilot.departure_airport self, Autopilot.departure_runway self, Autopilot.sid self,
   Autopilot.arrival_airport self, Autopilot.arrival_runway self, Autopilot.star self,
   Autopilot.approach self, Autopilot.cruise_alt self).

(** The vectors that lines 456-524 of [update] assign and its holding part
    leaves alone. *)
Definition steered_state (self : Autopilot.t) :=
  (Autopilot.procedure_speed self, Autopilot.cas self, Autopilot.mach self,
   Autopilot.speed_mode self, Autopilot.dist self, Autopilot.flight_plan_updated self,
   Autopilot.track_angle self).

(** The vectors that the holding part of [update] assigns and lines 456-524
    leave alone. *)
Definition holding_state (self : Autopilot.t) :=
  (Autopilot.lateral_mode self, Autopilot.holding self, Autopilot.holding_round self,
   Autopilot.holding_info self).

(** Where one tick takes the leg pointer [p] of an aircraft: on by one when
    the waypoint advance fires, and then back by one when the aircraft
    enters the holding pattern, each time within 64 bits. *)
Definition pointer_after (advance enter : bool) (p : Z) : Z :=
  let p := if advance then wrap64 (p + 1) else p in
  if enter then wrap64 (p - 1) else p.

Module Flights.
(** The aircraft of [Demo.ap1], planned anew with a leg pointer beyond the
    five legs of its plan, and the autopilot after one tick. *)
Definition overrun : Autopilot.t :=
  Eval vm_compute in
    Demo.run (set_flight_plan Demo.nav 0 "VHHH" "RW07R" "" "RCTP" "RW05L" "" ""
                ["PRAWN"; "RUMSY"] 5 37000 Demo.ap1).

Definition overrun_tick : Autopilot.t :=
  Eval vm_compute in Demo.tick (Demo.traffic_at 22 113) overrun.

(** The same aircraft with a holding definition at RUMSY, inbound course
    254 degrees and legs of 5 nautical miles, for two rounds, and the
    autopilot after one tick. *)
Definition overrun_to_hold : Autopilot.t :=
  Eval vm_compute in
    overrun <| Autopilot.holding_info :=
                 [[HStr "RUMSY"; HStr "ENRT"; HStr "VH"; HStr "R"; HNum 254; HStr "";
                   HNum 5]] |>
            <| Autopilot.holding_round := [2%Q] |>.

Definition overrun_to_hold_tick : Autopilot.t :=
  Eval vm_compute in Demo.tick (Demo.traffic_at 22 113) overrun_to_hold.

(** The aircraft of [Demo.ap_tick1] two degrees past its target, heading
    north as the next leg bears in this small world, and the autopilot after
    the tick. *)
Definition passed : Traffic.t :=
  Eval vm_compute in (Demo.traffic_at 25 116) <| Traffic.heading := [0%Q] |>.

Definition passed_tick : Autopilot.t :=
  Eval vm_compute in Demo.tick passed Demo.ap_tick1.

(** The aircraft of [Demo.ap1] after it was cleared to 12000 feet, and the
    autopilot one tick later. *)
Definition cleared : Aircraft.t :=
  Eval vm_compute in (set_alt 12000 (Demo.handle Demo.ap1)).2.

Definition cleared_tick : Autopilot.t :=
  Eval vm_compute in Demo.tick (Demo.traffic_at 22 113) (ap_of cleared).
End Flights.

Module Handles.
(** The aircraft of [Demo.ap1], planned anew through the facade with every
    argument left to its default. *)
Definition replanned : Aircraft.t :=
  Eval vm_compute in
    match Facade.set_flight_plan Demo.nav None None None None None None None
            (Demo.handle Demo.ap1) with
    | Ok s => s
    | Raise _ => Demo.handle Demo.ap1
    end.

(** The aircraft of [Demo.ap1] with the greatest 64-bit integer as its leg
    pointer, and the same after it was planned anew through the facade with
    every argument left to its default. *)
Definition saturated : Aircraft.t :=
  Eval vm_compute in Demo.handle (Demo.ap1 <| Autopilot.flight_plan_index := [int64_max] |>).

Definition saturated_replanned : Aircraft.t :=
  Eval vm_compute in
    match Facade.set_flight_plan Demo.nav None None None None None None None saturated with
    | Ok s => s
    | Raise _ => saturated
    end.

(** The aircraft of [Demo.ap1] on the last leg of a plan without cruise
    altitude: five legs, three target altitudes, leg pointer 4. *)
Definition no_cruise : Autopilot.t :=
  Eval vm_compute in
    Demo.run (set_flight_plan Demo.nav 0 "VHHH" "RW07R" "" "RCTP" "RW05L" "" ""
                ["PRAWN"; "RUMSY"] 3 unspecified Demo.ap1).

(** The aircraft of [Demo.ap1] after a heading and a speed instruction and
    the instruction to resume its own navigation. *)
Definition resumed : Aircraft.t :=
  Eval vm_compute in
    ((_ ← set_heading 90; _ ← set_speed 210; resume_own_navigation)
       (Demo.handle Demo.ap1)).2.
End Handles.

Module Replan.
(** The vectored aircraft of [Demo.vectored], planned anew through the
    facade with every argument left to its default. *)
Definition vectored_replanned : Aircraft.t :=
  Eval vm_compute in
    match Facade.set_flight_plan Demo.nav None None None None None None None
            Demo.vectored with
    | Ok s => s
    | Raise _ => Demo.vectored
    end.
End Replan.

(** * Properties *)

(** ** Python primitives *)

Example norm_negative : Py.norm 3 (-1) = Some 2%nat.
Proof. reflexivity. Qed.

Example insert_clamped : Py.insert [1; 2; 3] 7 9 = [1; 2; 3; 9].
Proof. reflexivity. Qed.

Example insert_negative : Py.insert [1; 2; 3] (-1) 9 = [1; 2; 9; 3].
Proof. reflexivity. Qed.

Example int_padded : Py.int "05" = Ok 5.
Proof. reflexivity. Qed.

Example int_letters : Py.int "5R" = Raise ValueError.
Proof. reflexivity. Qed.

Example str_zfill : Py.zfill 2 (Py.str 7) = "07" /\ Py.str 120 = "120" /\ Py.str (-4) = "-4".
Proof. repeat split; reflexivity. Qed.

Lemma bind_Ok {A B : Type} (m : result A) (k : A -> result B) (b : B) :
  m ≫= k = Ok b -> exists a, m = Ok a /\ k a = Ok b.
Proof. destruct m as [a|e]; simpl; [eauto | discriminate]. Qed.

Section PyFacts.
Context {A : Type}.
Implicit Types (l : list A) (i : Z) (n : nat).

Lemma norm_lt len i n : Py.norm len i = Some n -> (n < len)%nat.
Proof.
  unfold Py.norm. repeat case_match; intros [= <-]; lia.
Qed.

Lemma norm_nonneg len i : 0 <= i < Z.of_nat len -> Py.norm len i = Some (Z.to_nat i).
Proof.
  intros Hi. unfold Py.norm.
  replace ((0 <=? i) && (i <? Z.of_nat len)) with true; [done|].
  symmetry. apply andb_true_iff. split; [apply Z.leb_le | apply Z.ltb_lt]; lia.
Qed.

Lemma norm_last len : (0 < len)%nat -> Py.norm len (-1) = Some (len - 1)%nat.
Proof.
  intros Hlen. unfold Py.norm. simpl.
  replace (- Z.of_nat len <=? -1) with true by (symmetry; apply Z.leb_le; lia).
  simpl. f_equal. lia.
Qed.

Lemma getitem_Ok l i x :
  Py.getitem l i = Ok x <-> exists n, Py.norm (length l) i = Some n /\ l !! n = Some x.
Proof.
  unfold Py.getitem. split.
  - destruct (Py.norm _ _) as [n|]; [|discriminate].
    destruct (l !! n) eqn:Hl; [|discriminate]. intros [= <-]. eauto.
  - intros (n & -> & ->). done.
Qed.

Lemma setitem_Ok l i v l' :
  Py.setitem l i v = Ok l' <-> exists n, Py.norm (length l) i = Some n /\ l' = <[n := v]> l.
Proof.
  unfold Py.setitem. split.
  - destruct (Py.norm _ _) as [n|]; [|discriminate]. intros [= <-]. eauto.
  - intros (n & -> & ->). done.
Qed.

Lemma getitem_setitem l i v l' : Py.setitem l i v = Ok l' -> Py.getitem l' i = Ok v.
Proof.
  intros (n & Hn & ->)%setitem_Ok. apply getitem_Ok. exists n.
  rewrite length_insert. split; [done|].
  apply list_lookup_insert_eq. by eapply norm_lt.
Qed.

Lemma insert_front l v : Py.insert l 0 v = v :: l.
Proof.
  unfold Py.insert, Py.insert_pos. simpl.
  replace (Z.to_nat (Z.min 0 (Z.of_nat (length l)))) with 0%nat by lia.
  done.
Qed.

End PyFacts.

(** ** Reciprocal runway *)

Example opp_runway_07L : opp_runway "RW07L" = Ok "25R".
Proof. reflexivity. Qed.

Example opp_runway_36 : opp_runway "RW36" = Ok "18".
Proof. reflexivity. Qed.

Example opp_runway_18C : opp_runway "RW18C" = Ok "00C".
Proof. reflexivity. Qed.

(** C3. For every runway number from 1 to 36 and every suffix among none,
    L, R and C, the opposite runway computed during flight-plan assembly has
    the number [(n + 18) mod 36], which is 18 away from [n], that is 180
    degrees; L and R are exchanged, C is kept, and no suffix stays no suffix. *)
Theorem opp_runway_reciprocal (c1 c2 : ascii) (n : Z) (suffix : string) :
  1 <= n <= 36 ->
  suffix ∈ [""; "L"; "R"; "C"] ->
  opp_runway (runway_ident c1 c2 n suffix)
    = Ok (Py.zfill 2 (Py.str ((n + 18) mod 36)) +:+ other_side suffix)
  /\ Z.abs (((n + 18) mod 36) * 10 - n * 10) = 180.
Proof.
  intros Hn Hs.
  assert (exists k : nat, n = Z.of_nat k /\ (1 <= k <= 36)%nat) as (k & -> & Hk).
  { exists (Z.to_nat n). lia. }
  repeat (apply elem_of_cons in Hs as [-> | Hs]);
    try (by apply elem_of_nil in Hs);
    do 37 (destruct k as [|k]; [first [lia | split; [vm_compute; reflexivity | reflexivity]] |]);
    lia.
Qed.

Lemma opp_runway_reciprocal_witness :
  opp_runway (runway_ident "R" "W" 9 "L") = Ok ("27" +:+ "R")
  /\ Z.abs (27 * 10 - 9 * 10) = 180.
Proof.
  apply (opp_runway_reciprocal "R" "W" 9 "L"); [lia | repeat constructor].
Defined.

(** ** Flight-plan assembly *)

#[local] Arguments Py.getitem : simpl never.
#[local] Arguments Py.setitem : simpl never.
#[local] Arguments Py.delitem : simpl never.
#[local] Arguments Py.insert : simpl never.
#[local] Arguments Py.pop : simpl never.
#[local] Arguments populate_alt : simpl never.

(** Splits a hypothesis [(x ← m; k x) = Ok b], repeatedly, into the
    equations of the successive statements. *)
Ltac binds H :=
  repeat first
    [ progress (cbn in H)
    | match type of H with
      | Ok _ = Ok _ => injection H as H; try subst
      | (_ ≫= _) = Ok _ =>
          let a := fresh "a" in
          let Ha := fresh "H" a in
          apply bind_Ok in H; destruct H as (a & Ha & H); binds Ha
      end ].

Lemma add_departure_Ok index da dr lat_dep long_dep alt_dep self self' :
  add_departure index da dr lat_dep long_dep alt_dep self = Ok self' ->
  exists names lats longs alts speeds,
    Py.getitem (Autopilot.flight_plan_name self') index = Ok ((da +:+ " " +:+ dr) :: names)
    /\ Py.getitem (Autopilot.flight_plan_lat self') index = Ok (lat_dep :: lats)
    /\ Py.getitem (Autopilot.flight_plan_long self') index = Ok (long_dep :: longs)
    /\ Py.getitem (Autopilot.flight_plan_target_alt self') index = Ok (alt_dep :: alts)
    /\ Py.getitem (Autopilot.flight_plan_target_speed self') index = Ok (0%Q :: speeds)
    /\ Py.getitem (Autopilot.flight_plan_target_alt self) index = Ok alts.
Proof.
  unfold add_departure, insert, mutate, assign. intros H. binds H.
  rewrite ?insert_front in *.
  eexists _, _, _, _, _. cbn.
  repeat split; eauto using @getitem_setitem.
Qed.

Lemma set_flight_plan_stages nav index da dr sid aa ar star appr fp fpi cruise self self' :
  set_flight_plan nav index da dr sid aa ar star appr fp fpi cruise self = Ok self' ->
  exists lat_dep long_dep alt_dep assembled filled,
    get_runway_coord nav da (Py.str_from 2 dr) = Ok (lat_dep, long_dep, alt_dep)
    /\ assemble_legs nav index da dr sid aa ar star appr fp fpi cruise self = Ok assembled
    /\ mutate Autopilot.flight_plan_target_alt index populate_alt assembled = Ok filled
    /\ add_departure index da dr lat_dep long_dep alt_dep filled = Ok self'.
Proof.
  unfold set_flight_plan. intros H.
  apply bind_Ok in H as (_ & _ & H).
  apply bind_Ok in H as ([[lat_dep long_dep] alt_dep] & Hdep & H).
  apply bind_Ok in H as (assembled & Hlegs & H).
  apply bind_Ok in H as (filled & Hfill & H).
  eauto 10.
Qed.

(** C1. After every [set_flight_plan] call that returns, leg 0 of the
    aircraft's plan is the departure leg: it is named
    ["{departure_airport} {departure_runway}"], it lies at the threshold that
    [Nav] gives for the departure runway, its target altitude is the
    threshold elevation and its target speed is 0. *)
Theorem set_flight_plan_departure_leg nav index departure_airport departure_runway sid
    arrival_airport arrival_runway star approach flight_plan flight_plan_index cruise_alt
    self self' :
  set_flight_plan nav index departure_airport departure_runway sid arrival_airport
    arrival_runway star approach flight_plan flight_plan_index cruise_alt self = Ok self' ->
  exists lat_dep long_dep alt_dep names lats longs alts speeds,
    get_runway_coord nav departure_airport (Py.str_from 2 departure_runway)
      = Ok (lat_dep, long_dep, alt_dep)
    /\ Py.getitem (Autopilot.flight_plan_name self') index
         = Ok ((departure_airport +:+ " " +:+ departure_runway) :: names)
    /\ Py.getitem (Autopilot.flight_plan_lat self') index = Ok (lat_dep :: lats)
    /\ Py.getitem (Autopilot.flight_plan_long self') index = Ok (long_dep :: longs)
    /\ Py.getitem (Autopilot.flight_plan_target_alt self') index = Ok (alt_dep :: alts)
    /\ Py.getitem (Autopilot.flight_plan_target_speed self') index = Ok (0%Q :: speeds).
Proof.
  intros (lat_dep & long_dep & alt_dep & s1 & s2 & Hdep & _ & _ & Hadd)%set_flight_plan_stages.
  apply add_departure_Ok in Hadd as (names & lats & longs & alts & speeds & H).
  exists lat_dep, long_dep, alt_dep, names, lats, longs, alts, speeds. tauto.
Qed.

Lemma set_flight_plan_departure_leg_witness :
  exists lat_dep long_dep alt_dep names lats longs alts speeds,
    get_runway_coord Demo.nav "VHHH" (Py.str_from 2 "RW07R") = Ok (lat_dep, long_dep, alt_dep)
    /\ Py.getitem (Autopilot.flight_plan_name Demo.ap_single) 0
         = Ok (("VHHH" +:+ " " +:+ "RW07R") :: names)
    /\ Py.getitem (Autopilot.flight_plan_lat Demo.ap_single) 0 = Ok (lat_dep :: lats)
    /\ Py.getitem (Autopilot.flight_plan_long Demo.ap_single) 0 = Ok (long_dep :: longs)
    /\ Py.getitem (Autopilot.flight_plan_target_alt Demo.ap_single) 0 = Ok (alt_dep :: alts)
    /\ Py.getitem (Autopilot.flight_plan_target_speed Demo.ap_single) 0 = Ok (0%Q :: speeds).
Proof.
  apply (set_flight_plan_departure_leg Demo.nav 0 "VHHH" "RW07R" "" "" "" "" ""
           ["PRAWN"] 0 37000 Demo.ap1 Demo.ap_single).
  vm_compute. reflexivity.
Defined.

(** ** Altitude back-fill *)

Section BackFill.
Implicit Types (l pre suf : list Q) (h x : Q).

Lemma getitem_middle {A : Type} (pre suf : list A) (x : A) :
  Py.getitem (pre ++ x :: suf) (Z.of_nat (length pre)) = Ok x.
Proof.
  apply getitem_Ok. exists (length pre). split.
  - rewrite norm_nonneg, Nat2Z.id; [done|]. rewrite length_app. simpl. lia.
  - by rewrite list_lookup_middle.
Qed.

Lemma setitem_middle {A : Type} (pre suf : list A) (x v : A) :
  Py.setitem (pre ++ x :: suf) (Z.of_nat (length pre)) v = Ok (pre ++ v :: suf).
Proof.
  apply setitem_Ok. exists (length pre). split.
  - rewrite norm_nonneg, Nat2Z.id; [done|]. rewrite length_app. simpl. lia.
  - rewrite insert_app_r_alt, Nat.sub_diag; done.
Qed.

Lemma setitem_last {A : Type} (pre : list A) (x v : A) :
  Py.setitem (pre ++ [x]) (-1) v = Ok (pre ++ [v]).
Proof.
  apply setitem_Ok. exists (length pre). split.
  - rewrite norm_last; rewrite length_app; simpl; [f_equal|]; lia.
  - rewrite insert_app_r_alt, Nat.sub_diag; done.
Qed.

Lemma enumerate_snoc {A : Type} (l : list A) (x : A) :
  enumerate (l ++ [x]) = enumerate l ++ [(Z.of_nat (length l), x)].
Proof. unfold enumerate. rewrite imap_app. simpl. by rewrite Nat.add_0_r. Qed.

Lemma fill_snoc h l x :
  let x' := if Qeq_bool x unspecified then h else x in
  fill h (l ++ [x]) = fill x' l ++ [x'].
Proof.
  intros x'. induction l as [|v l IH]; [done|].
  simpl. rewrite IH. f_equal. destruct (Qeq_bool v unspecified); [|done].
  by destruct (fill x' l).
Qed.

(** The loop of [set_flight_plan] computes what the law says. *)
Lemma backfill_fill pre h suf :
  backfill (reverse (enumerate pre)) (pre ++ h :: suf) = Ok (fill h pre ++ h :: suf).
Proof.
  revert h suf. induction pre as [|x pre IH] using rev_ind; intros h suf; [done|].
  rewrite enumerate_snoc, reverse_snoc, fill_snoc. simpl backfill.
  destruct (Qeq_bool x unspecified) eqn:Hx.
  - replace (Z.of_nat (length pre) + 1) with (Z.of_nat (length (pre ++ [x])))
      by (rewrite length_app; simpl; lia).
    rewrite getitem_middle. simpl. rewrite <- app_assoc. simpl.
    rewrite setitem_middle. simpl. rewrite IH. by rewrite <- app_assoc.
  - simpl. rewrite <- !app_assoc. simpl. apply IH.
Qed.

Lemma populate_alt_fill l :
  (1 < length l)%nat -> populate_alt l = Ok (fill 0 (removelast l) ++ [0%Q]).
Proof.
  intros Hlen. unfold populate_alt.
  replace (1 <? length l)%nat with true by (symmetry; by apply Nat.ltb_lt).
  destruct l as [|x l _] using rev_ind; [simpl in Hlen; lia|].
  rewrite removelast_last, setitem_last. simpl.
  rewrite enumerate_snoc, reverse_snoc. simpl. apply backfill_fill.
Qed.

Lemma populate_alt_short l : (length l <= 1)%nat -> populate_alt l = Ok l.
Proof.
  intros Hlen. unfold populate_alt.
  by replace (1 <? length l)%nat with false by (symmetry; apply Nat.ltb_ge; lia).
Qed.

Lemma fill_resolved h l : resolved h -> Forall resolved (fill h l).
Proof.
  intros Hh. induction l as [|v l IH]; simpl; [constructor|].
  constructor; [|done].
  destruct (Qeq_bool v unspecified) eqn:Hv; [|done].
  destruct IH; done.
Qed.

Lemma length_fill h l : length (fill h l) = length l.
Proof. induction l; simpl; congruence. Qed.

End BackFill.

Lemma mutate_target_alt_Ok index f self self' :
  mutate Autopilot.flight_plan_target_alt index f self = Ok self' ->
  exists l l',
    Py.getitem (Autopilot.flight_plan_target_alt self) index = Ok l
    /\ f l = Ok l'
    /\ Py.getitem (Autopilot.flight_plan_target_alt self') index = Ok l'.
Proof.
  unfold mutate, assign. intros H. binds H.
  eexists _, _. repeat split; eauto using @getitem_setitem.
Qed.

(** C2, as the code has it. After a [set_flight_plan] call that returns, the
    target altitudes of the plan are the elevation of the departure
    threshold followed by the altitudes of the assembled legs, back-filled:
    when more than one altitude was assembled, the last one is forced to 0
    and every unspecified one takes the next later resolved altitude, so
    that the last altitude is 0 and none after leg 0 is unspecified; when at
    most one altitude was assembled, it is left as it is. *)
Theorem set_flight_plan_backfill nav index departure_airport departure_runway sid
    arrival_airport arrival_runway star approach flight_plan flight_plan_index cruise_alt
    self self' :
  set_flight_plan nav index departure_airport departure_runway sid arrival_airport
    arrival_runway star approach flight_plan flight_plan_index cruise_alt self = Ok self' ->
  exists lat_dep long_dep alt_dep legs assembled alts,
    get_runway_coord nav departure_airport (Py.str_from 2 departure_runway)
      = Ok (lat_dep, long_dep, alt_dep)
    /\ assemble_legs nav index departure_airport departure_runway sid arrival_airport
         arrival_runway star approach flight_plan flight_plan_index cruise_alt self = Ok legs
    /\ Py.getitem (Autopilot.flight_plan_target_alt legs) index = Ok assembled
    /\ Py.getitem (Autopilot.flight_plan_target_alt self') index = Ok (alt_dep :: alts)
    /\ length alts = length assembled
    /\ ((1 < length assembled)%nat ->
        alts = fill 0 (removelast assembled) ++ [0%Q]
        /\ last alts = Some 0%Q
        /\ Forall resolved alts)
    /\ ((length assembled <= 1)%nat -> alts = assembled).
Proof.
  intros (lat_dep & long_dep & alt_dep & legs & filled & Hdep & Hlegs & Hfill & Hadd)
    %set_flight_plan_stages.
  apply add_departure_Ok in Hadd as (names & lats & longs & alts & speeds & H).
  destruct H as (_ & _ & _ & Halts & _ & Hfilled).
  apply mutate_target_alt_Ok in Hfill as (assembled & alts' & Hasm & Hpop & Halts').
  rewrite Halts' in Hfilled. injection Hfilled as <-.
  exists lat_dep, long_dep, alt_dep, legs, assembled, alts'.
  assert ((1 < length assembled)%nat -> alts' = fill 0 (removelast assembled) ++ [0%Q])
    as Hlong.
  { intros Hlen. rewrite populate_alt_fill in Hpop by done. by injection Hpop. }
  assert ((length assembled <= 1)%nat -> alts' = assembled) as Hshort.
  { intros Hlen. rewrite populate_alt_short in Hpop by done. by injection Hpop. }
  repeat split; try done.
  - destruct (decide (1 < length assembled)%nat) as [Hlen|Hlen].
    + rewrite Hlong by done. rewrite length_app, length_fill. simpl.
      destruct assembled as [|x assembled _] using rev_ind; [simpl in Hlen; lia|].
      by rewrite removelast_last, length_app.
    + rewrite Hshort by lia. done.
  - by apply Hlong.
  - rewrite Hlong by done. apply last_snoc.
  - rewrite Hlong by done.
    apply Forall_app. split; [by apply fill_resolved|]. by constructor.
Qed.

Lemma set_flight_plan_backfill_witness :
  exists lat_dep long_dep alt_dep legs assembled alts,
    get_runway_coord Demo.nav "VHHH" (Py.str_from 2 "RW07R") = Ok (lat_dep, long_dep, alt_dep)
    /\ assemble_legs Demo.nav 0 "VHHH" "RW07R" "PORPA1" "RCTP" "RW05L" "" ""
         ["PRAWN"; "RUMSY"] 0 unspecified Demo.ap1 = Ok legs
    /\ Py.getitem (Autopilot.flight_plan_target_alt legs) 0 = Ok assembled
    /\ Py.getitem (Autopilot.flight_plan_target_alt Demo.ap_sid) 0 = Ok (alt_dep :: alts)
    /\ length alts = length assembled
    /\ ((1 < length assembled)%nat ->
        alts = fill 0 (removelast assembled) ++ [0%Q]
        /\ last alts = Some 0%Q
        /\ Forall resolved alts)
    /\ ((length assembled <= 1)%nat -> alts = assembled).
Proof.
  apply (set_flight_plan_backfill Demo.nav 0 "VHHH" "RW07R" "PORPA1" "RCTP" "RW05L" "" ""
           ["PRAWN"; "RUMSY"] 0 unspecified Demo.ap1 Demo.ap_sid).
  vm_compute. reflexivity.
Defined.

(** The unspecified altitude of the departure procedure took the altitude of
    the runway leg that follows it; the enroute legs have no altitude. *)
Example backfill_sid :
  Py.getitem (Autopilot.flight_plan_target_alt Demo.ap_sid) 0 = Ok [28; 108; 108; 0]%Q
  /\ Py.getitem (Autopilot.flight_plan_name Demo.ap_sid) 0
     = Ok ["VHHH RW07R"; "PORPA"; "PRAWN"; "RUMSY"; "RCTP_RW05L"; "RCTP_RW05L_END"].
Proof. split; reflexivity. Qed.

(** C2, as stated, fails. A plan of one waypoint keeps the cruise altitude
    on its last leg: the back-fill is skipped unless more than one altitude
    was assembled. And leg 0 receives the threshold elevation after the
    back-fill, whatever it is: a threshold one foot below sea level leaves
    -1 on leg 0. *)
Lemma set_flight_plan_backfill_counterexample :
  (set_flight_plan Demo.nav 0 "VHHH" "RW07R" "" "" "" "" "" ["PRAWN"] 0 37000 Demo.ap1
     = Ok Demo.ap_single
   /\ Py.getitem (Autopilot.flight_plan_target_alt Demo.ap_single) 0 = Ok [28; 37000]%Q
   /\ last [28; 37000]%Q <> Some 0%Q)
  /\ (set_flight_plan Demo.nav 0 "EHAM" "RW18C" "" "RCTP" "RW05L" "" "" ["PRAWN"] 0 37000
        Demo.ap1 = Ok Demo.ap_low
      /\ Py.getitem (Autopilot.flight_plan_target_alt Demo.ap_low) 0
         = Ok [unspecified; 37000; 108; 0]%Q
      /\ ~ Forall resolved [unspecified; 37000; 108; 0]%Q).
Proof.
  split; split; try (vm_compute; reflexivity); split; try (vm_compute; reflexivity).
  - discriminate.
  - intros H. apply Forall_cons in H as [H _]. discriminate H.
Qed.

(** ** Adding and deleting aircraft *)

Lemma remove_Ok {A : Type} (field : Autopilot.t -> list A) {field_set : Setter field}
    index self self' :
  remove field index self = Ok self' ->
  exists l, Py.delitem (field self) index = Ok l /\ self' = self <| field := l |>.
Proof. unfold remove. intros H. binds H. eauto. Qed.

(** [del_aircraft] has no statement for [cruise_alt]. *)
Lemma del_aircraft_cruise_alt index self self' :
  del_aircraft index self = Ok self' ->
  Autopilot.cruise_alt self' = Autopilot.cruise_alt self.
Proof.
  unfold del_aircraft. intros H.
  repeat (apply bind_Ok in H as (? & (? & _ & ->)%remove_Ok & H)).
  apply remove_Ok in H as (? & _ & ->). reflexivity.
Qed.

Lemma length_delitem {A : Type} (l l' : list A) i :
  Py.delitem l i = Ok l' -> length l = S (length l').
Proof.
  unfold Py.delitem. destruct (Py.norm _ _) as [n|] eqn:Hn; [|discriminate].
  intros [= <-]. apply norm_lt in Hn. rewrite length_delete; [lia|].
  by apply lookup_lt_is_Some_2.
Qed.

Lemma del_aircraft_alt index self self' :
  del_aircraft index self = Ok self' ->
  Py.delitem (Autopilot.alt self) index = Ok (Autopilot.alt self').
Proof.
  unfold del_aircraft. intros H.
  apply bind_Ok in H as (? & (l & Hl & ->)%remove_Ok & H).
  repeat (apply bind_Ok in H as (? & (? & _ & ->)%remove_Ok & H)).
  apply remove_Ok in H as (? & _ & ->). exact Hl.
Qed.

(** Every deletion that returns leaves [cruise_alt] one entry longer than
    the vectors it was aligned with. *)
Lemma del_aircraft_misaligns index self self' :
  length (Autopilot.cruise_alt self) = length (Autopilot.alt self) ->
  del_aircraft index self = Ok self' ->
  length (Autopilot.cruise_alt self') = S (length (Autopilot.alt self')).
Proof.
  intros Hlen Hdel. rewrite (del_aircraft_cruise_alt _ _ _ Hdel), Hlen.
  eapply length_delitem, del_aircraft_alt, Hdel.
Qed.

(** C10 fails on the code. After two [add_aircraft] calls and the deletion
    of the first aircraft, every vector holds one entry, that of the second
    aircraft, except [cruise_alt], which still holds two: entry 0 is the
    cruise altitude of the deleted aircraft. *)
Theorem del_aircraft_leaves_cruise_alt :
  del_aircraft 0 Demo.ap12 = Ok Demo.ap2
  /\ Autopilot.departure_airport Demo.ap12 = ["VHHH"; "RCTP"]
  /\ Autopilot.cruise_alt Demo.ap12 = [37000; 20000]%Q
  /\ Autopilot.departure_airport Demo.ap2 = ["RCTP"]
  /\ length (Autopilot.alt Demo.ap2) = 1%nat
  /\ length (Autopilot.flight_plan_name Demo.ap2) = 1%nat
  /\ Autopilot.cruise_alt Demo.ap2 = [37000; 20000]%Q.
Proof. repeat split; vm_compute; reflexivity. Qed.

(** ** Cross-track correction *)

Section CorrectionFacts.
Import Correction.
#[local] Open Scope R_scope.

Lemma correction_zero : correction 0 = 0.
Proof.
  unfold correction. destruct (Rgt_dec (Rabs 0) 200) as [H|_].
  - rewrite Rabs_R0 in H. lra.
  - replace (- 0 / 40) with 0 by lra. rewrite exp_0. lra.
Qed.

Lemma correction_far x : Rabs x > 200 -> correction x = sign x * 20.
Proof. intros H. unfold correction. by destruct (Rgt_dec (Rabs x) 200). Qed.

Lemma Rabs_sign x : x <> 0 -> Rabs (sign x) = 1.
Proof.
  intros Hx. unfold sign.
  destruct (Rlt_dec x 0); [|destruct (Rlt_dec 0 x)];
    unfold Rabs; destruct (Rcase_abs _); lra.
Qed.

(** C5, as the code has it. The correction is exactly 0 at zero deviation,
    and whenever the deviation is larger than 200 m in magnitude it is 20
    degrees in magnitude, with the sign of the deviation. *)
Theorem correction_bounds :
  correction 0 = 0
  /\ forall x, Rabs x > 200 ->
       correction x = sign x * 20
       /\ Rabs (correction x) = 20
       /\ (0 < x -> correction x = 20)
       /\ (x < 0 -> correction x = - 20).
Proof.
  split; [apply correction_zero|]. intros x Hx.
  rewrite (correction_far x Hx).
  assert (x <> 0) as Hne. { intros ->. rewrite Rabs_R0 in Hx. lra. }
  repeat split.
  - rewrite Rabs_mult, Rabs_sign by done. rewrite Rabs_pos_eq; lra.
  - intros Hpos. unfold sign. destruct (Rlt_dec x 0); [lra|].
    destruct (Rlt_dec 0 x); lra.
  - intros Hneg. unfold sign. destruct (Rlt_dec x 0); lra.
Qed.

Lemma correction_bounds_witness :
  Rabs 300 > 200
  /\ correction 300 = sign 300 * 20
  /\ Rabs (correction 300) = 20
  /\ (0 < 300 -> correction 300 = 20)
  /\ (300 < 0 -> correction 300 = - 20).
Proof.
  assert (Rabs 300 > 200) as H. { rewrite Rabs_pos_eq; lra. }
  split; [exact H|]. exact (proj2 correction_bounds 300 H).
Defined.

(** C5, as stated, fails at a deviation of exactly 200 m: the comparison is
    strict, so the damped formula applies and gives [20 * (1 - exp (-5))],
    which is less than 20. *)
Lemma correction_counterexample : Rabs 200 >= 200 /\ Rabs (correction 200) <> 20.
Proof.
  split. { rewrite Rabs_pos_eq; lra. }
  unfold correction. destruct (Rgt_dec (Rabs 200) 200) as [H|_].
  { rewrite Rabs_pos_eq in H; lra. }
  replace (- (200) / 40) with (- 5) by lra.
  assert (0 < exp (- 5)) as Hpos by apply exp_pos.
  assert (exp (- 5) < 1) as Hlt.
  { rewrite <- exp_0. apply exp_increasing. lra. }
  rewrite Rabs_pos_eq; lra.
Qed.

End CorrectionFacts.

(** ** The aircraft facade *)

Lemma M_bind_unfold {A B : Type} (m : M A) (k : A -> M B) (s : Aircraft.t) :
  (m ≫= k) s = match m s with
               | (Ok a, s1) => k a s1
               | (Raise e, s1) => (Raise e, s1)
               end.
Proof. reflexivity. Qed.

Lemma M_bind_Ok {A B : Type} (m : M A) (k : A -> M B) (s s' : Aircraft.t) (b : B) :
  (m ≫= k) s = (Ok b, s') -> exists a s1, m s = (Ok a, s1) /\ k a s1 = (Ok b, s').
Proof.
  rewrite M_bind_unfold. destruct (m s) as [[a|e] s1]; [eauto | discriminate].
Qed.

Lemma eval_Ok {A : Type} (e : Aircraft.t -> result A) (s s1 : Aircraft.t) (a : A) :
  eval e s = (Ok a, s1) -> e s = Ok a /\ s1 = s.
Proof. unfold eval. intros [= -> ->]. done. Qed.

Lemma on_ap_Ok stmt (s s1 : Aircraft.t) (u : unit) :
  on_ap stmt s = (Ok u, s1) ->
  exists ap', stmt (ap_of s) = Ok ap' /\ s1 = with_ap s ap'.
Proof.
  unfold on_ap. destruct (stmt _) as [ap'|e]; [|discriminate].
  intros [= _ <-]. eauto.
Qed.

Lemma get_next_wp_state (s : Aircraft.t) : (get_next_wp s).2 = s.
Proof.
  unfold get_next_wp, resolve. rewrite !M_bind_unfold. unfold eval at 1.
  destruct (first_index _ _ _) as [index|e]; [|done].
  rewrite !M_bind_unfold. unfold eval at 1.
  destruct (Py.getitem _ index) as [i|e]; [|done].
  rewrite !M_bind_unfold. unfold eval at 1.
  destruct (Py.getitem _ index) as [names|e]; [|done].
  destruct (Z.of_nat (length names) <=? i); [done|].
  rewrite !M_bind_unfold. unfold eval at 1.
  by destruct (Py.getitem names i).
Qed.

Lemma first_index_raises id ids k e : first_index id ids k = Raise e -> e = IndexError.
Proof.
  revert k. induction ids as [|x ids IH]; intros k; simpl.
  - by intros [= <-].
  - destruct (x =? id); [discriminate|]. apply IH.
Qed.

(** C9. [set_direct] never reads its argument, and all it does is to set
    the lateral mode of the aircraft's slot to LNAV.  When the aircraft is
    found in the traffic store, in slot [n], and the autopilot has a lateral
    mode for that slot, the call returns, and the state differs from the
    former state in entry [n] of the autopilot's [lateral_mode] only, which
    is LNAV: every other field of the handle, of the traffic store and of
    the autopilot is unchanged.  Otherwise, when the aircraft or its slot
    is not found, the call raises [IndexError] and the state is as
    before. *)
Theorem set_direct_only_lateral_mode (waypoint waypoint' : string) (s : Aircraft.t) :
  set_direct waypoint s = set_direct waypoint' s
  /\ match first_index (Aircraft.index s) (Traffic.index (Aircraft.traffic s)) 0 with
     | Ok index =>
         match Py.norm (length (Autopilot.lateral_mode (ap_of s))) index with
         | Some n =>
             set_direct waypoint s
             = (Ok tt,
                s <| Aircraft.traffic :=
                  (Aircraft.traffic s) <| Traffic.ap :=
                    (ap_of s) <| Autopilot.lateral_mode :=
                      <[n := LNAV]> (Autopilot.lateral_mode (ap_of s)) |> |> |>)
             /\ Autopilot.lateral_mode (ap_of (set_direct waypoint s).2) !! n = Some LNAV
         | None => set_direct waypoint s = (Raise IndexError, s)
         end
     | Raise e => e = IndexError /\ set_direct waypoint s = (Raise IndexError, s)
     end.
Proof.
  split; [reflexivity|].
  unfold set_direct, resolve. rewrite M_bind_unfold. unfold eval.
  destruct (first_index _ _ _) as [index|e] eqn:Hindex.
  - unfold on_ap, assign, Py.setitem.
    destruct (Py.norm _ index) as [n|] eqn:Hn; simpl; [|reflexivity].
    split; [reflexivity|].
    apply list_lookup_insert_eq. by eapply norm_lt.
  - apply first_index_raises in Hindex as ->. by split.
Qed.

Example set_direct_demo :
  (set_direct "TONGA" (Demo.handle Demo.ap1)).1 = Ok tt
  /\ Autopilot.lateral_mode (ap_of (set_direct "TONGA" (Demo.handle Demo.ap1)).2) = [LNAV].
Proof. split; reflexivity. Qed.

Lemma on_ap_run stmt (s : Aircraft.t) ap' :
  stmt (ap_of s) = Ok ap' ->
  on_ap stmt s = (Ok tt, with_ap s ap').
Proof. unfold on_ap. by intros ->. Qed.

Lemma assign_run {A : Type} (field : Autopilot.t -> list A) {field_set : Setter field}
    index n (v : A) self :
  Py.norm (length (field self)) index = Some n ->
  assign field index v self = Ok (self <| field := <[n := v]> (field self) |>).
Proof. unfold assign, Py.setitem. by intros ->. Qed.

(** What [set_holding] does once the aircraft is found in slot [n]. *)
Lemma set_holding_run nav holding_time holding_fix region s index n :
  first_index (Aircraft.index s) (Traffic.index (Aircraft.traffic s)) 0 = Ok index ->
  Py.norm (length (Autopilot.holding_round (ap_of s))) index = Some n ->
  set_holding nav holding_time holding_fix region s
  = let s1 :=
      s <| Aircraft.traffic :=
        (Aircraft.traffic s) <| Traffic.ap :=
          (ap_of s) <| Autopilot.holding_round :=
            <[n := holding_time]> (Autopilot.holding_round (ap_of s)) |> |> |> in
    match get_holding_procedure nav holding_fix region with
    | Ok info => on_ap (assign Autopilot.holding_info index info) s1
    | Raise e => (Raise e, s1)
    end.
Proof.
  intros Hindex Hn.
  unfold set_holding, resolve. rewrite M_bind_unfold. unfold eval at 1. rewrite Hindex.
  rewrite M_bind_unfold.
  rewrite (on_ap_run _ s _ (assign_run Autopilot.holding_round index n holding_time _ Hn)).
  rewrite M_bind_unfold. unfold eval.
  by destruct (get_holding_procedure nav holding_fix region).
Qed.

(** C8, as the code has it. [set_holding] stores the round count before it
    asks [Nav] for the holding definition. Whatever [Nav] answers, the
    remaining-rounds counter of the aircraft holds the requested value
    afterwards; and when the lookup raises, the error reaches the caller
    and the rest of the state, the cached holding definition included, is as
    before. *)
Theorem set_holding_overwrites_rounds nav holding_time holding_fix region s index n :
  first_index (Aircraft.index s) (Traffic.index (Aircraft.traffic s)) 0 = Ok index ->
  Py.norm (length (Autopilot.holding_round (ap_of s))) index = Some n ->
  Autopilot.holding_round (ap_of (set_holding nav holding_time holding_fix region s).2)
    = <[n := holding_time]> (Autopilot.holding_round (ap_of s))
  /\ forall e,
       get_holding_procedure nav holding_fix region = Raise e ->
       set_holding nav holding_time holding_fix region s
       = (Raise e,
          s <| Aircraft.traffic :=
            (Aircraft.traffic s) <| Traffic.ap :=
              (ap_of s) <| Autopilot.holding_round :=
                <[n := holding_time]> (Autopilot.holding_round (ap_of s)) |> |> |>).
Proof.
  intros Hindex Hn.
  rewrite (set_holding_run nav holding_time holding_fix region s index n Hindex Hn).
  destruct (get_holding_procedure nav holding_fix region) as [info|e] eqn:Hinfo.
  - split; [|discriminate].
    unfold on_ap, assign. destruct (Py.setitem _ index info); reflexivity.
  - split; [reflexivity|]. by intros ? [= <-].
Qed.

Lemma set_holding_overwrites_rounds_witness :
  Autopilot.holding_round
    (ap_of (set_holding Demo.nav 3 "TONGA" "RC" (Demo.handle Demo.ap1)).2)
    = <[0%nat := 3%Q]> (Autopilot.holding_round (ap_of (Demo.handle Demo.ap1)))
  /\ forall e,
       get_holding_procedure Demo.nav "TONGA" "RC" = Raise e ->
       set_holding Demo.nav 3 "TONGA" "RC" (Demo.handle Demo.ap1)
       = (Raise e,
          (Demo.handle Demo.ap1) <| Aircraft.traffic :=
            (Aircraft.traffic (Demo.handle Demo.ap1)) <| Traffic.ap :=
              (ap_of (Demo.handle Demo.ap1)) <| Autopilot.holding_round :=
                <[0%nat := 3%Q]>
                  (Autopilot.holding_round (ap_of (Demo.handle Demo.ap1))) |> |> |>).
Proof.
  apply (set_holding_overwrites_rounds Demo.nav 3 "TONGA" "RC" (Demo.handle Demo.ap1) 0 0);
    reflexivity.
Defined.

(** C8, as stated, fails. With no holding definition in [Nav], the call
    raises [NotFound] to the caller, and the remaining-rounds counter, 0
    before, is 3 afterwards. *)
Lemma set_holding_counterexample :
  get_holding_procedure Demo.nav "TONGA" "RC" = Raise NotFound
  /\ (set_holding Demo.nav 3 "TONGA" "RC" (Demo.handle Demo.ap1)).1 = Raise NotFound
  /\ Autopilot.holding_round (ap_of (Demo.handle Demo.ap1)) = [0%Q]
  /\ Autopilot.holding_round
       (ap_of (set_holding Demo.nav 3 "TONGA" "RC" (Demo.handle Demo.ap1)).2) = [3%Q].
Proof. repeat split; reflexivity. Qed.

(** ** Radar vectoring *)

Lemma mutate_Ok {A : Type} (field : Autopilot.t -> list (list A)) {field_set : Setter field}
    index f self self' :
  mutate field index f self = Ok self' ->
  exists l l' ls,
    Py.getitem (field self) index = Ok l
    /\ f l = Ok l'
    /\ Py.setitem (field self) index l' = Ok ls
    /\ self' = self <| field := ls |>.
Proof. unfold mutate, assign. intros H. binds H. eauto 10. Qed.

Lemma insert_nonneg {A : Type} (l : list A) i v :
  0 <= i -> Py.insert l i v = take (Z.to_nat i) l ++ v :: drop (Z.to_nat i) l.
Proof.
  intros Hi. unfold Py.insert, Py.insert_pos.
  replace (i <? 0) with false by (symmetry; apply Z.ltb_ge; lia).
  destruct (decide (i <= Z.of_nat (length l))) as [Hle|Hgt].
  - by replace (Z.min i (Z.of_nat (length l))) with i by lia.
  - replace (Z.min i (Z.of_nat (length l))) with (Z.of_nat (length l)) by lia.
    rewrite Nat2Z.id, !take_ge, !drop_ge by lia. done.
Qed.

Lemma ap_of_with_ap s ap : ap_of (with_ap s ap) = ap.
Proof. reflexivity. Qed.

(** Runs one statement of a facade method that returned. *)
Tactic Notation "m_step" hyp(H) "as" ident(a) ident(s1) ident(Ha) :=
  apply M_bind_Ok in H as (a & s1 & Ha & H);
  first [ apply eval_Ok in Ha as [Ha ->] | idtac ].

Lemma set_vectoring_effect geo vectoring_time v_2 fix_ s s' :
  Aircraft.vectoring s <> fix_ ->
  (get_next_wp s).1 = Ok (Some fix_) ->
  set_vectoring geo vectoring_time v_2 fix_ s = (Ok tt, s') ->
  exists index i lats longs names alts speeds alt_i lat long,
    first_index (Aircraft.index s) (Traffic.index (Aircraft.traffic s)) 0 = Ok index
    /\ Py.getitem (Autopilot.flight_plan_index (ap_of s)) index = Ok i
    /\ Py.getitem (Autopilot.flight_plan_lat (ap_of s)) index = Ok lats
    /\ Py.getitem (Autopilot.flight_plan_long (ap_of s)) index = Ok longs
    /\ Py.getitem (Autopilot.flight_plan_name (ap_of s)) index = Ok names
    /\ Py.getitem (Autopilot.flight_plan_target_alt (ap_of s)) index = Ok alts
    /\ Py.getitem (Autopilot.flight_plan_target_speed (ap_of s)) index = Ok speeds
    /\ Py.getitem alts i = Ok alt_i
    /\ Py.getitem (Autopilot.flight_plan_lat (ap_of s')) index = Ok (Py.insert lats i lat)
    /\ Py.getitem (Autopilot.flight_plan_long (ap_of s')) index = Ok (Py.insert longs i long)
    /\ Py.getitem (Autopilot.flight_plan_name (ap_of s')) index
       = Ok (Py.insert names i "VECT")
    /\ Py.getitem (Autopilot.flight_plan_target_alt (ap_of s')) index
       = Ok (Py.insert alts i alt_i)
    /\ (exists speeds1,
          Py.setitem speeds i v_2 = Ok speeds1
          /\ Py.getitem (Autopilot.flight_plan_target_speed (ap_of s')) index
             = Ok (Py.insert speeds1 i v_2))
    /\ Autopilot.flight_plan_index (ap_of s') = Autopilot.flight_plan_index (ap_of s)
    /\ Aircraft.vectoring s' = fix_.
Proof.
  intros Hvect Hnext Hrun. unfold set_vectoring in Hrun.
  rewrite M_bind_unfold in Hrun. unfold eval at 1 in Hrun.
  apply String.eqb_neq in Hvect. rewrite Hvect in Hrun.
  rewrite M_bind_unfold in Hrun.
  pose proof (get_next_wp_state s) as Hstate.
  destruct (get_next_wp s) as [r s0]. simpl in Hnext, Hstate. subst r s0.
  rewrite bool_decide_eq_true_2 in Hrun by done.
  apply M_bind_Ok in Hrun as ([] & s1 & Hput & Hrun).
  assert (s1 = s <| Aircraft.vectoring := fix_ |>) as Hs1 by (by injection Hput).
  clear Hput. subst s1.
  m_step Hrun as index s2 Hindex.
  m_step Hrun as dist s2 Hdist. m_step Hrun as cas s2 Hcas. m_step Hrun as heading s2 Hheading.
  m_step Hrun as dist' s2 Hdist'. m_step Hrun as lat0 s2 Hlat0. m_step Hrun as long0 s2 Hlong0.
  destruct (vectoring_point _ _ _ _ _ _ _ _) as [lat long].
  m_step Hrun as i s2 Hi.
  set (s1 := s <| Aircraft.vectoring := fix_ |>) in *.
  change (ap_of s1) with (ap_of s) in *.
  change (Aircraft.traffic s1) with (Aircraft.traffic s) in *.
  change (Aircraft.index s1) with (Aircraft.index s) in *.
  apply M_bind_Ok in Hrun as ([] & s2 & (ap2 & Hlat & ->)%on_ap_Ok & Hrun).
  apply M_bind_Ok in Hrun as ([] & s3 & (ap3 & Hlong & ->)%on_ap_Ok & Hrun).
  apply M_bind_Ok in Hrun as ([] & s4 & (ap4 & Hname & ->)%on_ap_Ok & Hrun).
  apply M_bind_Ok in Hrun as ([] & s5 & (ap5 & Halt & ->)%on_ap_Ok & Hrun).
  apply M_bind_Ok in Hrun as ([] & s6 & (ap6 & Hspeed & ->)%on_ap_Ok & Hrun).
  apply on_ap_Ok in Hrun as (ap7 & Hspeed' & ->).
  rewrite ?ap_of_with_ap in *. change (ap_of s1) with (ap_of s) in *.
  apply mutate_Ok in Hlat as (lats & ? & ls_lat & Hlats & [= <-] & Hls_lat & ->).
  apply mutate_Ok in Hlong as (longs & ? & ls_long & Hlongs & [= <-] & Hls_long & ->).
  apply mutate_Ok in Hname as (names & ? & ls_name & Hnames & [= <-] & Hls_name & ->).
  apply mutate_Ok in Halt as (alts & alts' & ls_alt & Halts & Halts' & Hls_alt & ->).
  apply mutate_Ok in Hspeed
    as (speeds & speeds1 & ls_speed & Hspeeds & Hspeeds1 & Hls_speed & ->).
  apply mutate_Ok in Hspeed'
    as (speeds1' & speeds2 & ls_speed' & Hspeeds1' & Hspeeds2 & Hls_speed' & ->).
  cbn -[ap_of] in *. unfold constant in *.
  apply bind_Ok in Halts' as (alt_i & Halt_i & [= <-]).
  pose proof (getitem_setitem _ _ _ _ Hls_speed) as Hsame.
  rewrite Hsame in Hspeeds1'. injection Hspeeds1' as <-.
  apply bind_Ok in Hspeeds2 as (v & Hv & [= <-]).
  rewrite (getitem_setitem _ _ _ _ Hspeeds1) in Hv. injection Hv as <-.
  exists index, i, lats, longs, names, alts, speeds, alt_i, lat, long.
  repeat split; eauto using @getitem_setitem.
Qed.

Lemma get_next_wp_Some s w :
  (get_next_wp s).1 = Ok (Some w) ->
  exists index i names,
    first_index (Aircraft.index s) (Traffic.index (Aircraft.traffic s)) 0 = Ok index
    /\ Py.getitem (Autopilot.flight_plan_index (ap_of s)) index = Ok i
    /\ Py.getitem (Autopilot.flight_plan_name (ap_of s)) index = Ok names
    /\ i < Z.of_nat (length names)
    /\ Py.getitem names i = Ok w.
Proof.
  unfold get_next_wp, resolve. rewrite M_bind_unfold. unfold eval at 1.
  destruct (first_index _ _ _) as [index|e]; [|discriminate].
  rewrite M_bind_unfold. unfold eval at 1.
  destruct (Py.getitem (Autopilot.flight_plan_index _) index) as [i|e] eqn:Hi;
    [|discriminate].
  rewrite M_bind_unfold. unfold eval at 1.
  destruct (Py.getitem (Autopilot.flight_plan_name _) index) as [names|e] eqn:Hnames;
    [|discriminate].
  destruct (Z.of_nat (length names) <=? i) eqn:Hlen; [discriminate|].
  rewrite M_bind_unfold. unfold eval at 1.
  destruct (Py.getitem names i) as [name|e] eqn:Hname; [|discriminate].
  intros [= <-]. apply Z.leb_gt in Hlen. eauto 10.
Qed.

Lemma insert_setitem_nonneg {A : Type} (l l1 : list A) i v :
  0 <= i -> Py.setitem l i v = Ok l1 ->
  Py.insert l1 i v = take (Z.to_nat i) l ++ v :: v :: drop (S (Z.to_nat i)) l.
Proof.
  intros Hi (n & Hn & ->)%setitem_Ok.
  pose proof (norm_lt _ _ _ Hn) as Hlt.
  rewrite norm_nonneg in Hn by (unfold Py.norm in Hn; repeat case_match; try done; lia).
  injection Hn as <-.
  rewrite insert_nonneg by done.
  rewrite insert_take_drop by done.
  rewrite take_app_length', drop_app_length' by (rewrite length_take; lia). done.
Qed.

(** C6, as the code has it. When [set_vectoring] takes effect and returns,
    with [i] the leg pointer of the aircraft (not negative): exactly one leg
    named "VECT" is inserted at position [i], immediately before the leg that
    was current; it carries the altitude target of that leg and the
    requested speed [v_2]; and the leg that was current, now at [i + 1],
    carries [v_2] as well: its former speed target is overwritten before the
    new entry is inserted. The leg pointer is unchanged and the handle
    remembers the fix. *)
Theorem set_vectoring_inserts_vect geo vectoring_time v_2 fix_ s s' :
  Aircraft.vectoring s <> fix_ ->
  (get_next_wp s).1 = Ok (Some fix_) ->
  set_vectoring geo vectoring_time v_2 fix_ s = (Ok tt, s') ->
  exists index i names alts speeds alt_i,
    first_index (Aircraft.index s) (Traffic.index (Aircraft.traffic s)) 0 = Ok index
    /\ Py.getitem (Autopilot.flight_plan_index (ap_of s)) index = Ok i
    /\ Py.getitem (Autopilot.flight_plan_name (ap_of s)) index = Ok names
    /\ Py.getitem names i = Ok fix_
    /\ Py.getitem (Autopilot.flight_plan_target_alt (ap_of s)) index = Ok alts
    /\ Py.getitem alts i = Ok alt_i
    /\ Py.getitem (Autopilot.flight_plan_target_speed (ap_of s)) index = Ok speeds
    /\ (0 <= i ->
        let k := Z.to_nat i in
        Py.getitem (Autopilot.flight_plan_name (ap_of s')) index
          = Ok (take k names ++ "VECT" :: drop k names)
        /\ Py.getitem (Autopilot.flight_plan_target_alt (ap_of s')) index
           = Ok (take k alts ++ alt_i :: drop k alts)
        /\ Py.getitem (Autopilot.flight_plan_target_speed (ap_of s')) index
           = Ok (take k speeds ++ v_2 :: v_2 :: drop (S k) speeds))
    /\ Autopilot.flight_plan_index (ap_of s') = Autopilot.flight_plan_index (ap_of s)
    /\ Aircraft.vectoring s' = fix_.
Proof.
  intros Hvect Hnext Hrun.
  destruct (set_vectoring_effect _ _ _ _ _ _ Hvect Hnext Hrun)
    as (index & i & lats & longs & names & alts & speeds & alt_i & lat & long & H).
  destruct H as (Hindex & Hi & _ & _ & Hnames & Halts & Hspeeds & Halt_i & _ & _
                 & Hnames' & Halts' & (speeds1 & Hspeeds1 & Hspeeds') & Hfpi & Hfix).
  apply get_next_wp_Some in Hnext as (index' & i' & names' & Hindex' & Hi' & Hn' & _ & Hw).
  rewrite Hindex in Hindex'. injection Hindex' as <-.
  rewrite Hi in Hi'. injection Hi' as <-.
  rewrite Hnames in Hn'. injection Hn' as <-.
  exists index, i, names, alts, speeds, alt_i. repeat split; try done.
  - by rewrite <- insert_nonneg.
  - by rewrite <- insert_nonneg.
  - by rewrite <- (insert_setitem_nonneg speeds speeds1 i v_2).
Qed.

Lemma set_vectoring_inserts_vect_witness :
  exists index i names alts speeds alt_i,
    first_index 7 [7] 0 = Ok index
    /\ Py.getitem (Autopilot.flight_plan_index Demo.ap_sid) index = Ok i
    /\ Py.getitem (Autopilot.flight_plan_name Demo.ap_sid) index = Ok names
    /\ Py.getitem names i = Ok "PORPA"
    /\ Py.getitem (Autopilot.flight_plan_target_alt Demo.ap_sid) index = Ok alts
    /\ Py.getitem alts i = Ok alt_i
    /\ Py.getitem (Autopilot.flight_plan_target_speed Demo.ap_sid) index = Ok speeds
    /\ (0 <= i ->
        let k := Z.to_nat i in
        Py.getitem (Autopilot.flight_plan_name (ap_of Demo.vectored)) index
          = Ok (take k names ++ "VECT" :: drop k names)
        /\ Py.getitem (Autopilot.flight_plan_target_alt (ap_of Demo.vectored)) index
           = Ok (take k alts ++ alt_i :: drop k alts)
        /\ Py.getitem (Autopilot.flight_plan_target_speed (ap_of Demo.vectored)) index
           = Ok (take k speeds ++ 200%Q :: 200%Q :: drop (S k) speeds))
    /\ Autopilot.flight_plan_index (ap_of Demo.vectored)
       = Autopilot.flight_plan_index Demo.ap_sid
    /\ Aircraft.vectoring Demo.vectored = "PORPA".
Proof.
  apply (set_vectoring_inserts_vect Demo.geo 60 200 "PORPA" (Demo.handle Demo.ap_sid)
           Demo.vectored).
  - discriminate.
  - vm_compute. reflexivity.
  - vm_compute. reflexivity.
Defined.

(** C6, as stated, fails in its last part. The next waypoint PORPA had the
    speed target 250; after a vectoring instruction at 200 knots the plan has
    the new leg VECT before PORPA, and both carry 200: the 250 is gone. *)
Lemma set_vectoring_counterexample :
  set_vectoring Demo.geo 60 200 "PORPA" (Demo.handle Demo.ap_sid) = (Ok tt, Demo.vectored)
  /\ Autopilot.flight_plan_index Demo.ap_sid = [1]
  /\ Autopilot.flight_plan_name Demo.ap_sid
     = [["VHHH RW07R"; "PORPA"; "PRAWN"; "RUMSY"; "RCTP_RW05L"; "RCTP_RW05L_END"]]
  /\ Autopilot.flight_plan_target_speed Demo.ap_sid
     = [[0; 250; unspecified; unspecified; 0; 0]%Q]
  /\ Autopilot.flight_plan_name (ap_of Demo.vectored)
     = [["VHHH RW07R"; "VECT"; "PORPA"; "PRAWN"; "RUMSY"; "RCTP_RW05L"; "RCTP_RW05L_END"]]
  /\ Autopilot.flight_plan_target_speed (ap_of Demo.vectored)
     = [[0; 200; 200; unspecified; unspecified; 0; 0]%Q].
Proof. repeat split; vm_compute; reflexivity. Qed.

Lemma set_vectoring_same geo vectoring_time v_2 fix_ s :
  Aircraft.vectoring s = fix_ ->
  set_vectoring geo vectoring_time v_2 fix_ s = (Ok tt, s).
Proof.
  intros <-. unfold set_vectoring. rewrite M_bind_unfold. unfold eval.
  by rewrite String.eqb_refl.
Qed.

Lemma set_vectoring_elsewhere geo vectoring_time v_2 fix_ s next_wp :
  Aircraft.vectoring s <> fix_ ->
  (get_next_wp s).1 = Ok next_wp ->
  next_wp <> Some fix_ ->
  set_vectoring geo vectoring_time v_2 fix_ s = (Ok tt, s).
Proof.
  intros Hvect%String.eqb_neq Hnext Hother.
  unfold set_vectoring. rewrite M_bind_unfold. unfold eval. rewrite Hvect.
  rewrite M_bind_unfold.
  pose proof (get_next_wp_state s) as Hstate.
  destruct (get_next_wp s) as [r s0]. simpl in Hnext, Hstate. subst r s0.
  by rewrite bool_decide_eq_false_2.
Qed.

Lemma set_vectoring_raises geo vectoring_time v_2 fix_ s e :
  Aircraft.vectoring s <> fix_ ->
  (get_next_wp s).1 = Raise e ->
  set_vectoring geo vectoring_time v_2 fix_ s = (Raise e, s).
Proof.
  intros Hvect%String.eqb_neq Hnext.
  unfold set_vectoring. rewrite M_bind_unfold. unfold eval. rewrite Hvect.
  rewrite M_bind_unfold.
  pose proof (get_next_wp_state s) as Hstate.
  destruct (get_next_wp s) as [r s0]. simpl in Hnext, Hstate. by subst r s0.
Qed.

(** C7. When a [set_vectoring] call for a fix has returned, a second call
    for the same fix, whatever its duration and speed, returns and leaves
    the whole state as the first call left it: the flight plan, the
    autopilot, the traffic store and the handle. In particular, when the
    first call took effect, the plan holds the one "VECT" leg of the first
    call after the two calls. *)
Theorem set_vectoring_twice geo vectoring_time v_2 vectoring_time' v_2' fix_ s s' :
  set_vectoring geo vectoring_time v_2 fix_ s = (Ok tt, s') ->
  set_vectoring geo vectoring_time' v_2' fix_ s' = (Ok tt, s')
  /\ (Aircraft.vectoring s <> fix_ ->
      (get_next_wp s).1 = Ok (Some fix_) ->
      exists index i names,
        Py.getitem (Autopilot.flight_plan_index (ap_of s)) index = Ok i
        /\ Py.getitem (Autopilot.flight_plan_name (ap_of s)) index = Ok names
        /\ Py.getitem
             (Autopilot.flight_plan_name
                (ap_of (set_vectoring geo vectoring_time' v_2' fix_ s').2)) index
           = Ok (Py.insert names i "VECT")).
Proof.
  intros Hrun.
  assert (set_vectoring geo vectoring_time' v_2' fix_ s' = (Ok tt, s')) as Hagain.
  { destruct (decide (Aircraft.vectoring s = fix_)) as [Hsame|Hvect].
    { rewrite set_vectoring_same in Hrun by done. injection Hrun as <-.
      by apply set_vectoring_same. }
    destruct (get_next_wp s).1 as [next_wp|e] eqn:Hnext.
    - destruct (decide (next_wp = Some fix_)) as [->|Hother].
      + apply set_vectoring_same.
        destruct (set_vectoring_effect _ _ _ _ _ _ Hvect Hnext Hrun)
          as (? & ? & ? & ? & ? & ? & ? & ? & ? & ? & H).
        apply H.
      + rewrite (set_vectoring_elsewhere _ _ _ _ _ _ Hvect Hnext Hother) in Hrun.
        injection Hrun as <-. by eapply set_vectoring_elsewhere.
    - rewrite (set_vectoring_raises _ _ _ _ _ _ Hvect Hnext) in Hrun. discriminate. }
  split; [done|]. intros Hvect Hnext. rewrite Hagain. simpl.
  destruct (set_vectoring_effect _ _ _ _ _ _ Hvect Hnext Hrun)
    as (index & i & lats & longs & names & alts & speeds & alt_i & lat & long & H).
  exists index, i, names. split; [apply H|]. split; apply H.
Qed.

Lemma set_vectoring_twice_witness :
  set_vectoring Demo.geo 90 180 "PORPA" Demo.vectored = (Ok tt, Demo.vectored)
  /\ (Aircraft.vectoring (Demo.handle Demo.ap_sid) <> "PORPA" ->
      (get_next_wp (Demo.handle Demo.ap_sid)).1 = Ok (Some "PORPA") ->
      exists index i names,
        Py.getitem (Autopilot.flight_plan_index (ap_of (Demo.handle Demo.ap_sid))) index
          = Ok i
        /\ Py.getitem (Autopilot.flight_plan_name (ap_of (Demo.handle Demo.ap_sid))) index
           = Ok names
        /\ Py.getitem
             (Autopilot.flight_plan_name
                (ap_of (set_vectoring Demo.geo 90 180 "PORPA" Demo.vectored).2)) index
           = Ok (Py.insert names i "VECT")).
Proof.
  apply (set_vectoring_twice Demo.geo 60 200 90 180 "PORPA" (Demo.handle Demo.ap_sid)
           Demo.vectored).
  vm_compute. reflexivity.
Defined.

Example set_vectoring_twice_demo :
  Autopilot.flight_plan_name
    (ap_of (set_vectoring Demo.geo 60 200 "PORPA" Demo.vectored).2)
  = [["VHHH RW07R"; "VECT"; "PORPA"; "PRAWN"; "RUMSY"; "RCTP_RW05L"; "RCTP_RW05L_END"]].
Proof. vm_compute. reflexivity. Qed.

(** ** The tick *)

Lemma assign_Ok {A : Type} (field : Autopilot.t -> list A) {field_set : Setter field}
    index (v : A) self self' :
  assign field index v self = Ok self' ->
  exists l, Py.setitem (field self) index v = Ok l /\ self' = self <| field := l |>.
Proof. unfold assign. intros H. binds H. eauto. Qed.

(** Follows a computation that returned, down to its assignments. *)
Ltac frame_inv H :=
  lazymatch type of H with
  | (if ?c then _ else _) = Ok _ => destruct c; frame_inv H
  | (_ ≫= _) = Ok _ =>
      let Ha := fresh "Ha" in
      apply bind_Ok in H as (? & Ha & H); frame_inv Ha; frame_inv H
  | assign _ _ _ _ = Ok _ => apply assign_Ok in H as (? & _ & ->)
  | Ok _ = Ok _ => injection H as <-
  | _ => idtac
  end.

Lemma track_leg_sequencing i_val self self' :
  track_leg i_val self = Ok self' -> sequencing self' = sequencing self.
Proof.
  unfold track_leg. destruct i_val as [i val]. intros H.
  frame_inv H; reflexivity.
Qed.

Lemma track_legs_sequencing l self self' :
  for_each track_leg l self = Ok self' -> sequencing self' = sequencing self.
Proof.
  revert self. induction l as [|x l IH]; intros self H; simpl in H.
  - by injection H as <-.
  - apply bind_Ok in H as (self1 & H1 & H).
    rewrite (IH _ H). by eapply track_leg_sequencing.
Qed.

Section NpFacts.
Context {A B C D E : Type}.

Lemma lookup_map2 (f : A -> B -> C) a b i z :
  Np.map2 f a b !! i = Some z <->
  exists x y, a !! i = Some x /\ b !! i = Some y /\ z = f x y.
Proof.
  unfold Np.map2. rewrite lookup_zip_with_Some. split.
  - intros (x & y & -> & Hx & Hy). eauto.
  - intros (x & y & Hx & Hy & ->). eauto.
Qed.

Lemma lookup_map3 (f : A -> B -> C -> D) a b c i r :
  Np.map3 f a b c !! i = Some r <->
  exists x y z, a !! i = Some x /\ b !! i = Some y /\ c !! i = Some z /\ r = f x y z.
Proof.
  unfold Np.map3. rewrite lookup_zip_with_Some. split.
  - intros (x & yz & -> & Hx & Hyz).
    apply lookup_zip_with_Some in Hyz as (y & z & -> & Hy & Hz). eauto 10.
  - intros (x & y & z & Hx & Hy & Hz & ->). exists x, (y, z).
    split; [done|]. split; [done|]. apply lookup_zip_with_Some. eauto.
Qed.

Lemma lookup_map4 (f : A -> B -> C -> D -> E) a b c d i r :
  Np.map4 f a b c d !! i = Some r <->
  exists x y z w,
    a !! i = Some x /\ b !! i = Some y /\ c !! i = Some z /\ d !! i = Some w
    /\ r = f x y z w.
Proof.
  unfold Np.map4. rewrite lookup_zip_with_Some. split.
  - intros (xy & zw & -> & Hxy & Hzw).
    apply lookup_zip_with_Some in Hxy as (x & y & -> & Hx & Hy).
    apply lookup_zip_with_Some in Hzw as (z & w & -> & Hz & Hw). eauto 10.
  - intros (x & y & z & w & Hx & Hy & Hz & Hw & ->). exists (x, y), (z, w).
    split; [done|]. split; apply lookup_zip_with_Some; eauto.
Qed.

End NpFacts.

Lemma lookup_where {A : Type} (c : list bool) (a b : list A) i r :
  Np.where_ c a b !! i = Some r <->
  exists (t : bool) x y,
    c !! i = Some t /\ a !! i = Some x /\ b !! i = Some y /\ r = if t then x else y.
Proof. unfold Np.where_. apply lookup_map3. Qed.

Lemma lookup_where_l {A : Type} (c : list bool) (a : A) (b : list A) i r :
  Np.where_l c a b !! i = Some r <->
  exists (t : bool) y, c !! i = Some t /\ b !! i = Some y /\ r = if t then a else y.
Proof. unfold Np.where_l. apply lookup_map2. Qed.
(** * More properties of the code *)

(** ** Reciprocal runway, beyond well-formed identifiers *)

(** X1. Whatever the identifier, when the computation of the reciprocal
    runway returns, its result is a runway number between 0 and 35, written
    on two digits, followed by nothing or by one of the letters L, R and C:
    the number 36 is never produced. *)
Theorem opp_runway_range (arrival_runway s : string) :
  opp_runway arrival_runway = Ok s ->
  exists (m : Z) (suffix : string),
    0 <= m <= 35
    /\ s = Py.zfill 2 (Py.str m) +:+ suffix
    /\ (suffix = "" \/ suffix = "L" \/ suffix = "R" \/ suffix = "C")
    /\ (2 <= String.length s <= 3)%nat.
Proof.
  unfold opp_runway. intros H.
  apply bind_Ok in H as (n & _ & H).
  apply bind_Ok in H as (rwy_letter & _ & H).
  set (m := Z.quot ((n * 10 + 180) mod 360) 10) in H.
  assert (0 <= m <= 35) as Hm.
  { pose proof (Z.mod_pos_bound (n * 10 + 180) 360 ltac:(lia)) as Hmod.
    subst m. rewrite Z.quot_div_nonneg by lia.
    split; [apply Z.div_pos; lia|].
    apply Z.lt_succ_r, Z.div_lt_upper_bound; lia. }
  assert (String.length (Py.zfill 2 (Py.str m)) = 2%nat) as Hlen.
  { clearbody m. clear H.
    assert (m = 0 \/ m = 1 \/ m = 2 \/ m = 3 \/ m = 4 \/ m = 5 \/ m = 6 \/ m = 7 \/ m = 8
            \/ m = 9 \/ m = 10 \/ m = 11 \/ m = 12 \/ m = 13 \/ m = 14 \/ m = 15 \/ m = 16
            \/ m = 17 \/ m = 18 \/ m = 19 \/ m = 20 \/ m = 21 \/ m = 22 \/ m = 23 \/ m = 24
            \/ m = 25 \/ m = 26 \/ m = 27 \/ m = 28 \/ m = 29 \/ m = 30 \/ m = 31 \/ m = 32
            \/ m = 33 \/ m = 34 \/ m = 35) as Hcases by lia.
    repeat (destruct Hcases as [->|Hcases]; [reflexivity|]). by subst m. }
  assert (forall sfx, String.length (Py.zfill 2 (Py.str m) +:+ sfx)
                      = (2 + String.length sfx)%nat) as Happ.
  { intros sfx. destruct (Py.zfill 2 (Py.str m)) as [|a [|b [|c rest]]]; try discriminate.
    reflexivity. }
  assert (Py.zfill 2 (Py.str m) = Py.zfill 2 (Py.str m) +:+ "") as Hnil.
  { destruct (Py.zfill 2 (Py.str m)) as [|a [|b [|c rest]]]; try discriminate.
    reflexivity. }
  exists m.
  repeat case_match; injection H as <-;
    [exists "R" | exists "L" | exists "C" | exists ""];
    (split; [exact Hm|]); (split; [first [reflexivity | exact Hnil]|]);
    rewrite ?Happ, ?Hlen; simpl; (split; [tauto | lia]).
Qed.

Lemma opp_runway_range_witness :
  exists (m : Z) (suffix : string),
    0 <= m <= 35
    /\ "00C" = Py.zfill 2 (Py.str m) +:+ suffix
    /\ (suffix = "" \/ suffix = "L" \/ suffix = "R" \/ suffix = "C")
    /\ (2 <= String.length "00C" <= 3)%nat.
Proof. apply (opp_runway_range "RW18C" "00C"). reflexivity. Defined.

(** X2. An arrival runway identifier of fewer than three characters has no
    runway number after its two leading characters: the computation of the
    reciprocal runway raises [ValueError]. *)
Theorem opp_runway_short (arrival_runway : string) :
  (String.length arrival_runway <= 2)%nat ->
  opp_runway arrival_runway = Raise ValueError.
Proof.
  destruct arrival_runway as [|a [|b [|c rest]]]; simpl; intros Hlen;
    [reflexivity | reflexivity | reflexivity | lia].
Qed.

Lemma opp_runway_short_witness : opp_runway "07" = Raise ValueError.
Proof. apply (opp_runway_short "07"). simpl. lia. Defined.

(** ** What a statement on one slot leaves alone *)

Lemma kept_refl {A : Type} index (l : list A) : kept index l l.
Proof. by split. Qed.

Lemma kept_trans {A : Type} index (l1 l2 l3 : list A) :
  kept index l1 l2 -> kept index l2 l3 -> kept index l1 l3.
Proof.
  intros [Hlen12 H12] [Hlen23 H23]. split; [congruence|].
  intros j Hj. rewrite H23, H12; [done..|]. by rewrite Hlen12.
Qed.

Lemma kept_setitem {A : Type} index (l l' : list A) v :
  Py.setitem l index v = Ok l' -> kept index l l'.
Proof.
  intros (n & Hn & ->)%setitem_Ok. split; [apply length_insert|].
  intros j Hj. apply list_lookup_insert_ne. congruence.
Qed.

Lemma vectors_related_refl (P : forall A : Type, list A -> list A -> Prop) :
  (forall (A : Type) (l : list A), P A l l) -> forall self, vectors_related P self self.
Proof. intros Hrefl self. unfold vectors_related. repeat apply conj; apply Hrefl. Qed.

Lemma vectors_related_compose (P Q R : forall A : Type, list A -> list A -> Prop) :
  (forall (A : Type) (l1 l2 l3 : list A), P A l1 l2 -> Q A l2 l3 -> R A l1 l3) ->
  forall a b c, vectors_related P a b -> vectors_related Q b c -> vectors_related R a c.
Proof.
  intros Hcomp a b c HP HQ. unfold vectors_related in *.
  repeat match goal with H : _ /\ _ |- _ => destruct H end.
  repeat apply conj;
    match goal with
    | H1 : P _ ?x ?y, H2 : Q _ ?y ?z |- R _ ?x ?z => exact (Hcomp _ _ _ _ H1 H2)
    end.
Qed.

Lemma others_kept_refl index self : others_kept index self self.
Proof. apply vectors_related_refl. intros. apply kept_refl. Qed.

Lemma others_kept_trans index a b c :
  others_kept index a b -> others_kept index b c -> others_kept index a c.
Proof.
  apply (vectors_related_compose (fun A => @kept A index) (fun A => @kept A index)
           (fun A => @kept A index)).
  intros A l1 l2 l3. apply kept_trans.
Qed.

Ltac lens :=
  let P := fresh "P" in
  let Hrefl := fresh "Hrefl" in
  let Hl := fresh "Hl" in
  intros P Hrefl ? ? Hl; unfold vectors_related; cbn;
  repeat apply conj; first [exact Hl | apply Hrefl].

#[global] Instance lens_alt : Lens Autopilot.alt.
Proof. lens. Qed.
#[global] Instance lens_heading : Lens Autopilot.heading.
Proof. lens. Qed.
#[global] Instance lens_track_angle : Lens Autopilot.track_angle.
Proof. lens. Qed.
#[global] Instance lens_ap_rate_of_turn : Lens Autopilot.ap_rate_of_turn.
Proof. lens. Qed.
#[global] Instance lens_cas : Lens Autopilot.cas.
Proof. lens. Qed.
#[global] Instance lens_mach : Lens Autopilot.mach.
Proof. lens. Qed.
#[global] Instance lens_vs : Lens Autopilot.vs.
Proof. lens. Qed.
#[global] Instance lens_fpa : Lens Autopilot.fpa.
Proof. lens. Qed.
#[global] Instance lens_lat : Lens Autopilot.lat.
Proof. lens. Qed.
#[global] Instance lens_long : Lens Autopilot.long.
Proof. lens. Qed.
#[global] Instance lens_lat_next : Lens Autopilot.lat_next.
Proof. lens. Qed.
#[global] Instance lens_long_next : Lens Autopilot.long_next.
Proof. lens. Qed.
#[global] Instance lens_lat_prev : Lens Autopilot.lat_prev.
Proof. lens. Qed.
#[global] Instance lens_long_prev : Lens Autopilot.long_prev.
Proof. lens. Qed.
#[global] Instance lens_hv_next_wp : Lens Autopilot.hv_next_wp.
Proof. lens. Qed.
#[global] Instance lens_dist : Lens Autopilot.dist.
Proof. lens. Qed.
#[global] Instance lens_flight_plan_index : Lens Autopilot.flight_plan_index.
Proof. lens. Qed.
#[global] Instance lens_flight_plan_enroute : Lens Autopilot.flight_plan_enroute.
Proof. lens. Qed.
#[global] Instance lens_flight_plan_name : Lens Autopilot.flight_plan_name.
Proof. lens. Qed.
#[global] Instance lens_flight_plan_lat : Lens Autopilot.flight_plan_lat.
Proof. lens. Qed.
#[global] Instance lens_flight_plan_long : Lens Autopilot.flight_plan_long.
Proof. lens. Qed.
#[global] Instance lens_flight_plan_target_alt : Lens Autopilot.flight_plan_target_alt.
Proof. lens. Qed.
#[global] Instance lens_flight_plan_target_speed : Lens Autopilot.flight_plan_target_speed.
Proof. lens. Qed.
#[global] Instance lens_procedure_speed : Lens Autopilot.procedure_speed.
Proof. lens. Qed.
#[global] Instance lens_speed_mode : Lens Autopilot.speed_mode.
Proof. lens. Qed.
#[global] Instance lens_auto_throttle_mode : Lens Autopilot.auto_throttle_mode.
Proof. lens. Qed.
#[global] Instance lens_vertical_mode : Lens Autopilot.vertical_mode.
Proof. lens. Qed.
#[global] Instance lens_lateral_mode : Lens Autopilot.lateral_mode.
Proof. lens. Qed.
#[global] Instance lens_expedite_descent : Lens Autopilot.expedite_descent.
Proof. lens. Qed.
#[global] Instance lens_departure_airport : Lens Autopilot.departure_airport.
Proof. lens. Qed.
#[global] Instance lens_departure_runway : Lens Autopilot.departure_runway.
Proof. lens. Qed.
#[global] Instance lens_sid : Lens Autopilot.sid.
Proof. lens. Qed.
#[global] Instance lens_arrival_airport : Lens Autopilot.arrival_airport.
Proof. lens. Qed.
#[global] Instance lens_arrival_runway : Lens Autopilot.arrival_runway.
Proof. lens. Qed.
#[global] Instance lens_star : Lens Autopilot.star.
Proof. lens. Qed.
#[global] Instance lens_approach : Lens Autopilot.approach.
Proof. lens. Qed.
#[global] Instance lens_cruise_alt : Lens Autopilot.cruise_alt.
Proof. lens. Qed.
#[global] Instance lens_flight_plan_updated : Lens Autopilot.flight_plan_updated.
Proof. lens. Qed.
#[global] Instance lens_holding : Lens Autopilot.holding.
Proof. lens. Qed.
#[global] Instance lens_holding_round : Lens Autopilot.holding_round.
Proof. lens. Qed.
#[global] Instance lens_holding_info : Lens Autopilot.holding_info.
Proof. lens. Qed.

Lemma assign_kept {A : Type} (field : Autopilot.t -> list A) {field_set : Setter field}
    {field_lens : Lens field} index (v : A) self self' :
  assign field index v self = Ok self' -> others_kept index self self'.
Proof.
  intros (l & Hl & ->)%assign_Ok.
  apply (lens_related (fun A => @kept A index)); [intros; apply kept_refl|].
  by eapply kept_setitem.
Qed.

Lemma mutate_kept {A : Type} (field : Autopilot.t -> list (list A))
    {field_set : Setter field} {field_lens : Lens field} index f self self' :
  mutate field index f self = Ok self' -> others_kept index self self'.
Proof.
  intros (l & l' & ls & _ & _ & Hls & ->)%mutate_Ok.
  apply (lens_related (fun A => @kept A index)); [intros; apply kept_refl|].
  by eapply kept_setitem.
Qed.

Create HintDb frame.

(** Proves [others_kept index self self'] from a computation on slot
    [index] that returned [self'], statement by statement. *)
Ltac frame H :=
  unfold extend, append, pop, insert, assign_item in H;
  lazymatch type of H with
  | (if ?c then _ else _) = Ok _ => destruct c; frame H
  | (match ?x with _ => _ end) = Ok _ => destruct x; frame H
  | (_ ≫= _) = Ok _ =>
      let a := fresh "a" in
      let Ha := fresh "Ha" in
      apply bind_Ok in H as (a & Ha & H); cbv beta in H;
      lazymatch type of a with
      | Autopilot.t => apply (others_kept_trans _ _ a); [frame Ha | frame H]
      | _ => clear Ha; frame H
      end
  | Ok _ = Ok _ => injection H as <-; apply others_kept_refl
  | assign _ _ _ _ = Ok _ => exact (assign_kept _ _ _ _ _ H)
  | mutate _ _ _ _ = Ok _ => exact (mutate_kept _ _ _ _ _ H)
  | _ => solve [eauto with frame]
  end.

Section Frame.
Variable nav : Nav.
Variable index : Z.

Lemma engage_lnav_kept self self' :
  engage_lnav index self = Ok self' -> others_kept index self self'.
Proof. unfold engage_lnav. intros H. frame H. Qed.

Lemma extend_legs_kept w a s self self' :
  extend_legs index w a s self = Ok self' -> others_kept index self self'.
Proof. unfold extend_legs. intros H. frame H. Qed.

Lemma pop_leg_kept self self' :
  pop_leg index self = Ok self' -> others_kept index self self'.
Proof. unfold pop_leg. intros H. frame H. Qed.

Hint Resolve engage_lnav_kept extend_legs_kept pop_leg_kept : frame.

Lemma store_route_kept da dr sid aa ar star appr fp fpi cruise self self' :
  store_route index da dr sid aa ar star appr fp fpi cruise self = Ok self' ->
  others_kept index self self'.
Proof. unfold store_route. intros H. frame H. Qed.

Lemma add_sid_kept da dr sid self self' :
  add_sid nav index da dr sid self = Ok self' -> others_kept index self self'.
Proof. unfold add_sid. intros H. frame H. Qed.

Lemma add_enroute_kept fp cruise self self' :
  add_enroute index fp cruise self = Ok self' -> others_kept index self self'.
Proof. unfold add_enroute. intros H. frame H. Qed.

Lemma add_star_kept aa ar star self self' :
  add_star nav index aa ar star self = Ok self' -> others_kept index self self'.
Proof. unfold add_star. intros H. frame H. Qed.

Lemma add_approach_kept aa ar appr self self' :
  add_approach nav index aa ar appr self = Ok self' -> others_kept index self self'.
Proof. unfold add_approach. intros H. frame H. Qed.

Lemma resolve_coords_kept i names self self' :
  resolve_coords nav index i names self = Ok self' -> others_kept index self self'.
Proof.
  revert i self. induction names as [|val names IH]; intros i self H; simpl in H.
  - injection H as <-. apply others_kept_refl.
  - apply bind_Ok in H as ([lat_ref long_ref] & _ & H).
    apply bind_Ok in H as ([lat_tmp long_tmp] & _ & H).
    apply bind_Ok in H as (s1 & H1 & H).
    apply bind_Ok in H as (s2 & H2 & H).
    apply (others_kept_trans _ _ s1); [frame H1|].
    apply (others_kept_trans _ _ s2); [frame H2|].
    by eapply IH.
Qed.

Hint Resolve resolve_coords_kept : frame.

Lemma add_coords_kept self self' :
  add_coords nav index self = Ok self' -> others_kept index self self'.
Proof. unfold add_coords. intros H. frame H. Qed.

Lemma add_arrival_runway_kept aa ar self self' :
  add_arrival_runway nav index aa ar self = Ok self' -> others_kept index self self'.
Proof. unfold add_arrival_runway. intros H. frame H. Qed.

Lemma add_departure_kept da dr lat_dep long_dep alt_dep self self' :
  add_departure index da dr lat_dep long_dep alt_dep self = Ok self' ->
  others_kept index self self'.
Proof. unfold add_departure. intros H. frame H. Qed.

Hint Resolve store_route_kept add_sid_kept add_enroute_kept add_star_kept add_approach_kept
  add_coords_kept add_arrival_runway_kept add_departure_kept : frame.

Lemma assemble_legs_kept da dr sid aa ar star appr fp fpi cruise self self' :
  assemble_legs nav index da dr sid aa ar star appr fp fpi cruise self = Ok self' ->
  others_kept index self self'.
Proof. unfold assemble_legs. intros H. frame H. Qed.

Hint Resolve assemble_legs_kept : frame.

Lemma set_flight_plan_kept da dr sid aa ar star appr fp fpi cruise self self' :
  set_flight_plan nav index da dr sid aa ar star appr fp fpi cruise self = Ok self' ->
  others_kept index self self'.
Proof. unfold set_flight_plan. intros H. frame H. Qed.
End Frame.

(** ** Adding an aircraft, planning, deleting *)

Lemma grown_kept_last {A : Type} (l1 l2 l3 : list A) :
  grown l1 l2 -> kept (-1) l2 l3 -> grown l1 l3.
Proof.
  intros [x ->] [Hlen Hkeep].
  rewrite length_app in Hlen, Hkeep. simpl in Hlen, Hkeep.
  rewrite norm_last in Hkeep by lia.
  destruct (l3 !! length l1) as [y|] eqn:Hy.
  - exists y. apply list_eq. intros j.
    destruct (decide (j = length l1)) as [->|Hj].
    + by rewrite Hy, list_lookup_middle.
    + rewrite Hkeep by (intros [= ?]; lia).
      destruct (decide (j < length l1)%nat).
      * by rewrite !lookup_app_l.
      * rewrite !lookup_ge_None_2; [done|rewrite length_app; simpl; lia..].
  - apply lookup_ge_None_1 in Hy. lia.
Qed.

Lemma add_aircraft_pushed nav lat long alt heading cas da dr sid aa ar star appr fp fpi
    cruise self self' :
  add_aircraft nav lat long alt heading cas da dr sid aa ar star appr fp fpi cruise self
    = Ok self' ->
  exists pushed,
    vectors_related (@grown) self pushed
    /\ Autopilot.cruise_alt pushed = Autopilot.cruise_alt self ++ [cruise]
    /\ set_flight_plan nav (-1) da dr sid aa ar star appr fp fpi cruise pushed = Ok self'.
Proof.
  unfold add_aircraft. cbv zeta. intros H.
  eexists. split; [|split; [|exact H]].
  - unfold vectors_related. repeat apply conj; eexists; reflexivity.
  - reflexivity.
Qed.

Lemma add_aircraft_grown nav lat long alt heading cas da dr sid aa ar star appr fp fpi
    cruise self self' :
  add_aircraft nav lat long alt heading cas da dr sid aa ar star appr fp fpi cruise self
    = Ok self' ->
  vectors_related (@grown) self self'.
Proof.
  intros (pushed & Hpushed & _ & Hplan)%add_aircraft_pushed.
  apply set_flight_plan_kept in Hplan.
  revert Hpushed Hplan.
  apply (vectors_related_compose (@grown) (fun A => @kept A (-1)) (@grown)).
  intros A. apply grown_kept_last.
Qed.

(** ** The footprint of a flight-plan assembly *)

(** Follows a computation that returned, down to the fields it replaced. *)
Ltac untouched H :=
  unfold extend, append, pop, insert, assign_item in H;
  lazymatch type of H with
  | (if ?c then _ else _) = Ok _ => destruct c; untouched H
  | (match ?x with _ => _ end) = Ok _ => destruct x; untouched H
  | (_ ≫= _) = Ok _ =>
      let Ha := fresh "Ha" in
      apply bind_Ok in H as (? & Ha & H); cbv beta in H; untouched Ha; untouched H
  | assign _ _ _ _ = Ok _ => apply assign_Ok in H as (? & _ & ->)
  | mutate _ _ _ _ = Ok _ => apply mutate_Ok in H as (? & ? & ? & _ & _ & _ & ->)
  | Ok _ = Ok _ => injection H as <-
  | _ => idtac
  end.

Section Footprint.
Variable nav : Nav.
Variable index : Z.

Lemma engage_lnav_beside self self' :
  engage_lnav index self = Ok self' -> beside_legs self' = beside_legs self.
Proof. unfold engage_lnav. intros H. untouched H. reflexivity. Qed.

Lemma extend_legs_beside w a s self self' :
  extend_legs index w a s self = Ok self' -> beside_legs self' = beside_legs self.
Proof. unfold extend_legs. intros H. untouched H. reflexivity. Qed.

Lemma pop_leg_beside self self' :
  pop_leg index self = Ok self' -> beside_legs self' = beside_legs self.
Proof. unfold pop_leg. intros H. untouched H. reflexivity. Qed.

Lemma add_sid_beside da dr sid self self' :
  add_sid nav index da dr sid self = Ok self' -> beside_legs self' = beside_legs self.
Proof. unfold add_sid, extend_legs, engage_lnav. intros H. untouched H; reflexivity. Qed.

Lemma add_enroute_beside fp cruise self self' :
  add_enroute index fp cruise self = Ok self' -> beside_legs self' = beside_legs self.
Proof. unfold add_enroute, engage_lnav. intros H. untouched H; reflexivity. Qed.

Lemma add_star_beside aa ar star self self' :
  add_star nav index aa ar star self = Ok self' -> beside_legs self' = beside_legs self.
Proof. unfold add_star, extend_legs, engage_lnav. intros H. untouched H; reflexivity. Qed.

Lemma add_approach_beside aa ar appr self self' :
  add_approach nav index aa ar appr self = Ok self' -> beside_legs self' = beside_legs self.
Proof.
  unfold add_approach, pop_leg, extend_legs, engage_lnav. intros H.
  untouched H; reflexivity.
Qed.

Lemma resolve_coords_beside i names self self' :
  resolve_coords nav index i names self = Ok self' -> beside_legs self' = beside_legs self.
Proof.
  revert i self. induction names as [|val names IH]; intros i self H; simpl in H.
  - by injection H as <-.
  - apply bind_Ok in H as ([lat_ref long_ref] & _ & H).
    apply bind_Ok in H as ([lat_tmp long_tmp] & _ & H).
    apply bind_Ok in H as (s1 & H1 & H).
    apply bind_Ok in H as (s2 & H2 & H).
    rewrite (IH _ _ H). untouched H1. untouched H2. reflexivity.
Qed.

Lemma add_coords_beside self self' :
  add_coords nav index self = Ok self' -> beside_legs self' = beside_legs self.
Proof.
  unfold add_coords. intros H. apply bind_Ok in H as (? & _ & H).
  by eapply resolve_coords_beside.
Qed.

Lemma add_arrival_runway_beside aa ar self self' :
  add_arrival_runway nav index aa ar self = Ok self' -> beside_legs self' = beside_legs self.
Proof. unfold add_arrival_runway. intros H. untouched H; reflexivity. Qed.

Lemma add_departure_beside da dr lat_dep long_dep alt_dep self self' :
  add_departure index da dr lat_dep long_dep alt_dep self = Ok self' ->
  beside_legs self' = beside_legs self.
Proof. unfold add_departure. intros H. untouched H. reflexivity. Qed.

Lemma populate_beside self self' :
  mutate Autopilot.flight_plan_target_alt index populate_alt self = Ok self' ->
  beside_legs self' = beside_legs self.
Proof. intros H. untouched H. reflexivity. Qed.
End Footprint.

(** ** What a flight-plan assembly stores, and what it leaves alone *)

Lemma assemble_legs_stages nav index da dr sid aa ar star appr fp fpi cruise self self' :
  assemble_legs nav index da dr sid aa ar star appr fp fpi cruise self = Ok self' ->
  exists s1 s2 s3 s4 s5 s6,
    store_route index da dr sid aa ar star appr fp fpi cruise self = Ok s1
    /\ add_sid nav index da dr sid s1 = Ok s2
    /\ add_enroute index fp cruise s2 = Ok s3
    /\ add_star nav index aa ar star s3 = Ok s4
    /\ add_approach nav index aa ar appr s4 = Ok s5
    /\ add_coords nav index s5 = Ok s6
    /\ add_arrival_runway nav index aa ar s6 = Ok self'.
Proof.
  unfold assemble_legs. intros H.
  apply bind_Ok in H as (s1 & H1 & H). apply bind_Ok in H as (s2 & H2 & H).
  apply bind_Ok in H as (s3 & H3 & H). apply bind_Ok in H as (s4 & H4 & H).
  apply bind_Ok in H as (s5 & H5 & H). apply bind_Ok in H as (s6 & H6 & H).
  eauto 15.
Qed.

Lemma set_flight_plan_beside nav index da dr sid aa ar star appr fp fpi cruise self self' :
  set_flight_plan nav index da dr sid aa ar star appr fp fpi cruise self = Ok self' ->
  exists s1,
    store_route index da dr sid aa ar star appr fp fpi cruise self = Ok s1
    /\ beside_legs self' = beside_legs s1.
Proof.
  intros (lat_dep & long_dep & alt_dep & assembled & filled & _ & Hlegs & Hfill & Hdep)
    %set_flight_plan_stages.
  apply assemble_legs_stages in Hlegs
    as (s1 & s2 & s3 & s4 & s5 & s6 & H1 & H2 & H3 & H4 & H5 & H6 & H7).
  exists s1. split; [done|].
  rewrite (add_departure_beside _ _ _ _ _ _ _ _ Hdep), (populate_beside _ _ _ Hfill),
    (add_arrival_runway_beside _ _ _ _ _ _ H7), (add_coords_beside _ _ _ _ H6),
    (add_approach_beside _ _ _ _ _ _ _ H5), (add_star_beside _ _ _ _ _ _ _ H4),
    (add_enroute_beside _ _ _ _ _ H3), (add_sid_beside _ _ _ _ _ _ _ H2).
  reflexivity.
Qed.

Lemma store_route_Ok index da dr sid aa ar star appr fp fpi cruise self self' :
  store_route index da dr sid aa ar star appr fp fpi cruise self = Ok self' ->
  (Py.getitem (Autopilot.departure_airport self') index = Ok da
   /\ Py.getitem (Autopilot.departure_runway self') index = Ok dr
   /\ Py.getitem (Autopilot.sid self') index = Ok sid
   /\ Py.getitem (Autopilot.arrival_airport self') index = Ok aa
   /\ Py.getitem (Autopilot.arrival_runway self') index = Ok ar
   /\ Py.getitem (Autopilot.star self') index = Ok star
   /\ Py.getitem (Autopilot.approach self') index = Ok appr
   /\ Py.getitem (Autopilot.cruise_alt self') index = Ok cruise
   /\ Py.getitem (Autopilot.flight_plan_enroute self') index = Ok fp
   /\ (exists pointer,
         to_int64 (add_int fpi 1) = Ok pointer
         /\ Py.getitem (Autopilot.flight_plan_index self') index = Ok pointer)
   /\ Py.getitem (Autopilot.flight_plan_updated self') index = Ok true)
  /\ legs_at index self' [] [] [] [] []
  /\ unplanned self' = unplanned self
  /\ (Autopilot.hv_next_wp self', Autopilot.lateral_mode self',
      Autopilot.auto_throttle_mode self')
     = (Autopilot.hv_next_wp self, Autopilot.lateral_mode self,
        Autopilot.auto_throttle_mode self).
Proof.
  unfold store_route. intros H.
  repeat (let Hset := fresh "Hset" in
          apply bind_Ok in H as (? & (? & Hset & ->)%assign_Ok & H)).
  apply bind_Ok in H as (pointer & Hpointer & H).
  apply bind_Ok in H as (? & (? & Hstore & ->)%assign_Ok & H).
  apply assign_Ok in H as (? & Hlast & ->).
  repeat match goal with
         | H : Py.setitem _ _ _ = Ok _ |- _ => apply getitem_setitem in H
         end.
  split; [repeat apply conj; try assumption; exists pointer; by split|].
  split; [split; assumption|].
  split; reflexivity.
Qed.

Lemma set_flight_plan_stored nav index da dr sid aa ar star appr fp fpi cruise self self' :
  set_flight_plan nav index da dr sid aa ar star appr fp fpi cruise self = Ok self' ->
  Py.getitem (Autopilot.departure_airport self') index = Ok da
  /\ Py.getitem (Autopilot.departure_runway self') index = Ok dr
  /\ Py.getitem (Autopilot.sid self') index = Ok sid
  /\ Py.getitem (Autopilot.arrival_airport self') index = Ok aa
  /\ Py.getitem (Autopilot.arrival_runway self') index = Ok ar
  /\ Py.getitem (Autopilot.star self') index = Ok star
  /\ Py.getitem (Autopilot.approach self') index = Ok appr
  /\ Py.getitem (Autopilot.cruise_alt self') index = Ok cruise
  /\ Py.getitem (Autopilot.flight_plan_enroute self') index = Ok fp
  /\ (exists pointer,
        to_int64 (add_int fpi 1) = Ok pointer
        /\ Py.getitem (Autopilot.flight_plan_index self') index = Ok pointer)
  /\ Py.getitem (Autopilot.flight_plan_updated self') index = Ok true.
Proof.
  intros (s1 & Hstore & Hbeside)%set_flight_plan_beside.
  apply store_route_Ok in Hstore as [Hstored _].
  apply (f_equal fst) in Hbeside. unfold beside_legs, route in Hbeside. simpl in Hbeside.
  injection Hbeside as E1 E2 E3 E4 E5 E6 E7 E8 E9 E10 E11.
  rewrite E1, E2, E3, E4, E5, E6, E7, E8, E9, E10, E11. exact Hstored.
Qed.

Lemma to_int64_add_int (x : pyint) (k pointer : Z) :
  to_int64 (add_int x k) = Ok pointer ->
  match x with
  | Int z => int64_min <= z + k <= int64_max /\ pointer = z + k
  | Int64 z => pointer = wrap64 (z + k)
  end.
Proof.
  destruct x as [z|z]; simpl.
  - destruct (int64_min <=? z + k) eqn:E1; [|discriminate].
    destruct (z + k <=? int64_max) eqn:E2; [|discriminate].
    intros [= <-]. apply Z.leb_le in E1, E2. lia.
  - by intros [= <-].
Qed.

Lemma wrap64_range z : int64_min <= wrap64 z <= int64_max.
Proof.
  unfold wrap64, int64_min, int64_max.
  pose proof (Z.mod_pos_bound (z + 2 ^ 63) (2 ^ 64) ltac:(lia)). lia.
Qed.

Lemma wrap64_id z : int64_min <= z <= int64_max -> wrap64 z = z.
Proof.
  unfold wrap64, int64_min, int64_max. intros H.
  rewrite Z.mod_small by lia. lia.
Qed.

Lemma wrap64_max : wrap64 (int64_max + 1) = int64_min.
Proof. reflexivity. Qed.

(** X3. When [set_flight_plan] returns, the slot of the aircraft holds the
    route as it was given: the departure and arrival airports and runways,
    the procedures, the cruise altitude and the enroute waypoints, and the
    "flight plan updated" flag is set.  The leg pointer is one more than
    the [flight_plan_index] given, to account for the departure leg, as the
    vector of 64-bit integers takes it: given as a Python [int], the
    pointer is that integer plus one, which then fits in 64 bits (the call
    raises otherwise); given as a 64-bit integer of numpy, it is that
    integer plus one, wrapped around to 64 bits. *)
Theorem set_flight_plan_stores_route nav index departure_airport departure_runway sid
    arrival_airport arrival_runway star approach flight_plan flight_plan_index cruise_alt
    self self' :
  set_flight_plan nav index departure_airport departure_runway sid arrival_airport
    arrival_runway star approach flight_plan flight_plan_index cruise_alt self = Ok self' ->
  Py.getitem (Autopilot.departure_airport self') index = Ok departure_airport
  /\ Py.getitem (Autopilot.departure_runway self') index = Ok departure_runway
  /\ Py.getitem (Autopilot.sid self') index = Ok sid
  /\ Py.getitem (Autopilot.arrival_airport self') index = Ok arrival_airport
  /\ Py.getitem (Autopilot.arrival_runway self') index = Ok arrival_runway
  /\ Py.getitem (Autopilot.star self') index = Ok star
  /\ Py.getitem (Autopilot.approach self') index = Ok approach
  /\ Py.getitem (Autopilot.cruise_alt self') index = Ok cruise_alt
  /\ Py.getitem (Autopilot.flight_plan_enroute self') index = Ok flight_plan
  /\ Py.getitem (Autopilot.flight_plan_updated self') index = Ok true
  /\ match flight_plan_index with
     | Int z =>
         int64_min <= z + 1 <= int64_max
         /\ Py.getitem (Autopilot.flight_plan_index self') index = Ok (z + 1)
     | Int64 z =>
         Py.getitem (Autopilot.flight_plan_index self') index = Ok (wrap64 (z + 1))
     end.
Proof.
  intros (H1 & H2 & H3 & H4 & H5 & H6 & H7 & H8 & H9 & (pointer & Hp & Hget) & H11)
    %set_flight_plan_stored.
  repeat (split; [assumption|]).
  apply to_int64_add_int in Hp. destruct flight_plan_index as [z|z].
  - destruct Hp as [Hrange ->]. by split.
  - by subst pointer.
Qed.

Lemma set_flight_plan_stores_route_witness :
  Py.getitem (Autopilot.departure_airport Cases.replanned) 1 = Ok "RCTP"
  /\ Py.getitem (Autopilot.departure_runway Cases.replanned) 1 = Ok "RW05L"
  /\ Py.getitem (Autopilot.sid Cases.replanned) 1 = Ok ""
  /\ Py.getitem (Autopilot.arrival_airport Cases.replanned) 1 = Ok ""
  /\ Py.getitem (Autopilot.arrival_runway Cases.replanned) 1 = Ok ""
  /\ Py.getitem (Autopilot.star Cases.replanned) 1 = Ok ""
  /\ Py.getitem (Autopilot.approach Cases.replanned) 1 = Ok ""
  /\ Py.getitem (Autopilot.cruise_alt Cases.replanned) 1 = Ok 18000%Q
  /\ Py.getitem (Autopilot.flight_plan_enroute Cases.replanned) 1 = Ok ["ELBER"]
  /\ Py.getitem (Autopilot.flight_plan_updated Cases.replanned) 1 = Ok true
  /\ int64_min <= 0 + 1 <= int64_max
  /\ Py.getitem (Autopilot.flight_plan_index Cases.replanned) 1 = Ok (0 + 1).
Proof.
  apply (set_flight_plan_stores_route Demo.nav 1 "RCTP" "RW05L" "" "" "" "" "" ["ELBER"]
           (Int 0) 18000 Demo.ap12 Cases.replanned).
  vm_compute. reflexivity.
Defined.

(** Given as a 64-bit integer of numpy, the greatest of them wraps around to
    the least; given as a Python [int], it is refused. *)
Example set_flight_plan_wraps :
  set_flight_plan Demo.nav 1 "RCTP" "RW05L" "" "" "" "" "" ["ELBER"] (Int64 int64_max) 18000
    Demo.ap12 = Ok Cases.wrapped
  /\ Py.getitem (Autopilot.flight_plan_index Cases.wrapped) 1 = Ok int64_min
  /\ set_flight_plan Demo.nav 1 "RCTP" "RW05L" "" "" "" "" "" ["ELBER"] int64_max 18000
       Demo.ap12 = Raise OverflowError.
Proof. repeat split; vm_compute; reflexivity. Qed.

(** X4. [set_flight_plan] works on the slot of one aircraft: in every one
    of the 41 vectors of the autopilot, the number of entries is as before
    and so is every entry but the one that [index] denotes.  The vectors
    that are no part of a flight plan (the targets of the autopilot, the
    cached distance, the speed and vertical modes, the holding state) are
    as before in the slot of the aircraft as well. *)
Theorem set_flight_plan_keeps_others nav index departure_airport departure_runway sid
    arrival_airport arrival_runway star approach flight_plan flight_plan_index cruise_alt
    self self' :
  set_flight_plan nav index departure_airport departure_runway sid arrival_airport
    arrival_runway star approach flight_plan flight_plan_index cruise_alt self = Ok self' ->
  others_kept index self self' /\ unplanned self' = unplanned self.
Proof.
  intros H. split; [by eapply set_flight_plan_kept|].
  apply set_flight_plan_beside in H as (s1 & Hstore & Hbeside).
  apply store_route_Ok in Hstore as (_ & _ & Hsame & _).
  apply (f_equal snd) in Hbeside. simpl in Hbeside. congruence.
Qed.

Lemma set_flight_plan_keeps_others_witness :
  others_kept 1 Demo.ap12 Cases.replanned
  /\ unplanned Cases.replanned = unplanned Demo.ap12.
Proof.
  apply (set_flight_plan_keeps_others Demo.nav 1 "RCTP" "RW05L" "" "" "" "" "" ["ELBER"] 0
           18000 Demo.ap12 Cases.replanned).
  vm_compute. reflexivity.
Defined.

(** X5. [add_aircraft] gives every one of the 41 vectors of the autopilot
    exactly one more entry, at the end, and leaves the entries of the
    aircraft that were there as they are. *)
Theorem add_aircraft_appends nav lat long alt heading cas departure_airport
    departure_runway sid arrival_airport arrival_runway star approach flight_plan
    flight_plan_index cruise_alt self self' :
  add_aircraft nav lat long alt heading cas departure_airport departure_runway sid
    arrival_airport arrival_runway star approach flight_plan flight_plan_index cruise_alt
    self = Ok self' ->
  vectors_related (@grown) self self'.
Proof. apply add_aircraft_grown. Qed.

Lemma add_aircraft_appends_witness : vectors_related (@grown) Demo.ap1 Demo.ap12.
Proof.
  apply (add_aircraft_appends Demo.nav 25 121 0 50 140 "RCTP" "RW05L" "" "" "" "" ""
           ["TONGA"; "ELBER"] 0 20000 Demo.ap1 Demo.ap12).
  vm_compute. reflexivity.
Defined.

Lemma delitem_snoc {A : Type} (l : list A) (x : A) : Py.delitem (l ++ [x]) (-1) = Ok l.
Proof.
  unfold Py.delitem. rewrite norm_last by (rewrite length_app; simpl; lia).
  rewrite length_app. simpl.
  replace (length l + 1 - 1)%nat with (length l) by lia.
  by rewrite delete_middle, app_nil_r.
Qed.

Lemma getitem_snoc {A : Type} (l : list A) (x : A) : Py.getitem (l ++ [x]) (-1) = Ok x.
Proof.
  apply getitem_Ok. exists (length l). split.
  - rewrite norm_last by (rewrite length_app; simpl; lia).
    rewrite length_app. simpl. f_equal. lia.
  - by rewrite list_lookup_middle.
Qed.

Lemma remove_snoc {A : Type} (field : Autopilot.t -> list A) {field_set : Setter field}
    (self : Autopilot.t) (l : list A) (x : A) :
  field self = l ++ [x] -> remove field (-1) self = Ok (self <| field := l |>).
Proof. intros H. unfold remove. by rewrite H, delitem_snoc. Qed.

Lemma ret_bind {A B : Type} (a : A) (k : A -> result B) : Ok a ≫= k = k a.
Proof. reflexivity. Qed.

(** X6. Deleting the last slot right after [add_aircraft] has returned
    brings the autopilot back to the state before the addition, except for
    [cruise_alt]: [del_aircraft] has no statement for it, and the cruise
    altitude of the deleted aircraft stays behind as one more entry. *)
Theorem add_then_del_aircraft nav lat long alt heading cas departure_airport
    departure_runway sid arrival_airport arrival_runway star approach flight_plan
    flight_plan_index cruise_alt self self' :
  add_aircraft nav lat long alt heading cas departure_airport departure_runway sid
    arrival_airport arrival_runway star approach flight_plan flight_plan_index cruise_alt
    self = Ok self' ->
  del_aircraft (-1) self'
  = Ok (self <| Autopilot.cruise_alt := Autopilot.cruise_alt self ++ [cruise_alt] |>).
Proof.
  intros Hadd.
  assert (Py.getitem (Autopilot.cruise_alt self') (-1) = Ok cruise_alt) as Hcruise.
  { apply add_aircraft_pushed in Hadd as (pushed & _ & _ & Hplan).
    by apply set_flight_plan_stored in Hplan as (_ & _ & _ & _ & _ & _ & _ & H & _). }
  apply add_aircraft_grown in Hadd. unfold vectors_related, grown in Hadd.
  destruct self, self'. simpl in Hadd, Hcruise.
  repeat match type of Hadd with
         | _ /\ _ => let H := fresh "H" in destruct Hadd as [[? H] Hadd]; subst
         end.
  destruct Hadd as [? ->].
  rewrite getitem_snoc in Hcruise. injection Hcruise as ->.
  unfold del_aircraft.
  repeat (erewrite remove_snoc by reflexivity; rewrite ret_bind; cbv beta).
  erewrite remove_snoc by reflexivity. reflexivity.
Qed.

Lemma add_then_del_aircraft_witness :
  del_aircraft (-1) Demo.ap12
  = Ok (Demo.ap1 <| Autopilot.cruise_alt := Autopilot.cruise_alt Demo.ap1 ++ [20000%Q] |>).
Proof.
  apply (add_then_del_aircraft Demo.nav 25 121 0 50 140 "RCTP" "RW05L" "" "" "" "" ""
           ["TONGA"; "ELBER"] 0 20000 Demo.ap1 Demo.ap12).
  vm_compute. reflexivity.
Defined.

(** ** The legs of a plan, stage by stage *)

Section LegFacts.
Variable index : Z.
Implicit Types (self : Autopilot.t) (n : list string) (la lo al sp : list Q).

Lemma mutate_name f self self' n la lo al sp :
  legs_at index self n la lo al sp ->
  mutate Autopilot.flight_plan_name index f self = Ok self' ->
  exists n', f n = Ok n' /\ legs_at index self' n' la lo al sp /\ modes self' = modes self.
Proof.
  intros [Hn Hla Hlo Hal Hsp] (l & l' & ls & Hget & Hf & Hset & ->)%mutate_Ok.
  rewrite Hn in Hget. injection Hget as <-. exists l'.
  split; [done|]. split; [|done].
  split; try assumption. exact (getitem_setitem _ _ _ _ Hset).
Qed.

Lemma mutate_lat f self self' n la lo al sp :
  legs_at index self n la lo al sp ->
  mutate Autopilot.flight_plan_lat index f self = Ok self' ->
  exists la', f la = Ok la' /\ legs_at index self' n la' lo al sp /\ modes self' = modes self.
Proof.
  intros [Hn Hla Hlo Hal Hsp] (l & l' & ls & Hget & Hf & Hset & ->)%mutate_Ok.
  rewrite Hla in Hget. injection Hget as <-. exists l'.
  split; [done|]. split; [|done].
  split; try assumption. exact (getitem_setitem _ _ _ _ Hset).
Qed.

Lemma mutate_long f self self' n la lo al sp :
  legs_at index self n la lo al sp ->
  mutate Autopilot.flight_plan_long index f self = Ok self' ->
  exists lo', f lo = Ok lo' /\ legs_at index self' n la lo' al sp /\ modes self' = modes self.
Proof.
  intros [Hn Hla Hlo Hal Hsp] (l & l' & ls & Hget & Hf & Hset & ->)%mutate_Ok.
  rewrite Hlo in Hget. injection Hget as <-. exists l'.
  split; [done|]. split; [|done].
  split; try assumption. exact (getitem_setitem _ _ _ _ Hset).
Qed.

Lemma mutate_alt f self self' n la lo al sp :
  legs_at index self n la lo al sp ->
  mutate Autopilot.flight_plan_target_alt index f self = Ok self' ->
  exists al', f al = Ok al' /\ legs_at index self' n la lo al' sp /\ modes self' = modes self.
Proof.
  intros [Hn Hla Hlo Hal Hsp] (l & l' & ls & Hget & Hf & Hset & ->)%mutate_Ok.
  rewrite Hal in Hget. injection Hget as <-. exists l'.
  split; [done|]. split; [|done].
  split; try assumption. exact (getitem_setitem _ _ _ _ Hset).
Qed.

Lemma mutate_speed f self self' n la lo al sp :
  legs_at index self n la lo al sp ->
  mutate Autopilot.flight_plan_target_speed index f self = Ok self' ->
  exists sp', f sp = Ok sp' /\ legs_at index self' n la lo al sp' /\ modes self' = modes self.
Proof.
  intros [Hn Hla Hlo Hal Hsp] (l & l' & ls & Hget & Hf & Hset & ->)%mutate_Ok.
  rewrite Hsp in Hget. injection Hget as <-. exists l'.
  split; [done|]. split; [|done].
  split; try assumption. exact (getitem_setitem _ _ _ _ Hset).
Qed.

Lemma engage_lnav_legs self self' n la lo al sp :
  legs_at index self n la lo al sp ->
  engage_lnav index self = Ok self' ->
  legs_at index self' n la lo al sp /\ engaged index self'.
Proof.
  intros [Hn Hla Hlo Hal Hsp]. unfold engage_lnav. intros H.
  apply bind_Ok in H as (? & (? & H1 & ->)%assign_Ok & H).
  apply bind_Ok in H as (? & (? & H2 & ->)%assign_Ok & H).
  apply assign_Ok in H as (? & H3 & ->).
  split; split; try assumption.
  - exact (getitem_setitem _ _ _ _ H1).
  - exact (getitem_setitem _ _ _ _ H2).
  - exact (getitem_setitem _ _ _ _ H3).
Qed.

Lemma engaged_modes self self' :
  modes self' = modes self -> engaged index self -> engaged index self'.
Proof.
  unfold modes. intros [= E1 E2 E3] [H1 H2 H3]. split; congruence.
Qed.

Lemma extend_legs_legs w a s self self' n la lo al sp :
  legs_at index self n la lo al sp ->
  extend_legs index w a s self = Ok self' ->
  legs_at index self' (n ++ w) la lo (al ++ a) (sp ++ s) /\ modes self' = modes self.
Proof.
  intros Hlegs. unfold extend_legs, extend. intros H.
  apply bind_Ok in H as (s1 & H1 & H). apply bind_Ok in H as (s2 & H2 & H).
  eapply mutate_name in H1 as (? & [= <-] & Hlegs1 & Hm1); [|exact Hlegs].
  eapply mutate_alt in H2 as (? & [= <-] & Hlegs2 & Hm2); [|exact Hlegs1].
  eapply mutate_speed in H as (? & [= <-] & Hlegs3 & Hm3); [|exact Hlegs2].
  split; [done|congruence].
Qed.

Lemma pop_Ok {A : Type} (l l' : list A) :
  Py.pop l = Ok l' -> (0 < length l)%nat /\ S (length l') = length l.
Proof.
  destruct l as [|x l _] using rev_ind; [discriminate|].
  unfold Py.pop. rewrite removelast_last, length_app. simpl.
  destruct (l ++ [x]); intros [= <-]; lia.
Qed.

Lemma pop_leg_legs self self' n la lo al sp :
  legs_at index self n la lo al sp ->
  pop_leg index self = Ok self' ->
  exists n' al' sp',
    legs_at index self' n' la lo al' sp' /\ modes self' = modes self
    /\ S (length n') = length n /\ S (length al') = length al
    /\ S (length sp') = length sp.
Proof.
  intros Hlegs. unfold pop_leg, pop. intros H.
  apply bind_Ok in H as (s1 & H1 & H). apply bind_Ok in H as (s2 & H2 & H).
  eapply mutate_name in H1 as (n' & [_ Hn']%pop_Ok & Hlegs1 & Hm1); [|exact Hlegs].
  eapply mutate_alt in H2 as (al' & [_ Hal']%pop_Ok & Hlegs2 & Hm2); [|exact Hlegs1].
  eapply mutate_speed in H as (sp' & [_ Hsp']%pop_Ok & Hlegs3 & Hm3); [|exact Hlegs2].
  exists n', al', sp'. split; [exact Hlegs3|]. split; [congruence|]. done.
Qed.
End LegFacts.

Section Stages.
Variable nav : Nav.
Variable index : Z.
Implicit Types (self : Autopilot.t) (n : list string) (la lo al sp : list Q).

Lemma add_sid_legs da dr sid self self' n la lo al sp :
  legs_at index self n la lo al sp ->
  add_sid nav index da dr sid self = Ok self' ->
  exists w a s,
    legs_at index self' (n ++ w) la lo (al ++ a) (sp ++ s)
    /\ (consistent nav -> length a = length w /\ length s = length w)
    /\ ((w = [] /\ modes self' = modes self) \/ engaged index self').
Proof.
  intros Hlegs. unfold add_sid.
  destruct (String.eqb sid "").
  { intros [= <-]. exists [], [], []. rewrite !app_nil_r. auto. }
  intros H. apply bind_Ok in H as (p & Hp & H).
  destruct (0 <? length (waypoint p))%nat.
  - apply bind_Ok in H as (s1 & H1 & H).
    eapply extend_legs_legs in H1 as [Hlegs1 _]; [|exact Hlegs].
    eapply engage_lnav_legs in H as [Hlegs2 Hengaged]; [|exact Hlegs1].
    exists (waypoint p), (alt_restriction p), (speed_restriction p).
    split; [done|]. split; [|by right]. intros Hnav. by eapply Hnav.
  - injection H as <-. exists [], [], []. rewrite !app_nil_r. auto.
Qed.

Lemma add_star_legs aa ar star self self' n la lo al sp :
  legs_at index self n la lo al sp ->
  add_star nav index aa ar star self = Ok self' ->
  exists w a s,
    legs_at index self' (n ++ w) la lo (al ++ a) (sp ++ s)
    /\ (consistent nav -> length a = length w /\ length s = length w)
    /\ ((w = [] /\ modes self' = modes self) \/ engaged index self').
Proof.
  intros Hlegs. unfold add_star.
  destruct (String.eqb star "").
  { intros [= <-]. exists [], [], []. rewrite !app_nil_r. auto. }
  intros H. apply bind_Ok in H as (p & Hp & H).
  destruct (0 <? length (waypoint p))%nat.
  - apply bind_Ok in H as (s1 & H1 & H).
    eapply extend_legs_legs in H1 as [Hlegs1 _]; [|exact Hlegs].
    eapply engage_lnav_legs in H as [Hlegs2 Hengaged]; [|exact Hlegs1].
    exists (waypoint p), (alt_restriction p), (speed_restriction p).
    split; [done|]. split; [|by right]. intros Hnav. by eapply Hnav.
  - injection H as <-. exists [], [], []. rewrite !app_nil_r. auto.
Qed.

Lemma add_enroute_legs fp cruise self self' n la lo al sp :
  legs_at index self n la lo al sp ->
  add_enroute index fp cruise self = Ok self' ->
  legs_at index self' (n ++ fp) la lo
    (al ++ if Qlt_le_dec unspecified cruise then map (fun _ => cruise) fp else [])
    (sp ++ map (fun _ => unspecified) fp)
  /\ ((fp = [] /\ modes self' = modes self) \/ engaged index self').
Proof.
  intros Hlegs. unfold add_enroute.
  destruct fp as [|wp fp].
  { intros [= <-]. simpl. destruct (Qlt_le_dec _ _); rewrite !app_nil_r; auto. }
  set (route := wp :: fp). unfold extend. intros H.
  apply bind_Ok in H as (s1 & H1 & H). apply bind_Ok in H as (s2 & H2 & H).
  apply bind_Ok in H as (s3 & H3 & H).
  eapply mutate_name in H1 as (? & [= <-] & Hlegs1 & _); [|exact Hlegs].
  assert (legs_at index s2 (n ++ route) la lo
            (al ++ if Qlt_le_dec unspecified cruise then map (fun _ => cruise) route else [])
            sp) as Hlegs2.
  { destruct (Qlt_le_dec unspecified cruise).
    - by eapply mutate_alt in H2 as (? & [= <-] & Hlegs2 & _); [|exact Hlegs1].
    - injection H2 as <-. by rewrite app_nil_r. }
  eapply mutate_speed in H3 as (? & [= <-] & Hlegs3 & _); [|exact Hlegs2].
  eapply engage_lnav_legs in H as [Hlegs4 Hengaged]; [|exact Hlegs3].
  split; [done|by right].
Qed.

Lemma add_approach_legs aa ar appr self self' n la lo al sp :
  legs_at index self n la lo al sp ->
  add_approach nav index aa ar appr self = Ok self' ->
  exists n' al' sp',
    legs_at index self' n' la lo al' sp'
    /\ (modes self' = modes self \/ engaged index self')
    /\ (n = [] -> n' = [])
    /\ (consistent nav ->
        forall k : nat,
          (length al + k = length n)%nat -> length sp = length n ->
          (length al' + k = length n')%nat /\ length sp' = length n').
Proof.
  intros Hlegs. unfold add_approach.
  destruct (String.eqb appr "").
  { intros [= <-]. exists n, al, sp. auto. }
  intros H. apply bind_Ok in H as (names & Hnames & H).
  rewrite (legs_name _ _ _ _ _ _ _ Hlegs) in Hnames. injection Hnames as <-.
  apply bind_Ok in H as (iaf & Hiaf & H).
  assert (n <> []) as Hne by (by intros ->).
  apply bind_Ok in H as (p & Hp & H). apply bind_Ok in H as (s1 & H1 & H).
  apply bind_Ok in H as (appch & _ & H). apply bind_Ok in H as (q & Hq & H).
  assert (exists n1 al1 sp1,
            legs_at index s1 n1 la lo al1 sp1 /\ modes s1 = modes self
            /\ (consistent nav ->
                forall k : nat,
                  (length al + k = length n)%nat -> length sp = length n ->
                  (length al1 + k = length n1)%nat /\ length sp1 = length n1))
    as (n1 & al1 & sp1 & Hlegs1 & Hm1 & Hlen1).
  { destruct (0 <? length (waypoint p))%nat; [|injection H1 as <-; eauto 10].
    destruct (Py.all_same (waypoint p));
      apply bind_Ok in H1 as (s0 & H0 & H1);
      eapply pop_leg_legs in H0
        as (n0 & al0 & sp0 & Hlegs0 & Hm0 & Hn0 & Hal0 & Hsp0); [|exact Hlegs| |exact Hlegs];
      eapply extend_legs_legs in H1 as [Hlegs1 Hm1]; [|exact Hlegs0| |exact Hlegs0];
      eexists _, _, _; (split; [exact Hlegs1|]); (split; [congruence|]);
      intros Hnav k Hk Hs; destruct (Hnav _ _ _ _ _ _ Hp) as [Ha Hb];
      rewrite !length_app, ?length_take; lia. }
  destruct (0 <? length (waypoint q))%nat.
  - apply bind_Ok in H as (s2 & H2 & H). apply bind_Ok in H as (s3 & H3 & H).
    eapply pop_leg_legs in H2
      as (n2 & al2 & sp2 & Hlegs2 & Hm2 & Hn2 & Hal2 & Hsp2); [|exact Hlegs1].
    eapply extend_legs_legs in H3 as [Hlegs3 Hm3]; [|exact Hlegs2].
    eapply engage_lnav_legs in H as [Hlegs4 Hengaged]; [|exact Hlegs3].
    eexists _, _, _. split; [exact Hlegs4|]. split; [by right|]. split; [done|].
    intros Hnav k Hk Hs. destruct (Hlen1 Hnav k Hk Hs) as [Hk1 Hs1].
    destruct (Hnav _ _ _ _ _ _ Hq) as [Ha Hb].
    rewrite !length_app. lia.
  - injection H as <-. exists n1, al1, sp1.
    split; [done|]. split; [by left|]. split; [done|]. exact Hlen1.
Qed.

Lemma resolve_coords_legs names i self self' n la lo al sp :
  legs_at index self n la lo al sp ->
  resolve_coords nav index i names self = Ok self' ->
  exists la' lo',
    legs_at index self' n (la ++ la') (lo ++ lo') al sp
    /\ length la' = length names /\ length lo' = length names
    /\ modes self' = modes self.
Proof.
  revert i self la lo. induction names as [|val names IH]; intros i self la lo Hlegs H;
    simpl in H.
  - injection H as <-. exists [], []. by rewrite !app_nil_r.
  - apply bind_Ok in H as ([lat_ref long_ref] & _ & H).
    apply bind_Ok in H as ([lat_tmp long_tmp] & _ & H).
    apply bind_Ok in H as (s1 & H1 & H). apply bind_Ok in H as (s2 & H2 & H).
    unfold append in H1, H2.
    eapply mutate_lat in H1 as (? & [= <-] & Hlegs1 & Hm1); [|exact Hlegs].
    eapply mutate_long in H2 as (? & [= <-] & Hlegs2 & Hm2); [|exact Hlegs1].
    eapply IH in H as (la' & lo' & Hlegs3 & Hla & Hlo & Hm3); [|exact Hlegs2].
    exists (lat_tmp :: la'), (long_tmp :: lo').
    unfold Py.append in Hlegs3. rewrite <- !app_assoc in Hlegs3.
    split; [exact Hlegs3|]. simpl. split; [lia|]. split; [lia|]. congruence.
Qed.

Lemma add_coords_legs self self' n al sp :
  legs_at index self n [] [] al sp ->
  add_coords nav index self = Ok self' ->
  exists la lo,
    legs_at index self' n la lo al sp
    /\ length la = length n /\ length lo = length n /\ modes self' = modes self.
Proof.
  intros Hlegs. unfold add_coords. intros H.
  apply bind_Ok in H as (names & Hnames & H).
  rewrite (legs_name _ _ _ _ _ _ _ Hlegs) in Hnames. injection Hnames as <-.
  by eapply resolve_coords_legs in H; [|exact Hlegs].
Qed.

Lemma add_arrival_runway_legs aa ar self self' n la lo al sp :
  legs_at index self n la lo al sp ->
  add_arrival_runway nav index aa ar self = Ok self' ->
  exists n' la' lo' al' sp' (d : nat),
    legs_at index self' n' la' lo' al' sp'
    /\ modes self' = modes self
    /\ (n = [] -> n' = [])
    /\ length n' = (length n + d)%nat /\ length la' = (length la + d)%nat
    /\ length lo' = (length lo + d)%nat /\ length al' = (length al + d)%nat
    /\ length sp' = (length sp + d)%nat.
Proof.
  intros Hlegs. unfold add_arrival_runway.
  destruct (String.eqb ar "").
  { intros [= <-]. exists n, la, lo, al, sp, 0%nat. rewrite !Nat.add_0_r. auto 10. }
  intros H. apply bind_Ok in H as ([[lat_tmp long_tmp] alt_tmp] & _ & H).
  apply bind_Ok in H as (names & Hnames & H).
  rewrite (legs_name _ _ _ _ _ _ _ Hlegs) in Hnames. injection Hnames as <-.
  apply bind_Ok in H as (last_name & Hlast & H).
  assert (n <> []) as Hne by (by intros ->).
  destruct (String.eqb last_name ar).
  - unfold assign_item in H.
    apply bind_Ok in H as (s1 & H1 & H). apply bind_Ok in H as (s2 & H2 & H).
    eapply mutate_lat in H1 as (la' & Hla' & Hlegs1 & Hm1); [|exact Hlegs].
    eapply mutate_long in H2 as (lo' & Hlo' & Hlegs2 & Hm2); [|exact Hlegs1].
    eapply mutate_alt in H as (al' & Hal' & Hlegs3 & Hm3); [|exact Hlegs2].
    apply setitem_Ok in Hla' as (? & _ & ->). apply setitem_Ok in Hlo' as (? & _ & ->).
    apply setitem_Ok in Hal' as (? & _ & ->).
    eexists _, _, _, _, _, 0%nat. split; [exact Hlegs3|].
    rewrite !length_insert, !Nat.add_0_r.
    split; [congruence|]. auto 10.
  - unfold append in H.
    apply bind_Ok in H as (s1 & H1 & H). apply bind_Ok in H as (s2 & H2 & H).
    apply bind_Ok in H as (s3 & H3 & H). apply bind_Ok in H as (s4 & H4 & H).
    apply bind_Ok in H as (s5 & H5 & H). apply bind_Ok in H as (opp & _ & H).
    apply bind_Ok in H as ([[lat_end long_end] alt_end] & _ & H).
    apply bind_Ok in H as (s6 & H6 & H). apply bind_Ok in H as (s7 & H7 & H).
    apply bind_Ok in H as (s8 & H8 & H). apply bind_Ok in H as (s9 & H9 & H).
    eapply mutate_name in H1 as (? & [= <-] & Hlegs1 & Hm1); [|exact Hlegs].
    eapply mutate_lat in H2 as (? & [= <-] & Hlegs2 & Hm2); [|exact Hlegs1].
    eapply mutate_long in H3 as (? & [= <-] & Hlegs3 & Hm3); [|exact Hlegs2].
    eapply mutate_alt in H4 as (? & [= <-] & Hlegs4 & Hm4); [|exact Hlegs3].
    eapply mutate_speed in H5 as (? & [= <-] & Hlegs5 & Hm5); [|exact Hlegs4].
    eapply mutate_name in H6 as (? & [= <-] & Hlegs6 & Hm6); [|exact Hlegs5].
    eapply mutate_lat in H7 as (? & [= <-] & Hlegs7 & Hm7); [|exact Hlegs6].
    eapply mutate_long in H8 as (? & [= <-] & Hlegs8 & Hm8); [|exact Hlegs7].
    eapply mutate_alt in H9 as (? & [= <-] & Hlegs9 & Hm9); [|exact Hlegs8].
    eapply mutate_speed in H as (? & [= <-] & Hlegs10 & Hm10); [|exact Hlegs9].
    eexists _, _, _, _, _, 2%nat. split; [exact Hlegs10|].
    unfold Py.append. rewrite !length_app. simpl.
    split; [congruence|]. split; [done|]. repeat split; lia.
Qed.

Lemma add_departure_legs da dr lat_dep long_dep alt_dep self self' n la lo al sp :
  legs_at index self n la lo al sp ->
  add_departure index da dr lat_dep long_dep alt_dep self = Ok self' ->
  legs_at index self' ((da +:+ " " +:+ dr) :: n) (lat_dep :: la) (long_dep :: lo)
    (alt_dep :: al) (0%Q :: sp)
  /\ modes self' = modes self.
Proof.
  intros Hlegs. unfold add_departure, insert. intros H.
  apply bind_Ok in H as (s1 & H1 & H). apply bind_Ok in H as (s2 & H2 & H).
  apply bind_Ok in H as (s3 & H3 & H). apply bind_Ok in H as (s4 & H4 & H).
  eapply mutate_name in H1 as (? & [= <-] & Hlegs1 & Hm1); [|exact Hlegs].
  eapply mutate_lat in H2 as (? & [= <-] & Hlegs2 & Hm2); [|exact Hlegs1].
  eapply mutate_long in H3 as (? & [= <-] & Hlegs3 & Hm3); [|exact Hlegs2].
  eapply mutate_alt in H4 as (? & [= <-] & Hlegs4 & Hm4); [|exact Hlegs3].
  eapply mutate_speed in H as (? & [= <-] & Hlegs5 & Hm5); [|exact Hlegs4].
  rewrite !insert_front in Hlegs5. split; [done|congruence].
Qed.
End Stages.

Lemma populate_alt_length l : exists l', populate_alt l = Ok l' /\ length l' = length l.
Proof.
  destruct (decide (1 < length l)%nat) as [Hlen|Hlen].
  - rewrite populate_alt_fill by done. eexists. split; [done|].
    rewrite length_app, length_fill. simpl.
    destruct l as [|x l _] using rev_ind; [simpl in Hlen; lia|].
    by rewrite removelast_last, length_app.
  - rewrite populate_alt_short by lia. eauto.
Qed.

Lemma engaged_step index self0 s s' (n n' : list string) :
  (n = [] /\ modes s = modes self0) \/ engaged index s ->
  ((n = [] -> n' = []) /\ modes s' = modes s) \/ engaged index s' ->
  (n' = [] /\ modes s' = modes self0) \/ engaged index s'.
Proof.
  intros Hinv [[Hn Hm]|Hengaged]; [|by right].
  destruct Hinv as [[-> Hm0]|Hengaged].
  - left. split; [by apply Hn|congruence].
  - right. by eapply engaged_modes.
Qed.

(** The plan that [set_flight_plan] leaves: the departure leg, then legs
    with one position each; with a consistent database, one speed each, and
    one altitude each but for the enroute legs of a plan without cruise
    altitude. *)
Lemma set_flight_plan_plan nav index da dr sid aa ar star appr fp fpi cruise self self' :
  set_flight_plan nav index da dr sid aa ar star appr fp fpi cruise self = Ok self' ->
  exists lat_dep long_dep alt_dep n la lo al sp,
    get_runway_coord nav da (Py.str_from 2 dr) = Ok (lat_dep, long_dep, alt_dep)
    /\ legs_at index self' ((da +:+ " " +:+ dr) :: n) (lat_dep :: la) (long_dep :: lo)
         (alt_dep :: al) (0%Q :: sp)
    /\ length la = length n /\ length lo = length n
    /\ (consistent nav ->
        length sp = length n
        /\ (length al + (if Qlt_le_dec unspecified cruise then 0 else length fp)
            = length n)%nat)
    /\ ((n = [] /\ modes self' = modes self) \/ engaged index self').
Proof.
  intros (lat_dep & long_dep & alt_dep & assembled & filled & Hrwy & Hlegs & Hfill & Hdep)
    %set_flight_plan_stages.
  apply assemble_legs_stages in Hlegs
    as (s1 & s2 & s3 & s4 & s5 & s6 & H1 & H2 & H3 & H4 & H5 & H6 & H7).
  apply store_route_Ok in H1 as (_ & L1 & _ & M1).
  change (modes s1 = modes self) in M1.
  assert ((@nil string = [] /\ modes s1 = modes self) \/ engaged index s1) as I1 by auto.
  eapply add_sid_legs in H2 as (w2 & a2 & p2 & L2 & C2 & M2); [|exact L1].
  simpl in L2.
  assert ((w2 = [] /\ modes s2 = modes self) \/ engaged index s2) as I2.
  { eapply engaged_step; [exact I1|]. destruct M2 as [[-> ?]|?]; auto. }
  eapply add_enroute_legs in H3 as (L3 & M3); [|exact L2].
  assert ((w2 ++ fp = [] /\ modes s3 = modes self) \/ engaged index s3) as I3.
  { eapply engaged_step; [exact I2|].
    destruct M3 as [[-> ?]|?]; [left|by right]. by rewrite app_nil_r. }
  eapply add_star_legs in H4 as (w4 & a4 & p4 & L4 & C4 & M4); [|exact L3].
  assert (((w2 ++ fp) ++ w4 = [] /\ modes s4 = modes self) \/ engaged index s4) as I4.
  { eapply engaged_step; [exact I3|].
    destruct M4 as [[-> ?]|?]; [left|by right]. by rewrite app_nil_r. }
  eapply add_approach_legs in H5 as (n5 & al5 & sp5 & L5 & M5 & E5 & C5); [|exact L4].
  assert ((n5 = [] /\ modes s5 = modes self) \/ engaged index s5) as I5.
  { eapply engaged_step; [exact I4|]. destruct M5; auto. }
  eapply add_coords_legs in H6 as (la6 & lo6 & L6 & Hla6 & Hlo6 & M6); [|exact L5].
  assert ((n5 = [] /\ modes s6 = modes self) \/ engaged index s6) as I6.
  { eapply engaged_step; [exact I5|]. auto. }
  eapply add_arrival_runway_legs in H7
    as (n7 & la7 & lo7 & al7 & sp7 & d & L7 & M7 & E7 & Hn7 & Hla7 & Hlo7 & Hal7 & Hsp7);
    [|exact L6].
  assert ((n7 = [] /\ modes assembled = modes self) \/ engaged index assembled) as I7.
  { eapply engaged_step; [exact I6|]. auto. }
  eapply mutate_alt in Hfill as (al8 & Hal8 & L8 & M8); [|exact L7].
  destruct (populate_alt_length al7) as (al8' & Hal8' & Hlen8).
  rewrite Hal8 in Hal8'. injection Hal8' as <-.
  assert ((n7 = [] /\ modes filled = modes self) \/ engaged index filled) as I8.
  { eapply engaged_step; [exact I7|]. auto. }
  eapply add_departure_legs in Hdep as (L9 & M9); [|exact L8].
  exists lat_dep, long_dep, alt_dep, n7, la7, lo7, al8, sp7.
  split; [done|]. split; [|split; [lia|split; [lia|split]]].
  - exact L9.
  - intros Hnav. destruct (C2 Hnav) as [Ca2 Cp2]. destruct (C4 Hnav) as [Ca4 Cp4].
    set (gap := if Qlt_le_dec unspecified cruise then 0%nat else length fp).
    destruct (C5 Hnav gap) as [Cal5 Csp5].
    + subst gap. rewrite !length_app. destruct (Qlt_le_dec unspecified cruise);
        rewrite ?length_map; simpl; lia.
    + rewrite !length_app, length_map. lia.
    + lia.
  - eapply engaged_step; [exact I8|]. auto.
Qed.

Example demo_nav_consistent : consistent Demo.nav.
Proof.
  intros airport runway procedure appch iaf p. simpl.
  destruct (String.eqb procedure "PORPA1"); intros [= <-]; done.
Qed.

(** X7. When [set_flight_plan] returns, the plan of the aircraft holds one
    latitude and one longitude per leg name.  When every procedure of the
    navigation database has one altitude and one speed restriction per
    waypoint, the plan holds one target speed per leg as well; it holds one
    target altitude per leg if a cruise altitude above -1 was given, and
    otherwise it is short of one altitude for every enroute waypoint. *)
Theorem set_flight_plan_aligned nav index departure_airport departure_runway sid
    arrival_airport arrival_runway star approach flight_plan flight_plan_index cruise_alt
    self self' :
  set_flight_plan nav index departure_airport departure_runway sid arrival_airport
    arrival_runway star approach flight_plan flight_plan_index cruise_alt self = Ok self' ->
  exists names lats longs alts speeds,
    legs_at index self' names lats longs alts speeds
    /\ length lats = length names
    /\ length longs = length names
    /\ (consistent nav ->
        length speeds = length names
        /\ (length alts
            + (if Qlt_le_dec unspecified cruise_alt then 0 else length flight_plan)
            = length names)%nat).
Proof.
  intros (lat_dep & long_dep & alt_dep & n & la & lo & al & sp & _ & Hlegs & Hla & Hlo
          & Hnav & _)%set_flight_plan_plan.
  eexists _, _, _, _, _. split; [exact Hlegs|]. simpl.
  split; [lia|]. split; [lia|]. intros Hc. destruct (Hnav Hc). lia.
Qed.

Lemma set_flight_plan_aligned_witness :
  exists names lats longs alts speeds,
    legs_at 0 Demo.ap_sid names lats longs alts speeds
    /\ length lats = length names
    /\ length longs = length names
    /\ (consistent Demo.nav ->
        length speeds = length names
        /\ (length alts
            + (if Qlt_le_dec unspecified unspecified then 0
               else length ["PRAWN"; "RUMSY"])
            = length names)%nat).
Proof.
  apply (set_flight_plan_aligned Demo.nav 0 "VHHH" "RW07R" "PORPA1" "RCTP" "RW05L" "" ""
           ["PRAWN"; "RUMSY"] 0 unspecified Demo.ap1 Demo.ap_sid).
  vm_compute. reflexivity.
Defined.

(** X8. When [set_flight_plan] returns, either the plan of the aircraft
    consists of the departure leg alone, and then "has a next waypoint", the
    lateral mode and the throttle mode are as before in every slot, or the
    aircraft follows its plan: it has a next waypoint, its lateral mode is
    LNAV and its throttle mode is AUTO. *)
Theorem set_flight_plan_engages nav index departure_airport departure_runway sid
    arrival_airport arrival_runway star approach flight_plan flight_plan_index cruise_alt
    self self' :
  set_flight_plan nav index departure_airport departure_runway sid arrival_airport
    arrival_runway star approach flight_plan flight_plan_index cruise_alt self = Ok self' ->
  (Py.getitem (Autopilot.flight_plan_name self') index
     = Ok [departure_airport +:+ " " +:+ departure_runway]
   /\ modes self' = modes self)
  \/ engaged index self'.
Proof.
  intros (lat_dep & long_dep & alt_dep & n & la & lo & al & sp & _ & Hlegs & _ & _ & _
          & [[-> Hmodes]|Hengaged])%set_flight_plan_plan; [left|by right].
  split; [apply Hlegs|exact Hmodes].
Qed.

Lemma set_flight_plan_engages_witness :
  (Py.getitem (Autopilot.flight_plan_name Cases.replanned) 1
     = Ok ["RCTP" +:+ " " +:+ "RW05L"]
   /\ modes Cases.replanned = modes Demo.ap12)
  \/ engaged 1 Cases.replanned.
Proof.
  apply (set_flight_plan_engages Demo.nav 1 "RCTP" "RW05L" "" "" "" "" "" ["ELBER"] 0
           18000 Demo.ap12 Cases.replanned).
  vm_compute. reflexivity.
Defined.

(** X9. An approach or an arrival runway needs a leg to follow: when
    neither a SID, nor a STAR, nor an enroute waypoint is given and the
    approach or the arrival runway is, [set_flight_plan] reads the last
    name of an empty plan and never returns. *)
Theorem set_flight_plan_needs_legs nav index departure_airport departure_runway
    arrival_airport arrival_runway approach flight_plan_index cruise_alt self :
  approach <> "" \/ arrival_runway <> "" ->
  exists e,
    set_flight_plan nav index departure_airport departure_runway "" arrival_airport
      arrival_runway "" approach [] flight_plan_index cruise_alt self = Raise e.
Proof.
  intros Hgiven.
  destruct (set_flight_plan _ _ _ _ _ _ _ _ _ _ _ _ _) as [self'|e] eqn:Hrun; [|eauto].
  exfalso.
  apply set_flight_plan_stages in Hrun
    as (lat_dep & long_dep & alt_dep & assembled & filled & _ & Hlegs & _ & _).
  apply assemble_legs_stages in Hlegs
    as (s1 & s2 & s3 & s4 & s5 & s6 & H1 & H2 & H3 & H4 & H5 & H6 & H7).
  apply store_route_Ok in H1 as (_ & L1 & _).
  injection H2 as <-. injection H3 as <-. injection H4 as <-.
  unfold add_approach in H5.
  destruct (String.eqb approach "") eqn:Happroach.
  - injection H5 as <-.
    eapply add_coords_legs in H6 as (la & lo & L6 & _); [|exact L1].
    unfold add_arrival_runway in H7.
    destruct (String.eqb arrival_runway "") eqn:Harrival.
    + apply String.eqb_eq in Happroach, Harrival. tauto.
    + apply bind_Ok in H7 as ([[lat_tmp long_tmp] alt_tmp] & _ & H7).
      apply bind_Ok in H7 as (names & Hnames & H7).
      rewrite (legs_name _ _ _ _ _ _ _ L6) in Hnames. injection Hnames as <-.
      apply bind_Ok in H7 as (last_name & Hlast & _). discriminate Hlast.
  - apply bind_Ok in H5 as (names & Hnames & H5).
    rewrite (legs_name _ _ _ _ _ _ _ L1) in Hnames. injection Hnames as <-.
    apply bind_Ok in H5 as (iaf & Hiaf & _). discriminate Hiaf.
Qed.

Lemma set_flight_plan_needs_legs_witness :
  exists e,
    set_flight_plan Demo.nav 0 "VHHH" "RW07R" "" "RCTP" "RW05L" "" "" [] 0 37000 Demo.ap1
    = Raise e.
Proof.
  apply (set_flight_plan_needs_legs Demo.nav 0 "VHHH" "RW07R" "RCTP" "RW05L" "" 0 37000
           Demo.ap1).
  right. discriminate.
Defined.

(** ** The tick, slot by slot *)

Lemma Qlt_bool_irrefl d : Qlt_bool d d = false.
Proof.
  unfold Qlt_bool. replace (Qle_bool d d) with true; [done|].
  symmetry. apply Qle_bool_iff. apply Qle_refl.
Qed.


Lemma norm_nat (len i n : nat) :
  Py.norm len (Z.of_nat i) = Some n -> n = i /\ (i < len)%nat.
Proof.
  unfold Py.norm.
  destruct ((0 <=? Z.of_nat i) && (Z.of_nat i <? Z.of_nat len)) eqn:E.
  - intros [= <-]. apply andb_true_iff in E as [_ E%Z.ltb_lt].
    rewrite Nat2Z.id. lia.
  - replace (Z.of_nat i <? 0) with false by (symmetry; apply Z.ltb_ge; lia).
    rewrite andb_false_r. discriminate.
Qed.

Lemma getitem_nat {A : Type} (l : list A) (i : nat) (x : A) :
  Py.getitem l (Z.of_nat i) = Ok x <-> l !! i = Some x.
Proof.
  rewrite getitem_Ok. split.
  - intros (n & [-> _]%norm_nat & Hx). done.
  - intros Hx. exists i. split; [|done].
    rewrite norm_nonneg; [by rewrite Nat2Z.id|].
    apply lookup_lt_Some in Hx. lia.
Qed.

Lemma kept_nat {A : Type} (j i : nat) (l l' : list A) :
  i <> j -> kept (Z.of_nat j) l l' -> l' !! i = l !! i.
Proof.
  intros Hij [_ Hkeep]. apply Hkeep. intros [-> _]%norm_nat. done.
Qed.

Lemma vectors_related_impl (P Q : forall A : Type, list A -> list A -> Prop) :
  (forall (A : Type) (l l' : list A), P A l l' -> Q A l l') ->
  forall a b, vectors_related P a b -> vectors_related Q a b.
Proof.
  intros Himpl a b HP. unfold vectors_related in *.
  repeat match goal with H : _ /\ _ |- _ => destruct H end.
  repeat apply conj;
    match goal with H : P _ ?x ?y |- Q _ ?x ?y => exact (Himpl _ _ _ H) end.
Qed.

Lemma same_slot_refl n self : same_slot n self self.
Proof. by apply vectors_related_refl. Qed.

Lemma same_slot_trans n a b c : same_slot n a b -> same_slot n b c -> same_slot n a c.
Proof.
  apply (vectors_related_compose (fun A l l' => l' !! n = l !! n)
           (fun A l l' => l' !! n = l !! n) (fun A l l' => l' !! n = l !! n)).
  intros A l1 l2 l3 H12 H23. congruence.
Qed.

Lemma others_kept_same_slot (j i : nat) a b :
  i <> j -> others_kept (Z.of_nat j) a b -> same_slot i a b.
Proof.
  intros Hij. apply vectors_related_impl. intros A l l'. by apply kept_nat.
Qed.

Lemma track_leg_kept (j : nat) val self self' :
  track_leg (Z.of_nat j, val) self = Ok self' -> others_kept (Z.of_nat j) self self'.
Proof. unfold track_leg. intros H. frame H. Qed.

Lemma track_leg_plan_lists i_val self self' :
  track_leg i_val self = Ok self' -> plan_lists self' = plan_lists self.
Proof.
  unfold track_leg. destruct i_val as [i val]. intros H.
  frame_inv H; reflexivity.
Qed.

(** The iterations of the loop over [enumerate(self.flight_plan_index)]
    from position [k] on. *)
Lemma track_legs_before l (k n : nat) self tracked :
  for_each track_leg (imap (fun j v => (Z.of_nat (k + j), v)) l) self = Ok tracked ->
  (n < k)%nat -> same_slot n self tracked.
Proof.
  revert k self. induction l as [|x l IH]; intros k self H Hn; simpl in H.
  - injection H as <-. apply same_slot_refl.
  - apply bind_Ok in H as (s1 & H1 & H).
    apply (same_slot_trans _ _ s1).
    + eapply (others_kept_same_slot (k + 0)); [lia|]. by eapply track_leg_kept.
    + apply (IH (S k)); [|lia].
      erewrite imap_ext; [exact H|]. intros j v _. simpl. do 2 f_equal. lia.
Qed.

Lemma track_legs_plan_lists l self tracked :
  for_each track_leg l self = Ok tracked -> plan_lists tracked = plan_lists self.
Proof.
  revert self. induction l as [|x l IH]; intros self H; simpl in H.
  - by injection H as <-.
  - apply bind_Ok in H as (s1 & H1 & H).
    rewrite (IH _ H). by eapply track_leg_plan_lists.
Qed.

(** What the loop does to slot [k + i] is what the iteration for that slot
    does, in a state that has the slot and the plans as they were. *)
Lemma track_legs_slot l (k i : nat) (p : Z) self tracked :
  for_each track_leg (imap (fun j v => (Z.of_nat (k + j), v)) l) self = Ok tracked ->
  l !! i = Some p ->
  exists s s',
    track_leg (Z.of_nat (k + i), p) s = Ok s'
    /\ same_slot (k + i) self s
    /\ same_slot (k + i) s' tracked
    /\ plan_lists s = plan_lists self.
Proof.
  revert k i self. induction l as [|x l IH]; intros k i self H Hi; [done|].
  simpl in H. apply bind_Ok in H as (s1 & H1 & H).
  assert (for_each track_leg (imap (fun j v => (Z.of_nat (S k + j), v)) l) s1 = Ok tracked)
    as Hrest.
  { erewrite imap_ext; [exact H|]. intros j v _. simpl. do 2 f_equal. lia. }
  destruct i as [|i].
  - injection Hi as ->. exists self, s1. split; [exact H1|].
    split; [apply same_slot_refl|]. split; [|done].
    rewrite Nat.add_0_r. eapply track_legs_before; [exact Hrest|lia].
  - destruct (IH (S k) i s1 Hrest Hi) as (s & s' & Hleg & Hbefore & Hafter & Hplans).
    replace (k + S i)%nat with (S k + i)%nat by lia.
    exists s, s'. split; [done|]. split; [|split; [done|]].
    + apply (same_slot_trans _ _ s1); [|done].
      eapply (others_kept_same_slot (k + 0)); [lia|]. by eapply track_leg_kept.
    + rewrite Hplans. exact (track_leg_plan_lists (Z.of_nat (k + 0), x) self s1 H1).
Qed.

Lemma enumerate_slot (self : Autopilot.t) (i : nat) (p : Z) tracked :
  for_each track_leg (enumerate (Autopilot.flight_plan_index self)) self = Ok tracked ->
  Autopilot.flight_plan_index self !! i = Some p ->
  exists s s',
    track_leg (Z.of_nat i, p) s = Ok s'
    /\ same_slot i self s /\ same_slot i s' tracked /\ plan_lists s = plan_lists self.
Proof.
  intros H Hp.
  exact (track_legs_slot (Autopilot.flight_plan_index self) 0 i p self tracked H Hp).
Qed.

Lemma related_lateral_mode (P : forall A : Type, list A -> list A -> Prop) a b :
  vectors_related P a b -> P _ (Autopilot.lateral_mode a) (Autopilot.lateral_mode b).
Proof. unfold vectors_related. intros H. decompose [and] H. assumption. Qed.

Lemma related_flight_plan_index (P : forall A : Type, list A -> list A -> Prop) a b :
  vectors_related P a b ->
  P _ (Autopilot.flight_plan_index a) (Autopilot.flight_plan_index b).
Proof. unfold vectors_related. intros H. decompose [and] H. assumption. Qed.

Lemma related_holding (P : forall A : Type, list A -> list A -> Prop) a b :
  vectors_related P a b -> P _ (Autopilot.holding a) (Autopilot.holding b).
Proof. unfold vectors_related. intros H. decompose [and] H. assumption. Qed.

Lemma related_flight_plan_name (P : forall A : Type, list A -> list A -> Prop) a b :
  vectors_related P a b ->
  P _ (Autopilot.flight_plan_name a) (Autopilot.flight_plan_name b).
Proof. unfold vectors_related. intros H. decompose [and] H. assumption. Qed.

Lemma related_alt (P : forall A : Type, list A -> list A -> Prop) a b :
  vectors_related P a b -> P _ (Autopilot.alt a) (Autopilot.alt b).
Proof. unfold vectors_related. intros H. decompose [and] H. assumption. Qed.

Lemma track_leg_past (i : nat) (p : Z) s s' ns :
  track_leg (Z.of_nat i, p) s = Ok s' ->
  Autopilot.flight_plan_name s !! i = Some ns ->
  Z.of_nat (length ns) <= p ->
  Autopilot.lateral_mode s' !! i = Some HEADING.
Proof.
  unfold track_leg. intros H Hns Hp.
  apply bind_Ok in H as (names & Hnames%getitem_nat & H).
  rewrite Hns in Hnames. injection Hnames as <-.
  replace (p <? Z.of_nat (length ns)) with false in H by (symmetry; apply Z.ltb_ge; lia).
  apply assign_Ok in H as (l & Hl%getitem_setitem%getitem_nat & ->). exact Hl.
Qed.

Lemma track_leg_alt (i : nat) (p : Z) s s' (a : Q) (alts : list Q) :
  track_leg (Z.of_nat i, p) s = Ok s' ->
  Autopilot.alt s !! i = Some a ->
  Autopilot.flight_plan_target_alt s !! i = Some alts ->
  Py.getitem alts p = Ok a ->
  Autopilot.alt s' !! i = Some a.
Proof.
  unfold track_leg. intros H Ha Halts Hp.
  apply bind_Ok in H as (names & _ & H).
  destruct (p <? Z.of_nat (length names)).
  - apply bind_Ok in H as (lats & _ & H). apply bind_Ok in H as (? & _ & H).
    apply bind_Ok in H as (? & (? & _ & ->)%assign_Ok & H).
    apply bind_Ok in H as (longs & _ & H). apply bind_Ok in H as (? & _ & H).
    apply bind_Ok in H as (? & (? & _ & ->)%assign_Ok & H).
    apply bind_Ok in H as (? & _ & H).
    apply bind_Ok in H as (? & (? & _ & ->)%assign_Ok & H).
    apply bind_Ok in H as (? & _ & H).
    apply bind_Ok in H as (? & (? & _ & ->)%assign_Ok & H).
    apply bind_Ok in H as (s5 & H5 & H).
    assert (Autopilot.alt s5 = Autopilot.alt s
            /\ Autopilot.flight_plan_target_alt s5 = Autopilot.flight_plan_target_alt s)
      as [Ealt Eplan].
    { destruct (p =? Z.of_nat (length names) - 1).
      - apply assign_Ok in H5 as (? & _ & ->). done.
      - apply bind_Ok in H5 as (? & _ & H5).
        apply bind_Ok in H5 as (? & (? & _ & ->)%assign_Ok & H5).
        apply bind_Ok in H5 as (? & _ & H5).
        apply bind_Ok in H5 as (? & (? & _ & ->)%assign_Ok & H5).
        apply assign_Ok in H5 as (? & _ & ->). done. }
    apply bind_Ok in H as (alts' & Halts'%getitem_nat & H).
    rewrite Eplan, Halts in Halts'. injection Halts' as <-.
    destruct (1 <? length alts)%nat.
    + apply bind_Ok in H as (v & Hv & H). rewrite Hp in Hv. injection Hv as <-.
      apply assign_Ok in H as (l & Hl%getitem_setitem%getitem_nat & ->). exact Hl.
    + injection H as <-. by rewrite Ealt.
  - apply assign_Ok in H as (? & _ & ->). exact Ha.
Qed.

Lemma first_index_bound id ids k index : first_index id ids k = Ok index -> k <= index.
Proof.
  revert k. induction ids as [|x ids IH]; intros k; simpl; [discriminate|].
  destruct (x =? id); [intros [= <-]; lia|]. intros H%IH. lia.
Qed.


(** ** The tick as a whole *)

(** What lines 456-524 make of the state [tracked] that the leg tracking
    leaves, as far as the waypoint sequencing goes. *)
Lemma steer_spec np units cal traffic tracked :
  let dist := Np.map4 (cal_great_circle_dist cal) (Traffic.lat traffic) (Traffic.long traffic)
               (Autopilot.lat tracked) (Autopilot.long tracked) in
  let cached := Np.where_ (Autopilot.flight_plan_updated tracked) dist (Autopilot.dist tracked) in
  let advance :=
         Np.map3 (fun a b c => a && b && c)
           (map (fun m => bool_decide (m = LNAV)) (Autopilot.lateral_mode tracked))
           (Np.map2 (fun d cached => Qlt_bool cached d) dist cached)
           (Np.map2 (fun h n => Qlt_bool (Qabs (cal_angle_diff cal h n)) 1)
              (Traffic.heading traffic)
              (Np.where_ (Autopilot.hv_next_wp tracked)
                 (Np.map4 (cal_great_circle_bearing cal) (Autopilot.lat tracked)
                    (Autopilot.long tracked) (Autopilot.lat_next tracked)
                    (Autopilot.long_next tracked))
                 (Autopilot.track_angle tracked))) in
  let steered := (steer np units cal traffic tracked).1.1 in
  (steer np units cal traffic tracked).2 = dist
  /\ Autopilot.dist steered =
         Np.where_ advance
           (Np.map4 (cal_great_circle_dist cal) (Traffic.lat traffic) (Traffic.long traffic)
              (Autopilot.lat_next tracked) (Autopilot.long_next tracked))
           dist
  /\ Autopilot.flight_plan_index steered =
         Np.where_ advance (map (fun v => wrap64 (v + 1)) (Autopilot.flight_plan_index tracked))
           (Autopilot.flight_plan_index tracked)
  /\ Autopilot.flight_plan_updated steered =
         Np.where_l (Autopilot.flight_plan_updated tracked) false
           (Autopilot.flight_plan_updated tracked)
  /\ tracked_state steered = tracked_state tracked
  /\ holding_state steered = holding_state tracked.
Proof.
  cbv zeta. repeat split; reflexivity.
Qed.

(** What [update] returns, in terms of the state [tracked] that the leg
    tracking leaves and of the state [steered] in which the holding part
    starts. *)
Lemma update_Ok np units cal traffic self self' traffic' :
  update np units cal traffic self = Ok (self', traffic') ->
  exists (tracked steered : Autopilot.t) (dist cached : list Q) (advance : list bool),
    for_each track_leg (enumerate (Autopilot.flight_plan_index self)) self = Ok tracked
    /\ dist = Np.map4 (cal_great_circle_dist cal) (Traffic.lat traffic) (Traffic.long traffic)
               (Autopilot.lat tracked) (Autopilot.long tracked)
    /\ cached = Np.where_ (Autopilot.flight_plan_updated tracked) dist (Autopilot.dist tracked)
    /\ advance =
         Np.map3 (fun a b c => a && b && c)
           (map (fun m => bool_decide (m = LNAV)) (Autopilot.lateral_mode tracked))
           (Np.map2 (fun d cached => Qlt_bool cached d) dist cached)
           (Np.map2 (fun h n => Qlt_bool (Qabs (cal_angle_diff cal h n)) 1)
              (Traffic.heading traffic)
              (Np.where_ (Autopilot.hv_next_wp tracked)
                 (Np.map4 (cal_great_circle_bearing cal) (Autopilot.lat tracked)
                    (Autopilot.long tracked) (Autopilot.lat_next tracked)
                    (Autopilot.long_next tracked))
                 (Autopilot.track_angle tracked)))
    /\ Autopilot.dist steered =
         Np.where_ advance
           (Np.map4 (cal_great_circle_dist cal) (Traffic.lat traffic) (Traffic.long traffic)
              (Autopilot.lat_next tracked) (Autopilot.long_next tracked))
           dist
    /\ Autopilot.flight_plan_index steered =
         Np.where_ advance (map (fun v => wrap64 (v + 1)) (Autopilot.flight_plan_index tracked))
           (Autopilot.flight_plan_index tracked)
    /\ Autopilot.flight_plan_updated steered =
         Np.where_l (Autopilot.flight_plan_updated tracked) false
           (Autopilot.flight_plan_updated tracked)
    /\ tracked_state steered = tracked_state tracked
    /\ holding_state steered = holding_state tracked
    /\ for_each (hold_step units cal dist) (enumerate (Autopilot.holding steered)) steered
       = Ok self'.
Proof.
  unfold update. intros H. apply bind_Ok in H as (tracked & Htracked & H).
  pose proof (steer_spec np units cal traffic tracked) as Hspec. cbv zeta in Hspec.
  destruct (steer np units cal traffic tracked) as [[steered traffic1] dist] eqn:Hsteer.
  simpl in Hspec. destruct Hspec as (-> & Hdist & Hpointer & Hflag & Htracked' & Hholding).
  apply bind_Ok in H as (held & Hheld & H). injection H as -> _.
  eexists tracked, steered, _, _, _.
  split; [exact Htracked|].
  do 3 (split; [reflexivity|]).
  split; [exact Hdist|]. split; [exact Hpointer|]. split; [exact Hflag|].
  split; [exact Htracked'|]. split; [exact Hholding|]. exact Hheld.
Qed.

(** *** Loops over the slots *)

Section Loop.
Context {A : Type} (body : Z * A -> Autopilot.t -> result Autopilot.t).
Hypothesis body_kept :
  forall (j : nat) (v : A) s s',
    body (Z.of_nat j, v) s = Ok s' -> others_kept (Z.of_nat j) s s'.

Lemma for_each_before l (k n : nat) self final :
  for_each body (imap (fun j v => (Z.of_nat (k + j), v)) l) self = Ok final ->
  (n < k)%nat -> same_slot n self final.
Proof.
  revert k self. induction l as [|x l IH]; intros k self H Hn; simpl in H.
  - injection H as <-. apply same_slot_refl.
  - apply bind_Ok in H as (s1 & H1 & H).
    apply (same_slot_trans _ _ s1).
    + eapply (others_kept_same_slot (k + 0)); [lia|]. by eapply body_kept.
    + apply (IH (S k)); [|lia].
      erewrite imap_ext; [exact H|]. intros j v _. simpl. do 2 f_equal. lia.
Qed.

(** What the loop does to slot [k + i] is what the iteration for that slot
    does, in a state that has the slot as it was. *)
Lemma for_each_slot l (k i : nat) (v : A) self final :
  for_each body (imap (fun j v => (Z.of_nat (k + j), v)) l) self = Ok final ->
  l !! i = Some v ->
  exists s s',
    body (Z.of_nat (k + i), v) s = Ok s'
    /\ same_slot (k + i) self s
    /\ same_slot (k + i) s' final.
Proof.
  revert k i self. induction l as [|x l IH]; intros k i self H Hi; [done|].
  simpl in H. apply bind_Ok in H as (s1 & H1 & H).
  assert (for_each body (imap (fun j v => (Z.of_nat (S k + j), v)) l) s1 = Ok final)
    as Hrest.
  { erewrite imap_ext; [exact H|]. intros j w _. simpl. do 2 f_equal. lia. }
  destruct i as [|i].
  - injection Hi as ->. exists self, s1. split; [exact H1|].
    split; [apply same_slot_refl|].
    rewrite Nat.add_0_r. eapply for_each_before; [exact Hrest|lia].
  - destruct (IH (S k) i s1 Hrest Hi) as (s & s' & Hleg & Hbefore & Hafter).
    replace (k + S i)%nat with (S k + i)%nat by lia.
    exists s, s'. split; [done|]. split; [|done].
    apply (same_slot_trans _ _ s1); [|done].
    eapply (others_kept_same_slot (k + 0)); [lia|]. by eapply body_kept.
Qed.

Lemma enumerate_for_each_slot (l : list A) (i : nat) (v : A) self final :
  for_each body (enumerate l) self = Ok final ->
  l !! i = Some v ->
  exists s s',
    body (Z.of_nat i, v) s = Ok s' /\ same_slot i self s /\ same_slot i s' final.
Proof. intros H Hi. exact (for_each_slot l 0 i v self final H Hi). Qed.
End Loop.

Lemma for_each_view {A V : Type} (body : A -> Autopilot.t -> result Autopilot.t)
    (view : Autopilot.t -> V) :
  (forall x s s', body x s = Ok s' -> view s' = view s) ->
  forall l self final, for_each body l self = Ok final -> view final = view self.
Proof.
  intros Hbody l. induction l as [|x l IH]; intros self final H; simpl in H.
  - by injection H as <-.
  - apply bind_Ok in H as (s1 & H1 & H). rewrite (IH _ _ H). by eapply Hbody.
Qed.

(** *** The holding part *)

Lemma hold_step_kept units cal dist (j : nat) (v : bool) s s' :
  hold_step units cal dist (Z.of_nat j, v) s = Ok s' -> others_kept (Z.of_nat j) s s'.
Proof. unfold hold_step. intros H. frame H. Qed.

Lemma hold_step_beside units cal dist i_val s s' :
  hold_step units cal dist i_val s = Ok s' ->
  (tracked_state s', steered_state s') = (tracked_state s, steered_state s).
Proof.
  unfold hold_step. destruct i_val as [i v]. intros H. untouched H; reflexivity.
Qed.

Lemma hold_beside units cal dist l s s' :
  for_each (hold_step units cal dist) l s = Ok s' ->
  (tracked_state s', steered_state s') = (tracked_state s, steered_state s).
Proof.
  exact (for_each_view _ (fun s => (tracked_state s, steered_state s))
           (hold_step_beside units cal dist) l s s').
Qed.

Lemma update_tracked np units cal traffic self self' traffic' :
  update np units cal traffic self = Ok (self', traffic') ->
  exists tracked,
    for_each track_leg (enumerate (Autopilot.flight_plan_index self)) self = Ok tracked
    /\ tracked_state self' = tracked_state tracked.
Proof.
  intros (tracked & steered & dist & cached & advance & Htracked & _ & _ & _ & _ & _ & _
    & Hsteered & _ & Hheld)%update_Ok.
  exists tracked. split; [done|].
  apply hold_beside in Hheld. rewrite <- Hsteered. exact (f_equal fst Hheld).
Qed.

Lemma tracked_state_targets s s' :
  tracked_state s' = tracked_state s ->
  Autopilot.alt s' = Autopilot.alt s
  /\ Autopilot.lat s' = Autopilot.lat s
  /\ Autopilot.long s' = Autopilot.long s
  /\ Autopilot.lat_next s' = Autopilot.lat_next s
  /\ Autopilot.long_next s' = Autopilot.long_next s
  /\ Autopilot.hv_next_wp s' = Autopilot.hv_next_wp s
  /\ Autopilot.flight_plan_name s' = Autopilot.flight_plan_name s.
Proof. unfold tracked_state. intros H. injection H. intros. repeat split; assumption. Qed.

Lemma assign_nat {A : Type} (field : Autopilot.t -> list A) {field_set : Setter field}
    (i : nat) (v : A) s s' :
  assign field (Z.of_nat i) v s = Ok s' ->
  (i < length (field s))%nat /\ s' = s <| field := <[i := v]> (field s) |>.
Proof.
  intros (l & (n & [-> Hi]%norm_nat & ->)%setitem_Ok & ->)%assign_Ok. done.
Qed.

(** Follows an iteration of the holding part that returned, down to the
    entries it replaced. *)
Ltac hold_inv H :=
  lazymatch type of H with
  | (if ?c then _ else _) = Ok _ => destruct c; hold_inv H
  | (match ?x with _ => _ end) = Ok _ => destruct x; hold_inv H
  | (_ ≫= _) = Ok _ =>
      let Ha := fresh "Ha" in
      apply bind_Ok in H as (? & Ha & H); cbv beta in H; hold_inv Ha; hold_inv H
  | assign _ (Z.of_nat _) _ _ = Ok _ =>
      let Hlen := fresh "Hlen" in apply assign_nat in H as (Hlen & ->)
  | Ok _ = Ok _ => injection H as <-
  | _ => idtac
  end.

(** What an iteration of the holding part does to the leg pointer and to
    the lateral mode of its aircraft: the aircraft enters the holding
    pattern ([holding] from [False] to [True]), and its leg pointer goes
    back by one and its lateral mode is HEADING; or it leaves the pattern
    ([holding] from [True] to [False]), and its lateral mode is LNAV; or
    pointer and mode are as before. *)
Lemma hold_step_effect units cal dist (i : nat) (v : bool) s s' (p : Z) (h : bool)
    (m : APLateralMode) :
  hold_step units cal dist (Z.of_nat i, v) s = Ok s' ->
  Autopilot.flight_plan_index s !! i = Some p ->
  Autopilot.holding s !! i = Some h ->
  Autopilot.lateral_mode s !! i = Some m ->
  exists h',
    Autopilot.holding s' !! i = Some h'
    /\ Autopilot.flight_plan_index s' !! i = Some (if negb h && h' then wrap64 (p - 1) else p)
    /\ Autopilot.lateral_mode s' !! i
       = Some (if negb h && h' then HEADING else if h && negb h' then LNAV else m).
Proof.
  unfold hold_step. intros H Hp Hh Hm.
  apply bind_Ok in H as (h0 & Hh0%getitem_nat & H).
  rewrite Hh in Hh0. injection Hh0 as <-.
  destruct h; simpl negb in H; cbv iota in H.
  - hold_inv H;
      (eexists; split;
       [first [exact Hh | refine (list_lookup_insert_eq _ _ _ _); assumption]
       |split;
        [exact Hp
        |first [exact Hm | refine (list_lookup_insert_eq _ _ _ _); assumption]]]).
  - apply bind_Ok in H as (info & _ & H).
    apply bind_Ok in H as (outbound & _ & H).
    destruct outbound; [|injection H as <-; exists false; done].
    apply bind_Ok in H as (item & _ & H). apply bind_Ok in H as (course & _ & H).
    apply bind_Ok in H as (s1 & (_ & ->)%assign_nat & H).
    apply bind_Ok in H as (rounds & _ & H).
    apply bind_Ok in H as (s2 & (_ & ->)%assign_nat & H).
    apply bind_Ok in H as (pointer & Hpointer%getitem_nat & H).
    pose proof (eq_trans (eq_sym Hpointer) Hp) as [= ->].
    apply bind_Ok in H as (s3 & (Hlen3 & ->)%assign_nat & H).
    apply bind_Ok in H as (s4 & (Hlen4 & ->)%assign_nat & H).
    apply assign_nat in H as (Hlen5 & ->).
    exists true. split; [refine (list_lookup_insert_eq _ _ _ _); assumption|].
    split; [refine (list_lookup_insert_eq _ _ _ _); assumption|].
    refine (list_lookup_insert_eq _ _ _ _); assumption.
Qed.

Lemma hold_slot units cal dist steered self' (i : nat) (p : Z) (h : bool)
    (m : APLateralMode) :
  for_each (hold_step units cal dist) (enumerate (Autopilot.holding steered)) steered
  = Ok self' ->
  Autopilot.flight_plan_index steered !! i = Some p ->
  Autopilot.holding steered !! i = Some h ->
  Autopilot.lateral_mode steered !! i = Some m ->
  exists h',
    Autopilot.holding self' !! i = Some h'
    /\ Autopilot.flight_plan_index self' !! i
       = Some (if negb h && h' then wrap64 (p - 1) else p)
    /\ Autopilot.lateral_mode self' !! i
       = Some (if negb h && h' then HEADING else if h && negb h' then LNAV else m).
Proof.
  intros Hloop Hp Hh Hm.
  destruct (enumerate_for_each_slot _ (hold_step_kept units cal dist) _ _ _ _ _ Hloop Hh)
    as (s & s' & Hstep & Hbefore & Hafter).
  rewrite <- (related_flight_plan_index _ _ _ Hbefore) in Hp.
  rewrite <- (related_holding _ _ _ Hbefore) in Hh.
  rewrite <- (related_lateral_mode _ _ _ Hbefore) in Hm.
  destruct (hold_step_effect _ _ _ _ _ _ _ _ _ _ Hstep Hp Hh Hm) as (h' & H1 & H2 & H3).
  exists h'.
  rewrite (related_flight_plan_index _ _ _ Hafter), (related_holding _ _ _ Hafter),
    (related_lateral_mode _ _ _ Hafter).
  done.
Qed.

(** *** The leg tracking and the lateral mode *)

Lemma track_leg_within (i : nat) (p : Z) s s' (names : list string) :
  track_leg (Z.of_nat i, p) s = Ok s' ->
  Autopilot.flight_plan_name s !! i = Some names ->
  p < Z.of_nat (length names) ->
  Autopilot.lateral_mode s' = Autopilot.lateral_mode s.
Proof.
  unfold track_leg. intros H Hnames Hp.
  apply bind_Ok in H as (names' & Hnames'%getitem_nat & H).
  rewrite Hnames in Hnames'. injection Hnames' as <-.
  replace (p <? Z.of_nat (length names)) with true in H by (symmetry; by apply Z.ltb_lt).
  frame_inv H; reflexivity.
Qed.

Lemma tracked_lateral_mode self tracked (i : nat) (p : Z) (names : list string)
    (m : APLateralMode) :
  for_each track_leg (enumerate (Autopilot.flight_plan_index self)) self = Ok tracked ->
  Autopilot.flight_plan_index self !! i = Some p ->
  Autopilot.flight_plan_name self !! i = Some names ->
  Autopilot.lateral_mode self !! i = Some m ->
  Autopilot.lateral_mode tracked !! i
  = Some (if p <? Z.of_nat (length names) then m else HEADING).
Proof.
  intros Htracked Hp Hnames Hm.
  destruct (enumerate_slot _ _ _ _ Htracked Hp)
    as (s & s' & Hleg & Hbefore & Hafter & [= Hn _ _ _]).
  rewrite <- Hn in Hnames.
  rewrite (related_lateral_mode _ _ _ Hafter).
  destruct (p <? Z.of_nat (length names)) eqn:E.
  - apply Z.ltb_lt in E.
    rewrite (track_leg_within _ _ _ _ _ Hleg Hnames E).
    by rewrite (related_lateral_mode _ _ _ Hbefore).
  - apply Z.ltb_ge in E. by eapply track_leg_past.
Qed.

(** The names of the legs: no statement of [update] assigns them. *)
Lemma tracked_names self tracked :
  for_each track_leg (enumerate (Autopilot.flight_plan_index self)) self = Ok tracked ->
  Autopilot.flight_plan_name tracked = Autopilot.flight_plan_name self.
Proof. by intros [= H _ _ _]%track_legs_plan_lists. Qed.

(** X12. An altitude commanded through [set_alt] survives the next tick:
    [set_alt] writes it both as the target of the autopilot and as the
    target altitude of the current leg, from which the leg tracking of
    [update] copies it back. *)
Theorem set_alt_survives_update np units cal traffic (alt : Q) (s s1 : Aircraft.t) ap'
    traffic' :
  set_alt alt s = (Ok tt, s1) ->
  update np units cal traffic (ap_of s1) = Ok (ap', traffic') ->
  exists n : nat,
    first_index (Aircraft.index s) (Traffic.index (Aircraft.traffic s)) 0 = Ok (Z.of_nat n)
    /\ Autopilot.alt (ap_of s1) !! n = Some alt
    /\ Autopilot.alt ap' !! n = Some alt.
Proof.
  intros Hset Hrun. unfold set_alt, resolve in Hset.
  m_step Hset as index s0 Hindex. m_step Hset as p s0 Hp.
  apply M_bind_Ok in Hset as ([] & s2 & (ap2 & Hitem & ->)%on_ap_Ok & Hset).
  apply on_ap_Ok in Hset as (ap3 & Hassign & ->).
  rewrite ?ap_of_with_ap in *.
  pose proof (first_index_bound _ _ _ _ Hindex) as Hbound.
  exists (Z.to_nat index). rewrite Z2Nat.id by lia. split; [done|].
  rewrite <- (Z2Nat.id index) in Hp, Hitem, Hassign by lia.
  set (n := Z.to_nat index) in *. clearbody n. clear Hindex Hbound index.
  unfold assign_item in Hitem.
  apply mutate_Ok in Hitem as (alts & alts' & ls & _ & Halts' & Hls & ->).
  apply assign_Ok in Hassign as (l & Hl & ->).
  apply getitem_setitem, getitem_nat in Hl, Hls. apply getitem_setitem in Halts'.
  apply getitem_nat in Hp.
  split; [exact Hl|].
  apply update_tracked in Hrun as (tracked & Htracked & (Halt & _)%tracked_state_targets).
  rewrite Halt.
  destruct (enumerate_slot _ _ _ _ Htracked Hp)
    as (t & t' & Hleg & Hbefore & Hafter & [= _ _ _ Hplan]).
  rewrite (related_alt _ _ _ Hafter).
  eapply track_leg_alt; [exact Hleg| | |exact Halts'].
  - rewrite (related_alt _ _ _ Hbefore). exact Hl.
  - rewrite Hplan. exact Hls.
Qed.

Lemma set_alt_survives_update_witness :
  exists n : nat,
    first_index (Aircraft.index (Demo.handle Demo.ap1))
      (Traffic.index (Aircraft.traffic (Demo.handle Demo.ap1))) 0 = Ok (Z.of_nat n)
    /\ Autopilot.alt (ap_of Flights.cleared) !! n = Some 12000%Q
    /\ Autopilot.alt Flights.cleared_tick !! n = Some 12000%Q.
Proof.
  apply (set_alt_survives_update Demo.np Demo.units Demo.cal (Demo.traffic_at 22 113) 12000
           (Demo.handle Demo.ap1) Flights.cleared Flights.cleared_tick
           (Demo.traffic_after (Demo.traffic_at 22 113) (ap_of Flights.cleared))).
  - vm_compute. reflexivity.
  - vm_compute. reflexivity.
Defined.

(** *** One slot through a tick *)

Section Lengths.
Context {A : Type} (body : Z * A -> Autopilot.t -> result Autopilot.t).
Hypothesis body_kept :
  forall (j : nat) (v : A) s s',
    body (Z.of_nat j, v) s = Ok s' -> others_kept (Z.of_nat j) s s'.

Lemma for_each_lengths l (k : nat) self final :
  for_each body (imap (fun j v => (Z.of_nat (k + j), v)) l) self = Ok final ->
  vectors_related (fun A l l' => length l' = length l) self final.
Proof.
  revert k self. induction l as [|x l IH]; intros k self H; simpl in H.
  - injection H as <-. by apply vectors_related_refl.
  - apply bind_Ok in H as (s1 & H1 & H).
    apply (vectors_related_compose (fun A l l' => length l' = length l)
             (fun A l l' => length l' = length l) (fun A l l' => length l' = length l)
             ltac:(intros; congruence) self s1 final).
    + apply (vectors_related_impl (fun A => @kept A (Z.of_nat (k + 0)))).
      * intros B l1 l2 [Hlen _]. exact Hlen.
      * by eapply body_kept.
    + apply (IH (S k)).
      erewrite imap_ext; [exact H|]. intros j v _. simpl. do 2 f_equal. lia.
Qed.
End Lengths.

Lemma hold_lengths units cal dist steered self' :
  for_each (hold_step units cal dist) (enumerate (Autopilot.holding steered)) steered
  = Ok self' ->
  vectors_related (fun A l l' => length l' = length l) steered self'.
Proof.
  intros H.
  exact (for_each_lengths _ (hold_step_kept units cal dist) _ 0 _ _ H).
Qed.

Lemma lookup_same_length {A : Type} (l l' : list A) (i : nat) :
  length l' = length l -> is_Some (l' !! i) -> is_Some (l !! i).
Proof. intros Hlen H%lookup_lt_is_Some. apply lookup_lt_is_Some. lia. Qed.

(** The leg tracking reads the names of the legs of every slot it visits,
    and it writes to a lateral mode that is there. *)
Lemma tracked_slot self tracked (i : nat) (p : Z) :
  for_each track_leg (enumerate (Autopilot.flight_plan_index self)) self = Ok tracked ->
  Autopilot.flight_plan_index self !! i = Some p ->
  is_Some (Autopilot.lateral_mode tracked !! i) ->
  exists names mode,
    Autopilot.flight_plan_name self !! i = Some names
    /\ Autopilot.lateral_mode self !! i = Some mode.
Proof.
  intros Htracked Hp Hmode.
  destruct (enumerate_slot _ _ _ _ Htracked Hp)
    as (s & s' & Hleg & Hbefore & Hafter & [= Hn _ _ _]).
  pose proof Hleg as Hnames. unfold track_leg in Hnames.
  apply bind_Ok in Hnames as (names & Hnames%getitem_nat & _).
  rewrite Hn in Hnames. exists names.
  rewrite (related_lateral_mode _ _ _ Hafter) in Hmode.
  apply track_leg_kept, related_lateral_mode in Hleg as [Hlen _].
  destruct (lookup_same_length _ _ _ Hlen Hmode) as [mode Hsource].
  rewrite (related_lateral_mode _ _ _ Hbefore) in Hsource. eauto.
Qed.

(** The waypoint advance of line 521 in slot [i], in terms of the state
    before the tick, of the positions of the aircraft and of the targets
    that the leg tracking leaves. *)
Lemma advance_slot cal traffic self tracked (i : nat) (p : Z) (a : bool) :
  for_each track_leg (enumerate (Autopilot.flight_plan_index self)) self = Ok tracked ->
  Autopilot.flight_plan_index self !! i = Some p ->
  let dist :=
    Np.map4 (cal_great_circle_dist cal) (Traffic.lat traffic) (Traffic.long traffic)
      (Autopilot.lat tracked) (Autopilot.long tracked) in
  let cached :=
    Np.where_ (Autopilot.flight_plan_updated tracked) dist (Autopilot.dist tracked) in
  Np.map3 (fun a b c => a && b && c)
    (map (fun m => bool_decide (m = LNAV)) (Autopilot.lateral_mode tracked))
    (Np.map2 (fun d cached => Qlt_bool cached d) dist cached)
    (Np.map2 (fun h n => Qlt_bool (Qabs (cal_angle_diff cal h n)) 1)
       (Traffic.heading traffic)
       (Np.where_ (Autopilot.hv_next_wp tracked)
          (Np.map4 (cal_great_circle_bearing cal) (Autopilot.lat tracked)
             (Autopilot.long tracked) (Autopilot.lat_next tracked)
             (Autopilot.long_next tracked))
          (Autopilot.track_angle tracked))) !! i = Some a ->
  exists (names : list string) (mode : APLateralMode) (flag : bool)
         (cached_i angle tlat tlong theading alat along nlat nlong : Q) (next : bool),
    Autopilot.flight_plan_name self !! i = Some names
    /\ Autopilot.lateral_mode self !! i = Some mode
    /\ Autopilot.flight_plan_updated self !! i = Some flag
    /\ Autopilot.dist self !! i = Some cached_i
    /\ Autopilot.track_angle self !! i = Some angle
    /\ Traffic.lat traffic !! i = Some tlat
    /\ Traffic.long traffic !! i = Some tlong
    /\ Traffic.heading traffic !! i = Some theading
    /\ Autopilot.lat tracked !! i = Some alat
    /\ Autopilot.long tracked !! i = Some along
    /\ Autopilot.lat_next tracked !! i = Some nlat
    /\ Autopilot.long_next tracked !! i = Some nlong
    /\ Autopilot.hv_next_wp tracked !! i = Some next
    /\ Autopilot.lateral_mode tracked !! i
       = Some (if p <? Z.of_nat (length names) then mode else HEADING)
    /\ a = bool_decide (mode = LNAV) && (p <? Z.of_nat (length names))
           && Qlt_bool (if flag then cal_great_circle_dist cal tlat tlong alat along
                        else cached_i)
                (cal_great_circle_dist cal tlat tlong alat along)
           && Qlt_bool
                (Qabs (cal_angle_diff cal theading
                         (if next then cal_great_circle_bearing cal alat along nlat nlong
                          else angle))) 1.
Proof.
  intros Htracked Hp dist cached Ha. subst dist cached.
  apply lookup_map3 in Ha as (a1 & a2 & a3 & Ha1 & Ha2 & Ha3 & ->).
  rewrite list_lookup_fmap in Ha1.
  destruct (Autopilot.lateral_mode tracked !! i) as [mode'|] eqn:Hmode'; [|done].
  injection Ha1 as <-.
  destruct (tracked_slot _ _ _ _ Htracked Hp ltac:(eauto)) as (names & mode & Hnames & Hmode).
  pose proof (tracked_lateral_mode _ _ _ _ _ _ Htracked Hp Hnames Hmode) as Hlateral.
  rewrite Hmode' in Hlateral. injection Hlateral as ->.
  apply lookup_map2 in Ha2 as (fresh & cached_i' & Hfresh & Hcached & ->).
  apply lookup_where in Hcached as (flag & fresh' & cached_i & Hflag & Hfresh' & Hcached_i & ->).
  rewrite Hfresh in Hfresh'. injection Hfresh' as <-.
  apply lookup_map4 in Hfresh
    as (tlat & tlong & alat & along & Htlat & Htlong & Halat & Halong & ->).
  apply lookup_map2 in Ha3 as (theading & bearing & Htheading & Hbearing & ->).
  apply lookup_where in Hbearing as (next & b & angle & Hnext & Hb & Hangle & ->).
  apply lookup_map4 in Hb
    as (alat' & along' & nlat & nlong & Halat' & Halong' & Hnlat & Hnlong & ->).
  rewrite Halat in Halat'. injection Halat' as <-.
  rewrite Halong in Halong'. injection Halong' as <-.
  apply track_legs_sequencing in Htracked as [= _ Eflag Edist Eangle].
  rewrite Eflag in Hflag. rewrite Edist in Hcached_i. rewrite Eangle in Hangle.
  exists names, mode, flag, cached_i, angle, tlat, tlong, theading, alat, along, nlat, nlong,
    next.
  repeat (split; [assumption|]). split; [reflexivity|].
  do 2 f_equal.
  destruct (p <? Z.of_nat (length names)); [by rewrite andb_true_r|].
  by rewrite andb_false_r.
Qed.

(** An iteration of the holding part for an aircraft that is not holding and
    has no holding definition changes nothing. *)
Lemma hold_step_idle units cal dist (i : nat) (v : bool) s s' :
  hold_step units cal dist (Z.of_nat i, v) s = Ok s' ->
  Autopilot.holding s !! i = Some false ->
  Autopilot.holding_info s !! i = Some [] ->
  s' = s.
Proof.
  unfold hold_step. intros H Hh Hinfo.
  apply getitem_nat in Hh, Hinfo. rewrite Hh in H. simpl in H.
  rewrite Hinfo in H. simpl in H. by injection H as <-.
Qed.

Lemma related_holding_info (P : forall A : Type, list A -> list A -> Prop) a b :
  vectors_related P a b -> P _ (Autopilot.holding_info a) (Autopilot.holding_info b).
Proof. unfold vectors_related. intros H. decompose [and] H. assumption. Qed.

Lemma hold_idle units cal dist steered self' (i : nat) :
  for_each (hold_step units cal dist) (enumerate (Autopilot.holding steered)) steered
  = Ok self' ->
  Autopilot.holding steered !! i = Some false ->
  Autopilot.holding_info steered !! i = Some [] ->
  Autopilot.holding self' !! i = Some false.
Proof.
  intros Hloop Hh Hinfo.
  destruct (enumerate_for_each_slot _ (hold_step_kept units cal dist) _ _ _ _ _ Hloop Hh)
    as (s & s' & Hstep & Hbefore & Hafter).
  rewrite <- (related_holding _ _ _ Hbefore) in Hh.
  rewrite <- (related_holding_info _ _ _ Hbefore) in Hinfo.
  rewrite (hold_step_idle _ _ _ _ _ _ _ Hstep Hh Hinfo) in Hafter.
  by rewrite (related_holding _ _ _ Hafter).
Qed.

Lemma holding_state_fields s s' :
  holding_state s' = holding_state s ->
  Autopilot.lateral_mode s' = Autopilot.lateral_mode s
  /\ Autopilot.holding s' = Autopilot.holding s
  /\ Autopilot.holding_info s' = Autopilot.holding_info s.
Proof. unfold holding_state. intros H. injection H. intros. repeat split; assumption. Qed.

Lemma steered_state_fields s s' :
  steered_state s' = steered_state s ->
  Autopilot.dist s' = Autopilot.dist s
  /\ Autopilot.flight_plan_updated s' = Autopilot.flight_plan_updated s.
Proof. unfold steered_state. intros H. injection H. intros. repeat split; assumption. Qed.

Lemma track_leg_holding i_val self self' :
  track_leg i_val self = Ok self' ->
  (Autopilot.holding self', Autopilot.holding_info self')
  = (Autopilot.holding self, Autopilot.holding_info self).
Proof.
  unfold track_leg. destruct i_val as [i val]. intros H. frame_inv H; reflexivity.
Qed.

Lemma track_legs_holding l self tracked :
  for_each track_leg l self = Ok tracked ->
  (Autopilot.holding tracked, Autopilot.holding_info tracked)
  = (Autopilot.holding self, Autopilot.holding_info self).
Proof.
  exact (for_each_view _ (fun s => (Autopilot.holding s, Autopilot.holding_info s))
           track_leg_holding l self tracked).
Qed.

(** One slot through a tick: the waypoint advance, in terms of the state
    before the tick, of the position and heading of the aircraft and of the
    targets after the tick; the leg pointer, the lateral mode and the
    holding flag after the tick. *)
Lemma update_pointer np units cal traffic self self' traffic' (i : nat) (p p' : Z)
    (h : bool) :
  update np units cal traffic self = Ok (self', traffic') ->
  Autopilot.flight_plan_index self !! i = Some p ->
  Autopilot.holding self !! i = Some h ->
  Autopilot.flight_plan_index self' !! i = Some p' ->
  exists (names : list string) (mode : APLateralMode) (flag : bool)
         (cached angle tlat tlong theading alat along nlat nlong : Q) (next h' : bool),
    Autopilot.flight_plan_name self !! i = Some names
    /\ Autopilot.lateral_mode self !! i = Some mode
    /\ Autopilot.flight_plan_updated self !! i = Some flag
    /\ Autopilot.dist self !! i = Some cached
    /\ Autopilot.track_angle self !! i = Some angle
    /\ Traffic.lat traffic !! i = Some tlat
    /\ Traffic.long traffic !! i = Some tlong
    /\ Traffic.heading traffic !! i = Some theading
    /\ Autopilot.lat self' !! i = Some alat
    /\ Autopilot.long self' !! i = Some along
    /\ Autopilot.lat_next self' !! i = Some nlat
    /\ Autopilot.long_next self' !! i = Some nlong
    /\ Autopilot.hv_next_wp self' !! i = Some next
    /\ Autopilot.holding self' !! i = Some h'
    /\ (h = false -> Autopilot.holding_info self !! i = Some [] -> h' = false)
    /\ let fresh := cal_great_circle_dist cal tlat tlong alat along in
       let bearing :=
         if next then cal_great_circle_bearing cal alat along nlat nlong else angle in
       let advance :=
         bool_decide (mode = LNAV) && (p <? Z.of_nat (length names))
         && Qlt_bool (if flag then fresh else cached) fresh
         && Qlt_bool (Qabs (cal_angle_diff cal theading bearing)) 1 in
       let enter := negb h && h' in
       p' = pointer_after advance enter p
       /\ Autopilot.lateral_mode self' !! i
          = Some (if enter then HEADING
                  else if h && negb h' then LNAV
                  else if p <? Z.of_nat (length names) then mode else HEADING).
Proof.
  intros Hrun Hp Hh Hp'.
  apply update_Ok in Hrun as (tracked & steered & dist & cached & advance & Htracked & Hdist
    & Hcached & Hadvance & _ & Hpointer & _ & Hsame & Hholding & Hheld).
  assert (tracked_state self' = tracked_state steered) as Hbeside
    by exact (f_equal fst (hold_beside _ _ _ _ _ _ Hheld)).
  rewrite Hsame in Hbeside.
  apply tracked_state_targets in Hbeside as (_ & Elat & Elong & Elatn & Elongn & Ehv & _).
  apply holding_state_fields in Hholding as (Emode & Eholding & Einfo).
  pose proof (track_legs_holding _ _ _ Htracked) as [= Eh Ei].
  pose proof (track_legs_sequencing _ _ _ Htracked) as [= Epointer _ _ _].
  assert (is_Some (Autopilot.flight_plan_index steered !! i)) as [q Hq].
  { apply hold_lengths, related_flight_plan_index in Hheld.
    apply (lookup_same_length _ _ _ Hheld). eauto. }
  pose proof Hq as Hq'. rewrite Hpointer in Hq'.
  apply lookup_where in Hq' as (a & x & y & Ha & Hx & Hy & ->).
  rewrite Epointer, Hp in Hy. injection Hy as <-.
  rewrite list_lookup_fmap, Epointer, Hp in Hx. injection Hx as <-.
  rewrite Hadvance, Hcached, Hdist in Ha.
  destruct (advance_slot _ _ _ _ _ _ _ Htracked Hp Ha)
    as (names & mode & flag & cached_i & angle & tlat & tlong & theading & alat & along
        & nlat & nlong & next & Hnames & Hmode & Hflag & Hcached_i & Hangle & Htlat & Htlong
        & Htheading & Halat & Halong & Hnlat & Hnlong & Hnext & Hlateral & Hvalue).
  rewrite <- Emode in Hlateral. rewrite <- Eh, <- Eholding in Hh.
  destruct (hold_slot _ _ _ _ _ _ _ _ _ Hheld Hq Hh Hlateral) as (h' & Hh' & Hpointer' & Hmode').
  rewrite Hp' in Hpointer'. injection Hpointer' as ->.
  exists names, mode, flag, cached_i, angle, tlat, tlong, theading, alat, along, nlat, nlong,
    next, h'.
  rewrite Elat, Elong, Elatn, Elongn, Ehv.
  repeat (split; [assumption|]).
  split.
  { intros -> Hinfo. rewrite <- Ei, <- Einfo in Hinfo.
    pose proof (hold_idle _ _ _ _ _ _ Hheld Hh Hinfo) as Hidle. congruence. }
  cbv zeta. rewrite <- Hvalue. split; [reflexivity|exact Hmode'].
Qed.

(** C4, as the code has it.  A tick overwrites the cached distance of every
    aircraft, whatever its "flight plan updated" flag.  The waypoint advance
    fires for an aircraft in LNAV whose leg pointer is within its plan,
    whose distance to the target, computed in this tick, is greater than
    the baseline, and whose heading is within one degree of the bearing of
    the next leg; the baseline is the cached distance when the flag is
    clear and the distance of this tick itself when the flag is set, so
    that the advance cannot fire then.  Where the advance fires, the new
    cached distance is the distance from the aircraft to the target of the
    next leg, and everywhere else it is the distance from the aircraft to
    its current target, computed in this tick.  The flag is clear for
    every aircraft afterwards. *)
Theorem update_overwrites_dist np units cal traffic self self' traffic' (i : nat) (p : Z)
    (d : Q) :
  update np units cal traffic self = Ok (self', traffic') ->
  Autopilot.flight_plan_index self !! i = Some p ->
  Autopilot.dist self' !! i = Some d ->
  exists (names : list string) (mode : APLateralMode) (flag : bool)
         (cached angle tlat tlong theading alat along nlat nlong : Q) (next : bool),
    Autopilot.flight_plan_name self !! i = Some names
    /\ Autopilot.lateral_mode self !! i = Some mode
    /\ Autopilot.flight_plan_updated self !! i = Some flag
    /\ Autopilot.dist self !! i = Some cached
    /\ Autopilot.track_angle self !! i = Some angle
    /\ Traffic.lat traffic !! i = Some tlat
    /\ Traffic.long traffic !! i = Some tlong
    /\ Traffic.heading traffic !! i = Some theading
    /\ Autopilot.lat self' !! i = Some alat
    /\ Autopilot.long self' !! i = Some along
    /\ Autopilot.lat_next self' !! i = Some nlat
    /\ Autopilot.long_next self' !! i = Some nlong
    /\ Autopilot.hv_next_wp self' !! i = Some next
    /\ Autopilot.flight_plan_updated self' !! i = Some false
    /\ let fresh := cal_great_circle_dist cal tlat tlong alat along in
       let baseline := if flag then fresh else cached in
       let bearing :=
         if next then cal_great_circle_bearing cal alat along nlat nlong else angle in
       let advance :=
         bool_decide (mode = LNAV) && (p <? Z.of_nat (length names))
         && Qlt_bool baseline fresh
         && Qlt_bool (Qabs (cal_angle_diff cal theading bearing)) 1 in
       d = (if advance then cal_great_circle_dist cal tlat tlong nlat nlong else fresh)
       /\ (flag = true -> advance = false).
Proof.
  intros Hrun Hp Hd.
  apply update_Ok in Hrun as (tracked & steered & dist & cached & advance & Htracked & Hdist
    & Hcached & Hadvance & Hdist' & _ & Hflag' & Hsame & _ & Hheld).
  assert (tracked_state self' = tracked_state steered) as Hbeside
    by exact (f_equal fst (hold_beside _ _ _ _ _ _ Hheld)).
  assert (steered_state self' = steered_state steered) as Hsteered
    by exact (f_equal snd (hold_beside _ _ _ _ _ _ Hheld)).
  rewrite Hsame in Hbeside.
  apply tracked_state_targets in Hbeside as (_ & Elat & Elong & Elatn & Elongn & Ehv & _).
  apply steered_state_fields in Hsteered as (Edist & Eflag).
  rewrite Edist, Hdist' in Hd.
  apply lookup_where in Hd as (a & x & y & Ha & Hx & Hy & ->).
  pose proof Ha as Ha'. rewrite Hadvance, Hcached, Hdist in Ha'.
  destruct (advance_slot _ _ _ _ _ _ _ Htracked Hp Ha')
    as (names & mode & flag & cached_i & angle & tlat & tlong & theading & alat & along
        & nlat & nlong & next & Hnames & Hmode & Hflag & Hcached_i & Hangle & Htlat & Htlong
        & Htheading & Halat & Halong & Hnlat & Hnlong & Hnext & Hlateral & Hvalue).
  exists names, mode, flag, cached_i, angle, tlat, tlong, theading, alat, along, nlat, nlong,
    next.
  rewrite Elat, Elong, Elatn, Elongn, Ehv.
  repeat (split; [assumption|]).
  split.
  { rewrite Eflag, Hflag'. apply lookup_where_l.
    pose proof (track_legs_sequencing _ _ _ Htracked) as [= _ Eupdated _ _].
    exists flag, flag. rewrite Eupdated. repeat split; [assumption..|]. by destruct flag. }
  cbv zeta. rewrite <- Hvalue. split.
  - rewrite Hdist in Hy.
    apply lookup_map4 in Hy as (? & ? & ? & ? & Y1 & Y2 & Y3 & Y4 & ->).
    apply lookup_map4 in Hx as (? & ? & ? & ? & X1 & X2 & X3 & X4 & ->).
    rewrite Htlat in X1, Y1. injection X1 as <-. injection Y1 as <-.
    rewrite Htlong in X2, Y2. injection X2 as <-. injection Y2 as <-.
    rewrite Hnlat in X3. injection X3 as <-. rewrite Hnlong in X4. injection X4 as <-.
    rewrite Halat in Y3. injection Y3 as <-. rewrite Halong in Y4. injection Y4 as <-.
    reflexivity.
  - intros ->. rewrite Hvalue, Qlt_bool_irrefl, andb_false_r. reflexivity.
Qed.

Lemma update_overwrites_dist_witness :
  exists (names : list string) (mode : APLateralMode) (flag : bool)
         (cached angle tlat tlong theading alat along nlat nlong : Q) (next : bool),
    Autopilot.flight_plan_name Demo.ap_tick1 !! 0%nat = Some names
    /\ Autopilot.lateral_mode Demo.ap_tick1 !! 0%nat = Some mode
    /\ Autopilot.flight_plan_updated Demo.ap_tick1 !! 0%nat = Some flag
    /\ Autopilot.dist Demo.ap_tick1 !! 0%nat = Some cached
    /\ Autopilot.track_angle Demo.ap_tick1 !! 0%nat = Some angle
    /\ Traffic.lat (Demo.traffic_at 22 114) !! 0%nat = Some tlat
    /\ Traffic.long (Demo.traffic_at 22 114) !! 0%nat = Some tlong
    /\ Traffic.heading (Demo.traffic_at 22 114) !! 0%nat = Some theading
    /\ Autopilot.lat Demo.ap_tick2 !! 0%nat = Some alat
    /\ Autopilot.long Demo.ap_tick2 !! 0%nat = Some along
    /\ Autopilot.lat_next Demo.ap_tick2 !! 0%nat = Some nlat
    /\ Autopilot.long_next Demo.ap_tick2 !! 0%nat = Some nlong
    /\ Autopilot.hv_next_wp Demo.ap_tick2 !! 0%nat = Some next
    /\ Autopilot.flight_plan_updated Demo.ap_tick2 !! 0%nat = Some false
    /\ let fresh := cal_great_circle_dist Demo.cal tlat tlong alat along in
       let baseline := if flag then fresh else cached in
       let bearing :=
         if next then cal_great_circle_bearing Demo.cal alat along nlat nlong else angle in
       let advance :=
         bool_decide (mode = LNAV) && (1 <? Z.of_nat (length names))
         && Qlt_bool baseline fresh
         && Qlt_bool (Qabs (cal_angle_diff Demo.cal theading bearing)) 1 in
       1%Q = (if advance then cal_great_circle_dist Demo.cal tlat tlong nlat nlong
              else fresh)
       /\ (flag = true -> advance = false).
Proof.
  apply (update_overwrites_dist Demo.np Demo.units Demo.cal (Demo.traffic_at 22 114)
           Demo.ap_tick1 Demo.ap_tick2
           (Demo.traffic_after (Demo.traffic_at 22 114) Demo.ap_tick1) 0 1 1).
  - vm_compute. reflexivity.
  - reflexivity.
  - reflexivity.
Defined.

(** C4, as stated, fails.  Before the second tick the flag of the aircraft is
    clear and its cached distance is 2; the tick does not advance the leg
    pointer, and it leaves the cached distance at 1, the distance from the
    new position to the target. *)
Lemma update_counterexample :
  update Demo.np Demo.units Demo.cal (Demo.traffic_at 22 114) Demo.ap_tick1
  = Ok (Demo.ap_tick2, Demo.traffic_after (Demo.traffic_at 22 114) Demo.ap_tick1)
  /\ Autopilot.flight_plan_updated Demo.ap_tick1 = [false]
  /\ Autopilot.flight_plan_index Demo.ap_tick1 = [1]
  /\ Autopilot.flight_plan_index Demo.ap_tick2 = [1]
  /\ Autopilot.dist Demo.ap_tick1 = [2%Q]
  /\ Autopilot.dist Demo.ap_tick2 = [1%Q]
  /\ ~ (1 == 2)%Q.
Proof.
  repeat split; try (vm_compute; reflexivity).
  intros H. vm_compute in H. discriminate H.
Qed.

(** X10. A tick never advances the leg pointer of an aircraft whose "flight
    plan updated" flag is set: the cached distance is first replaced by the
    distance of this tick, which is not greater than itself.  After the
    tick the pointer is as before, or one less (within 64 bits) when the
    aircraft entered the holding pattern in this tick, which an aircraft
    without a holding definition does not. *)
Theorem update_fresh_plan_holds np units cal traffic self self' traffic' (i : nat)
    (p p' : Z) (h : bool) :
  update np units cal traffic self = Ok (self', traffic') ->
  Autopilot.flight_plan_updated self !! i = Some true ->
  Autopilot.flight_plan_index self !! i = Some p ->
  Autopilot.holding self !! i = Some h ->
  Autopilot.flight_plan_index self' !! i = Some p' ->
  exists h' : bool,
    Autopilot.holding self' !! i = Some h'
    /\ p' = (if negb h && h' then wrap64 (p - 1) else p)
    /\ (h = false -> Autopilot.holding_info self !! i = Some [] -> p' = p).
Proof.
  intros Hrun Hflag Hp Hh Hp'.
  destruct (update_pointer _ _ _ _ _ _ _ _ _ _ _ Hrun Hp Hh Hp')
    as (names & mode & flag & cached & angle & tlat & tlong & theading & alat & along
        & nlat & nlong & next & h' & _ & _ & Hflag' & _ & _ & _ & _ & _ & _ & _ & _ & _ & _
        & Hh' & Hidle & Hpointer & _).
  rewrite Hflag in Hflag'. injection Hflag' as <-.
  rewrite Qlt_bool_irrefl, andb_false_r in Hpointer. simpl in Hpointer.
  unfold pointer_after in Hpointer.
  exists h'. split; [exact Hh'|]. split; [exact Hpointer|].
  intros -> Hinfo. rewrite (Hidle eq_refl Hinfo) in Hpointer. exact Hpointer.
Qed.

Lemma update_fresh_plan_holds_witness :
  exists h' : bool,
    Autopilot.holding Demo.ap_tick1 !! 0%nat = Some h'
    /\ 1 = (if negb false && h' then wrap64 (1 - 1) else 1)
    /\ (false = false -> Autopilot.holding_info Demo.ap1 !! 0%nat = Some [] -> 1 = 1).
Proof.
  apply (update_fresh_plan_holds Demo.np Demo.units Demo.cal (Demo.traffic_at 22 113)
           Demo.ap1 Demo.ap_tick1 (Demo.traffic_after (Demo.traffic_at 22 113) Demo.ap1) 0).
  - vm_compute. reflexivity.
  - reflexivity.
  - reflexivity.
  - reflexivity.
  - reflexivity.
Defined.

(** X11. A tick does not advance the leg pointer of an aircraft whose leg
    pointer is at or beyond the end of its plan, and it puts the aircraft in
    lateral mode HEADING, unless the aircraft leaves its holding pattern in
    this tick, which puts it in LNAV.  After the tick the pointer is as
    before, or one less (within 64 bits) when the aircraft entered the
    holding pattern in this tick, which an aircraft without a holding
    definition does not. *)
Theorem update_past_plan np units cal traffic self self' traffic' (i : nat) (p p' : Z)
    (names : list string) (h : bool) :
  update np units cal traffic self = Ok (self', traffic') ->
  Autopilot.flight_plan_index self !! i = Some p ->
  Autopilot.flight_plan_name self !! i = Some names ->
  Z.of_nat (length names) <= p ->
  Autopilot.holding self !! i = Some h ->
  Autopilot.flight_plan_index self' !! i = Some p' ->
  exists h' : bool,
    Autopilot.holding self' !! i = Some h'
    /\ p' = (if negb h && h' then wrap64 (p - 1) else p)
    /\ Autopilot.lateral_mode self' !! i = Some (if h && negb h' then LNAV else HEADING)
    /\ (h = false -> Autopilot.holding_info self !! i = Some [] ->
        p' = p /\ Autopilot.lateral_mode self' !! i = Some HEADING).
Proof.
  intros Hrun Hp Hnames Hlen Hh Hp'.
  destruct (update_pointer _ _ _ _ _ _ _ _ _ _ _ Hrun Hp Hh Hp')
    as (names' & mode & flag & cached & angle & tlat & tlong & theading & alat & along
        & nlat & nlong & next & h' & Hnames' & _ & _ & _ & _ & _ & _ & _ & _ & _ & _ & _ & _
        & Hh' & Hidle & Hpointer & Hmode).
  rewrite Hnames in Hnames'. injection Hnames' as <-.
  replace (p <? Z.of_nat (length names)) with false in Hpointer, Hmode
    by (symmetry; apply Z.ltb_ge; lia).
  rewrite andb_false_r in Hpointer. simpl in Hpointer. unfold pointer_after in Hpointer.
  assert (Autopilot.lateral_mode self' !! i = Some (if h && negb h' then LNAV else HEADING))
    as Hmode'.
  { rewrite Hmode. by destruct h, h'. }
  exists h'. split; [exact Hh'|]. split; [exact Hpointer|]. split; [exact Hmode'|].
  intros -> Hinfo. rewrite (Hidle eq_refl Hinfo) in Hpointer, Hmode'. by split.
Qed.

Lemma update_past_plan_witness :
  exists h' : bool,
    Autopilot.holding Flights.overrun_to_hold_tick !! 0%nat = Some h'
    /\ 5 = (if negb false && h' then wrap64 (6 - 1) else 6)
    /\ Autopilot.lateral_mode Flights.overrun_to_hold_tick !! 0%nat
       = Some (if false && negb h' then LNAV else HEADING)
    /\ (false = false -> Autopilot.holding_info Flights.overrun_to_hold !! 0%nat = Some [] ->
        5 = 6 /\ Autopilot.lateral_mode Flights.overrun_to_hold_tick !! 0%nat = Some HEADING).
Proof.
  apply (update_past_plan Demo.np Demo.units Demo.cal (Demo.traffic_at 22 113)
           Flights.overrun_to_hold Flights.overrun_to_hold_tick
           (Demo.traffic_after (Demo.traffic_at 22 113) Flights.overrun_to_hold) 0 6 5
           ["VHHH RW07R"; "PRAWN"; "RUMSY"; "RCTP_RW05L"; "RCTP_RW05L_END"]).
  - vm_compute. reflexivity.
  - reflexivity.
  - reflexivity.
  - simpl. lia.
  - reflexivity.
  - reflexivity.
Defined.

(** The aircraft that overran its plan enters the holding pattern: its leg
    pointer goes back from 6 to 5.  Without the holding definition it
    stays at 6. *)
Example update_past_plan_demo :
  Autopilot.flight_plan_index Flights.overrun_to_hold = [6]
  /\ Autopilot.flight_plan_index Flights.overrun_to_hold_tick = [5]
  /\ Autopilot.holding Flights.overrun_to_hold_tick = [true]
  /\ Autopilot.lateral_mode Flights.overrun_to_hold_tick = [HEADING]
  /\ Autopilot.flight_plan_index Flights.overrun_tick = [6]
  /\ Autopilot.lateral_mode Flights.overrun_tick = [HEADING].
Proof. repeat split; reflexivity. Qed.

(** X19. Where a tick takes the leg pointer of an aircraft.  The waypoint
    advance fires for an aircraft in LNAV whose leg pointer is within its
    plan, whose distance to the target is greater than the baseline (the
    cached distance, or the distance of this tick when the "flight plan
    updated" flag is set) and whose heading is within one degree of the
    bearing of the next leg; the pointer then grows by one.  After that,
    the pointer goes back by one when the aircraft enters the holding
    pattern in this tick.  Both steps stay within 64 bits.  The lateral
    mode is HEADING when the aircraft enters the pattern, LNAV when it
    leaves it, HEADING when the pointer was beyond the plan, and as before
    otherwise. *)
Theorem update_leg_pointer np units cal traffic self self' traffic' (i : nat) (p p' : Z)
    (h : bool) :
  update np units cal traffic self = Ok (self', traffic') ->
  Autopilot.flight_plan_index self !! i = Some p ->
  Autopilot.holding self !! i = Some h ->
  Autopilot.flight_plan_index self' !! i = Some p' ->
  exists (names : list string) (mode : APLateralMode) (flag : bool)
         (cached angle tlat tlong theading alat along nlat nlong : Q) (next h' : bool),
    Autopilot.flight_plan_name self !! i = Some names
    /\ Autopilot.lateral_mode self !! i = Some mode
    /\ Autopilot.flight_plan_updated self !! i = Some flag
    /\ Autopilot.dist self !! i = Some cached
    /\ Autopilot.track_angle self !! i = Some angle
    /\ Traffic.lat traffic !! i = Some tlat
    /\ Traffic.long traffic !! i = Some tlong
    /\ Traffic.heading traffic !! i = Some theading
    /\ Autopilot.lat self' !! i = Some alat
    /\ Autopilot.long self' !! i = Some along
    /\ Autopilot.lat_next self' !! i = Some nlat
    /\ Autopilot.long_next self' !! i = Some nlong
    /\ Autopilot.hv_next_wp self' !! i = Some next
    /\ Autopilot.holding self' !! i = Some h'
    /\ (h = false -> Autopilot.holding_info self !! i = Some [] -> h' = false)
    /\ let fresh := cal_great_circle_dist cal tlat tlong alat along in
       let bearing :=
         if next then cal_great_circle_bearing cal alat along nlat nlong else angle in
       let advance :=
         bool_decide (mode = LNAV) && (p <? Z.of_nat (length names))
         && Qlt_bool (if flag then fresh else cached) fresh
         && Qlt_bool (Qabs (cal_angle_diff cal theading bearing)) 1 in
       let enter := negb h && h' in
       p' = pointer_after advance enter p
       /\ Autopilot.lateral_mode self' !! i
          = Some (if enter then HEADING
                  else if h && negb h' then LNAV
                  else if p <? Z.of_nat (length names) then mode else HEADING).
Proof. apply update_pointer. Qed.

Lemma update_leg_pointer_witness :
  exists (names : list string) (mode : APLateralMode) (flag : bool)
         (cached angle tlat tlong theading alat along nlat nlong : Q) (next h' : bool),
    Autopilot.flight_plan_name Demo.ap_tick1 !! 0%nat = Some names
    /\ Autopilot.lateral_mode Demo.ap_tick1 !! 0%nat = Some mode
    /\ Autopilot.flight_plan_updated Demo.ap_tick1 !! 0%nat = Some flag
    /\ Autopilot.dist Demo.ap_tick1 !! 0%nat = Some cached
    /\ Autopilot.track_angle Demo.ap_tick1 !! 0%nat = Some angle
    /\ Traffic.lat Flights.passed !! 0%nat = Some tlat
    /\ Traffic.long Flights.passed !! 0%nat = Some tlong
    /\ Traffic.heading Flights.passed !! 0%nat = Some theading
    /\ Autopilot.lat Flights.passed_tick !! 0%nat = Some alat
    /\ Autopilot.long Flights.passed_tick !! 0%nat = Some along
    /\ Autopilot.lat_next Flights.passed_tick !! 0%nat = Some nlat
    /\ Autopilot.long_next Flights.passed_tick !! 0%nat = Some nlong
    /\ Autopilot.hv_next_wp Flights.passed_tick !! 0%nat = Some next
    /\ Autopilot.holding Flights.passed_tick !! 0%nat = Some h'
    /\ (false = false -> Autopilot.holding_info Demo.ap_tick1 !! 0%nat = Some [] ->
        h' = false)
    /\ let fresh := cal_great_circle_dist Demo.cal tlat tlong alat along in
       let bearing :=
         if next then cal_great_circle_bearing Demo.cal alat along nlat nlong else angle in
       let advance :=
         bool_decide (mode = LNAV) && (1 <? Z.of_nat (length names))
         && Qlt_bool (if flag then fresh else cached) fresh
         && Qlt_bool (Qabs (cal_angle_diff Demo.cal theading bearing)) 1 in
       let enter := negb false && h' in
       2 = pointer_after advance enter 1
       /\ Autopilot.lateral_mode Flights.passed_tick !! 0%nat
          = Some (if enter then HEADING
                  else if false && negb h' then LNAV
                  else if 1 <? Z.of_nat (length names) then mode else HEADING).
Proof.
  apply (update_leg_pointer Demo.np Demo.units Demo.cal Flights.passed Demo.ap_tick1
           Flights.passed_tick (Demo.traffic_after Flights.passed Demo.ap_tick1) 0 1 2).
  - vm_compute. reflexivity.
  - reflexivity.
  - reflexivity.
  - reflexivity.
Defined.

(** The waypoint advance fires for the aircraft that has passed its
    target: the leg pointer goes from 1 to 2, and the cached distance is
    the distance to the target of the next leg. *)
Example update_leg_pointer_demo :
  Autopilot.flight_plan_index Demo.ap_tick1 = [1]
  /\ Autopilot.flight_plan_index Flights.passed_tick = [2]
  /\ Autopilot.dist Demo.ap_tick1 = [2%Q]
  /\ Autopilot.dist Flights.passed_tick = [2%Q]
  /\ Autopilot.lat_next Flights.passed_tick = [24%Q]
  /\ Autopilot.long_next Flights.passed_tick = [115%Q].
Proof. repeat split; reflexivity. Qed.

(** ** More of the facade *)

(** X13. [resume_own_navigation] brings back the modes, not the targets:
    after a heading instruction, a speed instruction and the instruction to
    resume own navigation, the aircraft is in LNAV with automatic throttle,
    and the heading and the speed that were instructed still are the
    targets of the autopilot. *)
Theorem resume_keeps_targets (heading speed : Q) (s s' : Aircraft.t) :
  (_ ← set_heading heading; _ ← set_speed speed; resume_own_navigation) s = (Ok tt, s') ->
  exists index,
    first_index (Aircraft.index s) (Traffic.index (Aircraft.traffic s)) 0 = Ok index
    /\ Py.getitem (Autopilot.heading (ap_of s')) index = Ok heading
    /\ Py.getitem (Autopilot.cas (ap_of s')) index = Ok speed
    /\ Py.getitem (Autopilot.lateral_mode (ap_of s')) index = Ok LNAV
    /\ Py.getitem (Autopilot.auto_throttle_mode (ap_of s')) index = Ok AUTO.
Proof.
  intros H.
  apply M_bind_Ok in H as ([] & s1 & H1 & H).
  apply M_bind_Ok in H as ([] & s2 & H2 & H3).
  unfold set_heading, resolve in H1.
  m_step H1 as index s0 Hindex.
  apply M_bind_Ok in H1 as ([] & ? & (? & (? & Hh & ->)%assign_Ok & ->)%on_ap_Ok & H1).
  apply on_ap_Ok in H1 as (? & (? & _ & ->)%assign_Ok & ->).
  unfold set_speed, resolve in H2.
  m_step H2 as index2 s0 Hindex2.
  change (first_index (Aircraft.index s) (Traffic.index (Aircraft.traffic s)) 0 = Ok index2)
    in Hindex2.
  rewrite Hindex in Hindex2. injection Hindex2 as <-.
  apply M_bind_Ok in H2 as ([] & ? & (? & (? & Hc & ->)%assign_Ok & ->)%on_ap_Ok & H2).
  apply on_ap_Ok in H2 as (? & (? & _ & ->)%assign_Ok & ->).
  unfold resume_own_navigation, resolve in H3.
  m_step H3 as index3 s0 Hindex3.
  change (first_index (Aircraft.index s) (Traffic.index (Aircraft.traffic s)) 0 = Ok index3)
    in Hindex3.
  rewrite Hindex in Hindex3. injection Hindex3 as <-.
  apply M_bind_Ok in H3 as ([] & ? & (? & (? & Hl & ->)%assign_Ok & ->)%on_ap_Ok & H3).
  apply on_ap_Ok in H3 as (? & (? & Ht & ->)%assign_Ok & ->).
  exists index. split; [done|].
  repeat split.
  - exact (getitem_setitem _ _ _ _ Hh).
  - exact (getitem_setitem _ _ _ _ Hc).
  - exact (getitem_setitem _ _ _ _ Hl).
  - exact (getitem_setitem _ _ _ _ Ht).
Qed.

Lemma resume_keeps_targets_witness :
  exists index,
    first_index (Aircraft.index (Demo.handle Demo.ap1))
      (Traffic.index (Aircraft.traffic (Demo.handle Demo.ap1))) 0 = Ok index
    /\ Py.getitem (Autopilot.heading (ap_of Handles.resumed)) index = Ok 90%Q
    /\ Py.getitem (Autopilot.cas (ap_of Handles.resumed)) index = Ok 210%Q
    /\ Py.getitem (Autopilot.lateral_mode (ap_of Handles.resumed)) index = Ok LNAV
    /\ Py.getitem (Autopilot.auto_throttle_mode (ap_of Handles.resumed)) index = Ok AUTO.
Proof.
  apply (resume_keeps_targets 90 210 (Demo.handle Demo.ap1) Handles.resumed).
  vm_compute. reflexivity.
Defined.

Lemma getitem_fmap {A B : Type} (f : A -> B) (l : list A) (i : Z) (y : B) :
  Py.getitem (f <$> l) i = Ok y -> exists x, Py.getitem l i = Ok x /\ y = f x.
Proof.
  intros (n & Hn & Hy)%getitem_Ok. rewrite length_fmap in Hn.
  rewrite list_lookup_fmap in Hy.
  destruct (l !! n) as [x|] eqn:Hx; [|done]. injection Hy as <-.
  exists x. split; [|done]. apply getitem_Ok. eauto.
Qed.

(** X14. Planning anew through the facade without a [flight_plan_index]
    moves the leg pointer on by one, within 64 bits: the stored pointer, an
    entry of a vector of 64-bit integers, is passed on as the index, and
    [Autopilot.set_flight_plan] adds one to the index it is given.  The
    pointer grows by one, but from the greatest 64-bit integer it wraps
    around to the least. *)
Theorem facade_set_flight_plan_drifts nav arrival_airport arrival_runway star approach
    flight_plan cruise_alt (s s' : Aircraft.t) :
  Facade.set_flight_plan nav arrival_airport arrival_runway star approach flight_plan None
    cruise_alt s = Ok s' ->
  exists index p,
    first_index (Aircraft.index s) (Traffic.index (Aircraft.traffic s)) 0 = Ok index
    /\ Py.getitem (Autopilot.flight_plan_index (ap_of s)) index = Ok p
    /\ Py.getitem (Autopilot.flight_plan_index (ap_of s')) index = Ok (wrap64 (p + 1))
    /\ (int64_min <= p < int64_max -> wrap64 (p + 1) = p + 1)
    /\ (p = int64_max -> wrap64 (p + 1) = int64_min).
Proof.
  unfold Facade.set_flight_plan. intros H.
  apply bind_Ok in H as (index & Hindex & H). cbv zeta in H.
  apply bind_Ok in H as (da & _ & H). apply bind_Ok in H as (dr & _ & H).
  apply bind_Ok in H as (sid & _ & H). apply bind_Ok in H as (aa & _ & H).
  apply bind_Ok in H as (ar & _ & H). apply bind_Ok in H as (st & _ & H).
  apply bind_Ok in H as (appr & _ & H). apply bind_Ok in H as (fp & _ & H).
  apply bind_Ok in H as (x & (p & Hp & ->)%getitem_fmap & H).
  apply bind_Ok in H as (cruise & _ & H).
  apply bind_Ok in H as (ap' & Hplan & [= <-]).
  exists index, p. split; [done|]. split; [exact Hp|].
  rewrite ap_of_with_ap.
  apply set_flight_plan_stored in Hplan
    as (_ & _ & _ & _ & _ & _ & _ & _ & _ & (pointer & Hpointer & Hget) & _).
  apply to_int64_add_int in Hpointer as ->.
  split; [exact Hget|]. split.
  - intros Hrange. apply wrap64_id. unfold int64_min, int64_max in *. lia.
  - intros ->. reflexivity.
Qed.

Lemma facade_set_flight_plan_drifts_witness :
  exists index p,
    first_index (Aircraft.index (Demo.handle Demo.ap1))
      (Traffic.index (Aircraft.traffic (Demo.handle Demo.ap1))) 0 = Ok index
    /\ Py.getitem (Autopilot.flight_plan_index (ap_of (Demo.handle Demo.ap1))) index = Ok p
    /\ Py.getitem (Autopilot.flight_plan_index (ap_of Handles.replanned)) index
       = Ok (wrap64 (p + 1))
    /\ (int64_min <= p < int64_max -> wrap64 (p + 1) = p + 1)
    /\ (p = int64_max -> wrap64 (p + 1) = int64_min).
Proof.
  apply (facade_set_flight_plan_drifts Demo.nav None None None None None None
           (Demo.handle Demo.ap1) Handles.replanned).
  vm_compute. reflexivity.
Defined.

(** The leg pointer 1 becomes 2; the greatest 64-bit integer becomes the
    least. *)
Example facade_set_flight_plan_drifts_demo :
  Autopilot.flight_plan_index (ap_of (Demo.handle Demo.ap1)) = [1]
  /\ Autopilot.flight_plan_index (ap_of Handles.replanned) = [2]
  /\ Autopilot.flight_plan_index (ap_of Handles.saturated) = [int64_max]
  /\ Facade.set_flight_plan Demo.nav None None None None None None None Handles.saturated
     = Ok Handles.saturated_replanned
  /\ Autopilot.flight_plan_index (ap_of Handles.saturated_replanned) = [int64_min].
Proof. repeat split; vm_compute; reflexivity. Qed.

(** X15. Planning anew through the facade builds the plan afresh, without
    the "VECT" leg of an earlier vectoring instruction, but the handle goes
    on remembering the fix of that instruction: a new vectoring instruction
    to the same fix is ignored after the new plan as it was before. *)
Theorem replan_keeps_vectoring nav arrival_airport arrival_runway star approach
    flight_plan flight_plan_index cruise_alt geo vectoring_time v_2 (s s' : Aircraft.t) :
  Facade.set_flight_plan nav arrival_airport arrival_runway star approach flight_plan
    flight_plan_index cruise_alt s = Ok s' ->
  Aircraft.vectoring s' = Aircraft.vectoring s
  /\ set_vectoring geo vectoring_time v_2 (Aircraft.vectoring s) s' = (Ok tt, s').
Proof.
  unfold Facade.set_flight_plan. intros H.
  apply bind_Ok in H as (index & _ & H). cbv zeta in H.
  apply bind_Ok in H as (da & _ & H). apply bind_Ok in H as (dr & _ & H).
  apply bind_Ok in H as (sid & _ & H). apply bind_Ok in H as (aa & _ & H).
  apply bind_Ok in H as (ar & _ & H). apply bind_Ok in H as (st & _ & H).
  apply bind_Ok in H as (appr & _ & H). apply bind_Ok in H as (fp & _ & H).
  apply bind_Ok in H as (p & _ & H). apply bind_Ok in H as (cruise & _ & H).
  apply bind_Ok in H as (ap' & _ & [= <-]).
  split; [reflexivity|]. by apply set_vectoring_same.
Qed.

Lemma replan_keeps_vectoring_witness :
  Aircraft.vectoring Replan.vectored_replanned = Aircraft.vectoring Demo.vectored
  /\ set_vectoring Demo.geo 60 200 (Aircraft.vectoring Demo.vectored)
       Replan.vectored_replanned
     = (Ok tt, Replan.vectored_replanned).
Proof.
  apply (replan_keeps_vectoring Demo.nav None None None None None None None Demo.geo 60 200
           Demo.vectored Replan.vectored_replanned).
  vm_compute. reflexivity.
Defined.

Example replan_drops_vect :
  Autopilot.flight_plan_name (ap_of Demo.vectored)
  = [["VHHH RW07R"; "VECT"; "PORPA"; "PRAWN"; "RUMSY"; "RCTP_RW05L"; "RCTP_RW05L_END"]]
  /\ Autopilot.flight_plan_name (ap_of Replan.vectored_replanned)
     = [["VHHH RW07R"; "PORPA"; "PRAWN"; "RUMSY"; "RCTP_RW05L"; "RCTP_RW05L_END"]]
  /\ Aircraft.vectoring Replan.vectored_replanned = "PORPA".
Proof. repeat split; reflexivity. Qed.

(** X16. When the list of target altitudes of the aircraft has no entry at
    its leg pointer (as on the last legs of a plan without cruise altitude),
    [set_alt] raises [IndexError] at its first assignment and leaves the
    whole state as it was: the target altitude of the autopilot is not
    set. *)
Theorem set_alt_beyond_altitudes (alt : Q) (s : Aircraft.t) index p (alts : list Q) :
  first_index (Aircraft.index s) (Traffic.index (Aircraft.traffic s)) 0 = Ok index ->
  Py.getitem (Autopilot.flight_plan_index (ap_of s)) index = Ok p ->
  Py.getitem (Autopilot.flight_plan_target_alt (ap_of s)) index = Ok alts ->
  Py.norm (length alts) p = None ->
  set_alt alt s = (Raise IndexError, s).
Proof.
  intros Hindex Hp Halts Hnorm. unfold set_alt, resolve.
  rewrite M_bind_unfold. unfold eval at 1. rewrite Hindex.
  rewrite M_bind_unfold. unfold eval at 1. rewrite Hp.
  rewrite M_bind_unfold. unfold on_ap at 1, assign_item, mutate.
  rewrite Halts. simpl. unfold Py.setitem at 1. rewrite Hnorm. reflexivity.
Qed.

Lemma set_alt_beyond_altitudes_witness :
  set_alt 12000 (Demo.handle Handles.no_cruise)
  = (Raise IndexError, Demo.handle Handles.no_cruise).
Proof.
  apply (set_alt_beyond_altitudes 12000 (Demo.handle Handles.no_cruise) 0 4
           [28; 108; 0]%Q); first [reflexivity | simpl; lia].
Defined.

Lemma track_leg_reads_alt (i : nat) (p : Z) s s' (names : list string) (alts : list Q) :
  track_leg (Z.of_nat i, p) s = Ok s' ->
  Autopilot.flight_plan_name s !! i = Some names ->
  p < Z.of_nat (length names) ->
  Autopilot.flight_plan_target_alt s !! i = Some alts ->
  (1 < length alts)%nat ->
  exists v, Py.getitem alts p = Ok v.
Proof.
  unfold track_leg. intros H Hnames Hp Halts Hlen.
  apply bind_Ok in H as (names' & Hnames'%getitem_nat & H).
  rewrite Hnames in Hnames'. injection Hnames' as <-.
  replace (p <? Z.of_nat (length names)) with true in H by (symmetry; by apply Z.ltb_lt).
  apply bind_Ok in H as (lats & _ & H). apply bind_Ok in H as (? & _ & H).
  apply bind_Ok in H as (? & (? & _ & ->)%assign_Ok & H).
  apply bind_Ok in H as (longs & _ & H). apply bind_Ok in H as (? & _ & H).
  apply bind_Ok in H as (? & (? & _ & ->)%assign_Ok & H).
  apply bind_Ok in H as (? & _ & H).
  apply bind_Ok in H as (? & (? & _ & ->)%assign_Ok & H).
  apply bind_Ok in H as (? & _ & H).
  apply bind_Ok in H as (? & (? & _ & ->)%assign_Ok & H).
  apply bind_Ok in H as (s5 & H5 & H).
  assert (Autopilot.flight_plan_target_alt s5 = Autopilot.flight_plan_target_alt s)
    as Eplan.
  { destruct (p =? Z.of_nat (length names) - 1).
    - apply assign_Ok in H5 as (? & _ & ->). done.
    - apply bind_Ok in H5 as (? & _ & H5).
      apply bind_Ok in H5 as (? & (? & _ & ->)%assign_Ok & H5).
      apply bind_Ok in H5 as (? & _ & H5).
      apply bind_Ok in H5 as (? & (? & _ & ->)%assign_Ok & H5).
      apply assign_Ok in H5 as (? & _ & ->). done. }
  apply bind_Ok in H as (alts' & Halts'%getitem_nat & H).
  rewrite Eplan, Halts in Halts'. injection Halts' as <-.
  replace (1 <? length alts)%nat with true in H by (symmetry; by apply Nat.ltb_lt).
  apply bind_Ok in H as (v & Hv & _). eauto.
Qed.

(** X17. A tick cannot be computed when an aircraft is on a leg for which
    its plan holds no target altitude: if the leg pointer of some aircraft
    is within its plan and the list of its target altitudes has more than
    one entry but none at the pointer, [update] raises. *)
Theorem update_needs_altitude np units cal traffic self (i : nat) (p : Z)
    (names : list string) (alts : list Q) :
  Autopilot.flight_plan_index self !! i = Some p ->
  Autopilot.flight_plan_name self !! i = Some names ->
  p < Z.of_nat (length names) ->
  Autopilot.flight_plan_target_alt self !! i = Some alts ->
  (1 < length alts)%nat ->
  Py.norm (length alts) p = None ->
  exists e, update np units cal traffic self = Raise e.
Proof.
  intros Hp Hnames Hin Halts Hlen Hnorm.
  destruct (update np units cal traffic self) as [[self' traffic']|e] eqn:Hrun; [|eauto].
  exfalso.
  apply update_tracked in Hrun as (tracked & Htracked & _).
  destruct (enumerate_slot _ _ _ _ Htracked Hp)
    as (s & s' & Hleg & _ & _ & [= En _ _ Ea]).
  rewrite <- En in Hnames. rewrite <- Ea in Halts.
  destruct (track_leg_reads_alt _ _ _ _ _ _ Hleg Hnames Hin Halts Hlen) as [v Hv].
  apply getitem_Ok in Hv as (n & Hn & _). congruence.
Qed.

Lemma update_needs_altitude_witness :
  exists e,
    update Demo.np Demo.units Demo.cal (Demo.traffic_at 22 113) Handles.no_cruise = Raise e.
Proof.
  apply (update_needs_altitude Demo.np Demo.units Demo.cal (Demo.traffic_at 22 113)
           Handles.no_cruise 0 4
           ["VHHH RW07R"; "PRAWN"; "RUMSY"; "RCTP_RW05L"; "RCTP_RW05L_END"]
           [28; 108; 0]%Q); first [reflexivity | simpl; lia].
Defined.

(** ** Cross-track correction, within 200 m *)

Section CorrectionDamped.
Import Correction.
#[local] Open Scope R_scope.

Lemma exp_le (x y : R) : x <= y -> exp x <= exp y.
Proof.
  intros [Hlt| ->]; [|lra]. left. by apply exp_increasing.
Qed.

Lemma correction_near x : Rabs x <= 200 -> correction x = 20 * (1 - exp (- x / 40)).
Proof.
  intros Hx. unfold correction. destruct (Rgt_dec (Rabs x) 200); [lra|done].
Qed.

(** X18. Within 200 m the damping of the correction is one-sided.  For a
    deviation between 0 and 200 m the correction lies between 0 and 20
    degrees; for a deviation between -200 m and -40 m it is below -20
    degrees: the formula takes the exponential of the signed deviation, so
    that to the left of the track the correction grows in magnitude beyond
    the 20 degrees that apply farther out. *)
Theorem correction_one_sided :
  (forall x, 0 <= x <= 200 -> 0 <= correction x < 20)
  /\ (forall x, -200 <= x <= -40 -> correction x < -20)
  /\ correction (-200) < -100.
Proof.
  assert (2 < exp 1) as He by (pose proof (exp_ineq1 1); lra).
  split; [|split].
  - intros x Hx. rewrite correction_near by (rewrite Rabs_pos_eq; lra).
    pose proof (exp_pos (- x / 40)) as Hpos.
    pose proof (exp_le (- x / 40) 0 ltac:(lra)) as Hle. rewrite exp_0 in Hle. lra.
  - intros x Hx. rewrite correction_near by (rewrite Rabs_left1; lra).
    pose proof (exp_le 1 (- x / 40) ltac:(lra)) as Hle. lra.
  - rewrite correction_near by (rewrite Rabs_left1; lra).
    replace (- -200 / 40) with 5 by lra.
    pose proof (exp_ineq1 5 ltac:(lra)). lra.
Qed.
End CorrectionDamped.
